(** * FIDUCEO MVIRI FCDR reader: calibration and geometry engine

    Shallow embedding of [satpy/readers/mviri_l1b_fiduceo_nc.py] and the
    properties of its calibration, interpolation, acquisition-time,
    quality-check, area and orbital-parameter code.

    Conventions of the embedding:
    - a Python exception is a value of [exn]; a function that may raise
      returns a [result];
    - IEEE-754 numbers are [spec_float] values of the standard library;
      [np.float32] is rounding to binary32, Python floats are binary64, and
      array arithmetic is carried out in a working format [(prec, emax)],
      the dtype of the arrays;
    - the netCDF dataset [self.nc] is a record of typed variable tables;
    - transcendental functions and the library primitives whose arithmetic
      is not part of this file ([np.log], [np.cos], [np.deg2rad],
      [DataArray.interp], [DataArray.mean], the [_geos_area] helpers) are
      section variables. *)

From Stdlib Require Import ZArith List Ascii String Bool Lia SpecFloat.
From stdpp Require Import base option list gmap strings.

Local Open Scope string_scope.

(** ** Exceptions and fallible computations *)

Inductive exn :=
| KeyError (msg : string)
| ValueError (msg : string)
| ZeroDivisionError (msg : string).

Inductive result (A : Type) :=
| Ok (a : A)
| Raise (e : exn).
Arguments Ok {A} a.
Arguments Raise {A} e.

#[global] Instance result_ret : MRet result := @Ok.
#[global] Instance result_bind : MBind result :=
  fun A B f m => match m with Ok a => f a | Raise e => Raise e end.

(** [d[key]] on a dict or dataset: [KeyError] when the key is absent. *)
Definition getitem {V} (d : gmap string V) (key : string) : result V :=
  match d !! key with
  | Some v => Ok v
  | None => Raise (KeyError key)
  end.

(** Python's [//] on non-negative sizes. *)
Definition floordiv (n d : nat) : result nat :=
  match d with
  | O => Raise (ZeroDivisionError "integer division or modulo by zero")
  | _ => Ok (n / d)
  end.

(** ** Floating point *)

Definition float := spec_float.
Definition nan : float := S754_nan.

Definition isnan (x : float) : bool :=
  match x with S754_nan => true | _ => false end.

Definition is_finite (x : float) : bool :=
  match x with S754_zero _ | S754_finite _ _ _ => true | _ => false end.

Section Format.
Variables prec emax : Z.

(** Conversion of a float to the format, rounding to nearest even. *)
Definition cast (x : float) : float :=
  match x with
  | S754_finite s m e => binary_round prec emax s m e
  | _ => x
  end.

(** Conversion of a Python int. *)
Definition of_Z (z : Z) : float := binary_normalize prec emax z 0 false.

(** The dyadic literal [m * 2^e]. *)
Definition of_dyadic (m e : Z) : float := binary_normalize prec emax m e false.
End Format.

Definition np_float32 : float -> float := cast 24 128.

(** Python floats are binary64. *)
Module F64.
Definition prec : Z := 53.
Definition emax : Z := 1024.
Definition add := SFadd prec emax.
Definition sub := SFsub prec emax.
Definition mul := SFmul prec emax.
Definition div := SFdiv prec emax.
Definition of_Z := of_Z prec emax.
Definition of_dyadic := of_dyadic prec emax.
End F64.

(** [x.where(cond, other)], elementwise: keep where [cond] holds. *)
Definition where_ (cond : float -> bool) (other : float) (x : float) : float :=
  if cond x then x else other.

(** ** Labeled arrays *)

(** The pairs of dimension names found in the files. *)
Inductive Dims :=
| dims_y_x          (* ('y', 'x') *)
| dims_ir_wv        (* ('y_ir_wv', 'x_ir_wv') *)
| dims_tie.         (* ('y_tie', 'x_tie') *)

Inductive attr :=
| AttrBool (b : bool)
| AttrFloat (x : float)
| AttrStr (s : string).

(** A two-dimensional [xr.DataArray]: [values] holds the rows (first
    dimension), each of [ncols] elements. A dimension may lack a coordinate
    vector. [acq_time] is the extra coordinate along the first dimension that
    [_get_channel] attaches. *)
Record DataArray (A : Type) := mkDataArray {
  dims : Dims;
  ncols : nat;
  values : list (list A);
  coord_x : option (list Z);
  coord_y : option (list Z);
  acq_time : option (list Z);
  attrs : gmap string attr;
}.
Arguments mkDataArray {A}.
Arguments dims {A}.
Arguments ncols {A}.
Arguments values {A}.
Arguments coord_x {A}.
Arguments coord_y {A}.
Arguments acq_time {A}.
Arguments attrs {A}.

Definition nrows {A} (ds : DataArray A) : nat := length (values ds).

Definition with_values {A B} (ds : DataArray A) (v : list (list B)) : DataArray B :=
  mkDataArray (dims ds) (ncols ds) v (coord_x ds) (coord_y ds) (acq_time ds) (attrs ds).

Definition with_attrs {A} (ds : DataArray A) (a : gmap string attr) : DataArray A :=
  mkDataArray (dims ds) (ncols ds) (values ds) (coord_x ds) (coord_y ds) (acq_time ds) a.

(** Elementwise operation; arithmetic on a [DataArray] drops its attributes. *)
Definition elementwise {A B} (f : A -> B) (ds : DataArray A) : DataArray B :=
  with_attrs (with_values ds (map (map f) (values ds))) ∅.

(** A NumPy ufunc applied to a [DataArray], also through the arithmetic of
    a NumPy scalar on its left ([np.float32(a) + ds]), goes through
    [__array_ufunc__] and keeps the attributes. *)
Definition ufunc {A B} (f : A -> B) (ds : DataArray A) : DataArray B :=
  with_values ds (map (map f) (values ds)).

(** [x.where(cond, other)] with the condition computed from [x] itself keeps
    the attributes. *)
Definition da_where (cond : float -> bool) (other : float) (ds : DataArray float)
  : DataArray float :=
  with_values ds (map (map (where_ cond other)) (values ds)).

(** The pixel in row [i], column [j]. *)
Definition pixel {A} (v : list (list A)) (i j : nat) : option A :=
  row ← v !! i; row !! j.

(** [ds.rename({'y_ir_wv': 'y', 'x_ir_wv': 'x'})] and the tie-point
    analogue: dimensions and their coordinates take the new names. *)
Definition rename_y_x {A} (ds : DataArray A) : DataArray A :=
  mkDataArray dims_y_x (ncols ds) (values ds) (coord_x ds) (coord_y ds)
              (acq_time ds) (attrs ds).

(** [ds.assign_coords(x=xs, y=ys)]: a coordinate vector must have the length
    of its dimension. *)
Definition assign_coords {A} (ds : DataArray A) (xs ys : list Z)
  : result (DataArray A) :=
  if negb (length xs =? ncols ds)%nat then
    Raise (ValueError "conflicting sizes for dimension 'x'")
  else if negb (length ys =? nrows ds)%nat then
    Raise (ValueError "conflicting sizes for dimension 'y'")
  else
    Ok (mkDataArray (dims ds) (ncols ds) (values ds) (Some xs) (Some ys)
                    (acq_time ds) (attrs ds)).

(** ** The netCDF dataset and the file handler *)

(** A scanline-labeled grid of timestamps (nanoseconds, [datetime64[ns]]) on
    the dimensions [('y_ir_wv', 'x_ir_wv')]: one [(label, row)] per line, the
    label being the value of the [y_ir_wv] coordinate of the line. *)
Definition TimeGrid := list (Z * list Z).

(** The variables of the file by type; the zero-dimensional ones are
    doubles. *)
Record Dataset := mkDataset {
  nc_scalars : gmap string float;                 (* zero-dimensional variables *)
  nc_arrays : gmap string (DataArray float);      (* counts, reflectances, angles *)
  nc_masks : gmap string (DataArray Z);           (* integer bitmasks *)
  nc_times : gmap string TimeGrid;                (* 'time' or 'time_ir_wv' *)
  nc_coords : gmap string (list Z);               (* self.nc.coords *)
}.

(** The two subclasses of [FiduceoMviriBase]. *)
Inductive Variant := Easy | Full.

Record FileHandler := mkFileHandler {
  variant : Variant;
  mask_bad_quality : bool;
  nc : Dataset;
  projection_longitude : float;
}.

(** The members of satpy's calibration enumeration, and their [.name]. *)
Inductive Calibration := counts | radiance | reflectance | brightness_temperature.

Definition calibration_name (c : Calibration) : string :=
  match c with
  | counts => "counts"
  | radiance => "radiance"
  | reflectance => "reflectance"
  | brightness_temperature => "brightness_temperature"
  end.

(** ** Module constants *)

Definition EQUATOR_RADIUS : float := F64.of_Z 6378140.
Definition POLE_RADIUS : float := F64.of_Z 6356755.
Definition ALTITUDE : float := F64.sub (F64.of_Z 42164000) EQUATOR_RADIUS.
Definition MVIRI_FIELD_OF_VIEW : float := F64.of_Z 18.
Definition HIGH_RESOL : Z := 2250.

Definition nc_keys (v : Variant) : gmap string string :=
  <["VIS" := match v with
             | Easy => "toa_bidirectional_reflectance_vis"
             | Full => "count_vis"
             end]>
  (<["WV" := "count_wv"]> (<["IR" := "count_ir"]> ∅)).

(** [nc_keys_coefs[channel][calibration]]: the names of offset [a] and
    slope [b]. *)
Definition nc_keys_coefs : gmap string (gmap string (string * string)) :=
  <["WV" := <["radiance" := ("a_wv", "b_wv")]>
            (<["brightness_temperature" := ("bt_a_wv", "bt_b_wv")]> ∅)]>
  (<["IR" := <["radiance" := ("a_ir", "b_ir")]>
             (<["brightness_temperature" := ("bt_a_ir", "bt_b_ir")]> ∅)]> ∅).

Definition _is_high_resol (resolution : Z) : bool := (resolution =? HIGH_RESOL)%Z.

Definition _get_nc_key (h : FileHandler) (ds_name : string) : string :=
  default ds_name (nc_keys (variant h) !! ds_name).

(** [_read_dataset]: reads a variable and normalises its dimension names to
    [('y', 'x')]; a high resolution variable without coordinates gets those
    of the dataset. *)
Definition _read_dataset {A} (h : FileHandler) (vars : gmap string (DataArray A))
    (name : string) : result (DataArray A) :=
  let nc_key := _get_nc_key h name in
  ds ← getitem vars nc_key;
  match dims ds with
  | dims_ir_wv => Ok (rename_y_x ds)
  | dims_tie => Ok (rename_y_x ds)
  | dims_y_x =>
      match coord_y ds with
      | None =>
          y ← getitem (nc_coords (nc h)) "y";
          x ← getitem (nc_coords (nc h)) "x";
          assign_coords ds x y
      | Some _ => Ok ds
      end
  end.

(** ** NumPy helpers *)

(** [l[::step]] for a positive step: the elements at positions [0], [step],
    [2 * step], ...; [k] counts the elements to skip before the next pick. *)
Fixpoint every {A} (step k : nat) (l : list A) : list A :=
  match l with
  | [] => []
  | x :: l' =>
      match k with
      | O => x :: every step (step - 1) l'
      | S k' => every step k' l'
      end
  end.

Definition slice_step {A} (l : list A) (step : nat) : result (list A) :=
  match step with
  | O => Raise (ValueError "slice step cannot be zero")
  | _ => Ok (every step 0 l)
  end.

(** [np.repeat(l, reps)]: each element [reps] times, in order. *)
Definition np_repeat {A} (l : list A) (reps : nat) : list A :=
  flat_map (fun x => repeat x reps) l.

(** [np.nanmean] of a vector of doubles: NaNs are replaced by zero, the sum
    is divided by the number of values that are not NaN. *)
Definition nansum (l : list float) : float :=
  match map (fun x => if isnan x then S754_zero false else x) l with
  | [] => S754_zero false
  | x :: xs => fold_left F64.add xs x
  end.

Definition nancount (l : list float) : Z :=
  Z.of_nat (length (List.filter (fun x => negb (isnan x)) l)).

Definition np_nanmean (l : list float) : float :=
  F64.div (nansum l) (F64.of_Z (nancount l)).

(** The double quote character, for messages that contain it. *)
Definition dquote : string := String "034"%char EmptyString.

(** The missing-value timestamp [NaT] of [datetime64]. *)
Definition NaT : Z := (- 2 ^ 63)%Z.

(** ** Labeled series of timestamps *)

(** A one-dimensional [DataArray] of timestamps along [y]: one
    [(label, value)] per scanline. *)
Definition TimeSeries := list (Z * Z).

Definition lookup_label (s : TimeSeries) (y : Z) : Z :=
  match find (fun p => (fst p =? y)%Z) s with
  | Some p => snd p
  | None => NaT
  end.

Fixpoint has_duplicates (l : list Z) : bool :=
  match l with
  | [] => false
  | x :: l' => existsb (Z.eqb x) l' || has_duplicates l'
  end.

(** [s.reindex(y=labels)]: the values of [s] looked up by label; the index of
    [s] must not hold a label twice. *)
Definition reindex (s : TimeSeries) (labels : list Z) : result TimeSeries :=
  if has_duplicates (map fst s) then
    Raise (ValueError "cannot reindex or align along dimension 'y' because the index has duplicate values")
  else Ok (map (fun y => (y, lookup_label s y)) labels).

(** [s.assign_coords(y=labels)] on a series. *)
Definition assign_coords_y (s : TimeSeries) (labels : list Z) : result TimeSeries :=
  if negb (length labels =? length s)%nat then
    Raise (ValueError "conflicting sizes for dimension 'y'")
  else Ok (zip labels (map snd s)).

(** [ds['acq_time'] = ('y', acq)]: a new coordinate along [y]. *)
Definition set_acq_time {A} (ds : DataArray A) (acq : TimeSeries) : result (DataArray A) :=
  if negb (length acq =? nrows ds)%nat then
    Raise (ValueError "conflicting sizes for dimension 'y'")
  else Ok (mkDataArray (dims ds) (ncols ds) (values ds) (coord_x ds) (coord_y ds)
                       (Some (map snd acq)) (attrs ds)).

(** Binary operation of two arrays on the same grid, pixel by pixel. *)
Definition binop {A B C} (f : A -> B -> C) (a : DataArray A) (b : DataArray B)
  : DataArray C :=
  with_attrs (with_values a (zip_with (zip_with f) (values a) (values b))) ∅.

(** [a.all()]: every element is nonzero. *)
Definition da_all (a : DataArray Z) : bool :=
  forallb (forallb (fun v => negb (v =? 0)%Z)) (values a).

(** ** Projection parameters handed to [_geos_area] *)

Record ProjDict := mkProjDict {
  pd_ssp_lon : float;
  pd_a : float;
  pd_b : float;
  pd_h : float;
  pd_units : string;
  pd_loff : float;
  pd_coff : float;
  pd_lfac : float;
  pd_cfac : float;
  pd_nlines : nat;
  pd_ncols : nat;
  pd_scandir : string;
  pd_p_id : string;
  pd_a_name : string;
  pd_a_desc : string;
}.

(** [DataArray.interp] (linear): tie-point coordinates [xs], [ys] and
    values, then the target coordinates; it may raise. *)
Definition Interp : Type :=
  list Z -> list Z -> list (list float) -> list Z -> list Z
  -> result (list (list float)).

(** ** Arrays on the same grid *)

(** The same number of lines and, line by line, of pixels. *)
Fixpoint same_shape {A B} (a : list (list A)) (b : list (list B)) : bool :=
  match a, b with
  | [], [] => true
  | r :: a', s :: b' => (length r =? length s)%nat && same_shape a' b'
  | _, _ => false
  end.

Definition coords_agree (a b : option (list Z)) : bool :=
  match a, b with
  | Some x, Some y => bool_decide (x = y)
  | _, _ => true
  end.

(** Two arrays whose arithmetic, which aligns them with an inner join, pairs
    their pixels by position: equal shapes and, on a dimension where both
    have a coordinate vector, equal coordinates. *)
Definition same_grid {A B} (a : DataArray A) (b : DataArray B) : bool :=
  same_shape (values a) (values b)
  && coords_agree (coord_x a) (coord_x b)
  && coords_agree (coord_y a) (coord_y b).

(** Alignment with [join='exact'], as [ds.where(cond, other)] with a given
    [other] requires it: equal shapes and, on each dimension, the same
    coordinate vector in both arrays or none in either. *)
Definition aligned_exact {A B} (a : DataArray A) (b : DataArray B) : bool :=
  same_shape (values a) (values b)
  && bool_decide (coord_x a = coord_x b)
  && bool_decide (coord_y a = coord_y b).

(** A grid of timestamps without an element: no line, or lines without a
    column. *)
Definition zero_size (time2d : list (Z * list Z)) : bool :=
  forallb (fun line => (length (snd line) =? 0)%nat) time2d.

(** ** The file handlers *)

Section Engine.
(** Working format of the image arrays. *)
Variables prec emax : Z.

(** NumPy's transcendental functions and [np.pi]. *)
Variables np_log np_cos np_deg2rad : float -> float.
Variable np_pi : float.

(** [DataArray.interp] with linear interpolation. *)
Variable interp : Interp.

(** [DataArray.mean] of one line of timestamps. *)
Variable mean : list Z -> Z.

(** The helpers imported from [satpy.readers._geos_area]. *)
Variables Extent Area : Type.
Variable sampling_to_lfac_cfac : float -> float.
Variable get_area_extent : ProjDict -> Extent.
Variable get_area_definition : ProjDict -> Extent -> Area.

Abbreviation add := (SFadd prec emax).
Abbreviation sub := (SFsub prec emax).
Abbreviation mul := (SFmul prec emax).
Abbreviation div := (SFdiv prec emax).
(** A scalar that enters array arithmetic takes the working format. *)
Abbreviation scalar := (cast prec emax).

Definition gt_zero (x : float) : bool := SFltb (S754_zero false) x.

(** *** Infrared and water vapour channels *)

Definition _get_coefs_ir_wv (h : FileHandler) (channel calibration : string)
  : result (float * float) :=
  by_calibration ← getitem nc_keys_coefs channel;
  keys ← getitem by_calibration calibration;
  a ← getitem (nc_scalars (nc h)) (fst keys);
  b ← getitem (nc_scalars (nc h)) (snd keys);
  Ok (np_float32 a, np_float32 b).

Definition _ir_wv_counts_to_radiance (h : FileHandler) (cnts : DataArray float)
    (channel : string) : result (DataArray float) :=
  ab ← _get_coefs_ir_wv h channel "radiance";
  let rad := ufunc (fun c => add (scalar (fst ab)) (mul (scalar (snd ab)) c)) cnts in
  Ok (da_where gt_zero nan rad).

Definition _ir_wv_radiance_to_brightness_temperature (h : FileHandler)
    (rad : DataArray float) (channel : string) : result (DataArray float) :=
  ab ← _get_coefs_ir_wv h channel "brightness_temperature";
  let bt := elementwise (fun r => div (scalar (snd ab)) (sub (np_log r) (scalar (fst ab)))) rad in
  Ok (da_where gt_zero nan bt).

Definition _calibrate_ir_wv (h : FileHandler) (ds : DataArray float)
    (channel : string) (calibration : Calibration) : result (DataArray float) :=
  match calibration with
  | counts => Ok ds
  | radiance => _ir_wv_counts_to_radiance h ds channel
  | brightness_temperature =>
      rad ← _ir_wv_counts_to_radiance h ds channel;
      _ir_wv_radiance_to_brightness_temperature h rad channel
  | reflectance =>
      Raise (KeyError ("Invalid calibration: " ++ calibration_name calibration))
  end.

(** *** Tie-point interpolation and angles *)

(** [ds.coords['x'].size] is the size of the [x] dimension, with or without
    a coordinate vector. *)
Definition _interp_tiepoints (ds : DataArray float) (target_x target_y : list Z)
  : result (DataArray float) :=
  sampling ← floordiv (length target_x) (ncols ds);
  xs ← slice_step target_x sampling;
  ys ← slice_step target_y sampling;
  ds ← assign_coords ds xs ys;
  v ← interp xs ys (values ds) target_x target_y;
  Ok (mkDataArray (dims ds) (length target_x) v
                  (Some target_x) (Some target_y) None (attrs ds)).

Definition _get_angles (h : FileHandler) (name : string) (resolution : Z)
  : result (DataArray float) :=
  angles ← _read_dataset h (nc_arrays (nc h)) name;
  target ← (if _is_high_resol resolution then
              target_x ← getitem (nc_coords (nc h)) "x";
              target_y ← getitem (nc_coords (nc h)) "y";
              Ok (target_x, target_y)
            else
              target_x ← getitem (nc_coords (nc h)) "x_ir_wv";
              target_y ← getitem (nc_coords (nc h)) "y_ir_wv";
              Ok (target_x, target_y));
  _interp_tiepoints angles (fst target) (snd target).

(** *** Visible channel *)

Definition _update_refl_attrs (h : FileHandler) (refl : DataArray float)
  : result (DataArray float) :=
  d ← getitem (nc_scalars (nc h)) "distance_sun_earth";
  Ok (with_attrs refl
        (<["sun_earth_distance_correction_factor" := AttrFloat d]>
           (<["sun_earth_distance_correction_applied" := AttrBool true]>
              (attrs refl)))).

Definition _vis_counts_to_radiance (h : FileHandler) (cnts : DataArray float)
  : result (DataArray float) :=
  years_since_launch ← getitem (nc_scalars (nc h)) "years_since_launch";
  a0 ← getitem (nc_scalars (nc h)) "a0_vis";
  a1 ← getitem (nc_scalars (nc h)) "a1_vis";
  a2 ← getitem (nc_scalars (nc h)) "a2_vis";
  let a_cf := F64.add (F64.add a0 (F64.mul a1 years_since_launch))
                      (F64.mul a2 (F64.mul years_since_launch years_since_launch)) in
  m ← getitem (nc_scalars (nc h)) "mean_count_space_vis";
  let mean_count_space_vis := np_float32 m in
  let a_cf := np_float32 a_cf in
  let rad := elementwise (fun c => mul (sub c (scalar mean_count_space_vis)) (scalar a_cf))
                         cnts in
  Ok (da_where gt_zero nan rad).

(** The mask on the solar zenith angle: direct illumination only. *)
Definition direct_illumination (z : float) : bool :=
  SFltb (SFabs z) (of_Z prec emax 90).

Definition _vis_radiance_to_reflectance (h : FileHandler) (rad : DataArray float)
  : result (DataArray float) :=
  sza ← _get_angles h "solar_zenith_angle" HIGH_RESOL;
  let sza := da_where direct_illumination nan sza in
  let cos_sza := elementwise (fun z => np_cos (np_deg2rad z)) sza in
  d ← getitem (nc_scalars (nc h)) "distance_sun_earth";
  let distance_sun_earth2 := np_float32 (F64.mul d d) in
  e0 ← getitem (nc_scalars (nc h)) "solar_irradiance_vis";
  let solar_irradiance_vis := np_float32 e0 in
  let pi_d2 := F64.mul np_pi (cast F64.prec F64.emax distance_sun_earth2) in
  let refl := binop (fun c r => mul (div (scalar pi_d2) (mul (scalar solar_irradiance_vis) c)) r)
                    cos_sza rad in
  Ok (elementwise (fun r => mul r (of_Z prec emax 100)) refl).

Definition _calibrate_vis (h : FileHandler) (ds : DataArray float)
    (calibration : Calibration) : result (DataArray float) :=
  match variant h with
  | Easy =>
      match calibration with
      | reflectance =>
          let refl := elementwise (fun x => mul (of_Z prec emax 100) x) ds in
          _update_refl_attrs h refl
      | counts | radiance =>
          Raise (ValueError ("Cannot calibrate to " ++ calibration_name calibration
                             ++ ". Easy FCDR provides reflectance only."))
      | brightness_temperature =>
          Raise (KeyError ("Invalid calibration: " ++ calibration_name calibration))
      end
  | Full =>
      match calibration with
      | counts => Ok ds
      | radiance => _vis_counts_to_radiance h ds
      | reflectance =>
          rad ← _vis_counts_to_radiance h ds;
          refl ← _vis_radiance_to_reflectance h rad;
          _update_refl_attrs h refl
      | brightness_temperature =>
          Raise (KeyError ("Invalid calibration: " ++ calibration_name calibration))
      end
  end.

Definition _calibrate (h : FileHandler) (ds : DataArray float)
    (channel : string) (calibration : Calibration) : result (DataArray float) :=
  let ds := with_attrs ds (delete "ancillary_variables" (attrs ds)) in
  if String.eqb channel "VIS" then _calibrate_vis h ds calibration
  else if String.eqb channel "WV" || String.eqb channel "IR" then
    _calibrate_ir_wv h ds channel calibration
  else Raise (KeyError ("Don't know how to calibrate channel " ++ channel)).

(** *** Quality of the visible channel *)

Definition caution_warning : string :=
  "All pixels of the VIS channel are flagged as " ++ dquote ++ "use with caution"
  ++ dquote ++ ". Use datasets " ++ dquote ++ "quality_pixel_bitmask" ++ dquote
  ++ " and " ++ dquote ++ "data_quality_bitmask" ++ dquote ++ " to find out why.".

(** Returns the warnings issued and the outcome; [ds] is not used. *)
Definition _check_vis_quality (h : FileHandler) (ds : DataArray float)
  : list string * result unit :=
  match _read_dataset h (nc_masks (nc h)) "quality_pixel_bitmask" with
  | Raise e => ([], Raise e)
  | Ok mask =>
      let use_with_caution := elementwise (fun m => Z.land m 2) mask in
      if da_all use_with_caution then ([caution_warning], Ok tt)
      else ([], Ok tt)
  end.

(** [ds] is on the dimensions [('y', 'x')], as the bitmask that is read.
    [where] with a given replacement value aligns data and mask exactly and
    raises when it cannot; it then pairs them pixel by pixel and keeps the
    attributes. *)
Definition _mask_vis (h : FileHandler) (ds : DataArray float)
  : result (DataArray float) :=
  mask ← _read_dataset h (nc_masks (nc h)) "quality_pixel_bitmask";
  if negb (aligned_exact ds mask) then
    Raise (ValueError "cannot align objects with join='exact' where index/labels/sizes are not equal")
  else
    Ok (with_values ds
          (zip_with (zip_with (fun d m => if (m =? 0)%Z then d else nan))
                    (values ds) (values mask))).

(** *** Acquisition time *)

(** The mean of timestamps takes the minimum of the whole grid as its
    offset first, which raises on a grid without an element. *)
Definition _interp_acq_time (time2d : TimeGrid) (target_y : list Z)
  : result TimeSeries :=
  time ← (if zero_size time2d then
            Raise (ValueError "zero-size array to reduction operation fmin which has no identity")
          else Ok (map (fun line => (fst line, mean (snd line))) time2d));
  let y := map fst time in
  if (length y <? length target_y)%nat then
    reps ← floordiv (length target_y) (length y);
    let y_rep := np_repeat y reps in
    time_hires ← reindex time y_rep;
    assign_coords_y time_hires target_y
  else Ok time.

Definition _get_acq_time (h : FileHandler) (resolution : Z) : result TimeSeries :=
  time2d ← match getitem (nc_times (nc h)) "time_ir_wv" with
           | Ok t => Ok t
           | Raise (KeyError _) => getitem (nc_times (nc h)) "time"
           | Raise e => Raise e
           end;
  target_y ← (if _is_high_resol resolution then getitem (nc_coords (nc h)) "x"
              else getitem (nc_coords (nc h)) "x_ir_wv");
  _interp_acq_time time2d target_y.

(** *** Channels *)

Definition _get_channel (h : FileHandler) (name : string) (resolution : Z)
    (calibration : Calibration) : list string * result (DataArray float) :=
  match ds ← _read_dataset h (nc_arrays (nc h)) name;
        _calibrate h ds name calibration with
  | Raise e => ([], Raise e)
  | Ok ds =>
      let quality :=
        if String.eqb name "VIS" then
          if mask_bad_quality h then ([], _mask_vis h ds)
          else (fst (_check_vis_quality h ds),
                _ ← snd (_check_vis_quality h ds); Ok ds)
        else ([], Ok ds) in
      (fst quality,
       ds ← snd quality;
       acq ← _get_acq_time h resolution;
       set_acq_time ds acq)
  end.

(** *** Orbital parameters *)

Definition _get_ssp (h : FileHandler) (coord : string) : float :=
  let key_start := "sub_satellite_" ++ coord ++ "_start" in
  let key_end := "sub_satellite_" ++ coord ++ "_end" in
  match nc_scalars (nc h) !! key_start, nc_scalars (nc h) !! key_end with
  | Some start, Some end_ => np_nanmean [start; end_]
  | _, _ => nan                 (* except KeyError *)
  end.

Definition _get_ssp_lonlat (h : FileHandler) : float * float :=
  let ssp_lon := _get_ssp h "longitude" in
  let ssp_lat := _get_ssp h "latitude" in
  (ssp_lon, ssp_lat).

Definition _get_orbital_parameters (h : FileHandler) : gmap string float :=
  let orbital_parameters : gmap string float :=
    <["projection_longitude" := projection_longitude h]>
    (<["projection_latitude" := S754_zero false]>
    (<["projection_altitude" := ALTITUDE]> ∅)) in
  let ssp := _get_ssp_lonlat h in
  if negb (isnan (fst ssp)) && negb (isnan (snd ssp)) then
    <["satellite_actual_longitude" := fst ssp]>
    (<["satellite_actual_latitude" := snd ssp]> orbital_parameters)
  else orbital_parameters.

(** *** Area definition *)

(** The dictionary [pdict] built by [get_area_def]. *)
Definition area_pdict (h : FileHandler) (im_size : nat) (area_name : string)
  : ProjDict :=
  let offset := F64.add (F64.div (F64.of_Z (Z.of_nat im_size)) (F64.of_Z 2))
                        (F64.of_dyadic 1 (-1)) in
  let loff := offset in
  let coff := offset in
  let factor := sampling_to_lfac_cfac
                  (F64.div (np_deg2rad MVIRI_FIELD_OF_VIEW)
                           (F64.of_Z (Z.of_nat im_size))) in
  let lfac := factor in
  let cfac := factor in
  {| pd_ssp_lon := projection_longitude h;
     pd_a := EQUATOR_RADIUS;
     pd_b := POLE_RADIUS;
     pd_h := ALTITUDE;
     pd_units := "m";
     pd_loff := F64.sub loff (F64.of_Z (Z.of_nat im_size));
     pd_coff := coff;
     pd_lfac := SFopp lfac;
     pd_cfac := SFopp cfac;
     pd_nlines := im_size;
     pd_ncols := im_size;
     pd_scandir := "S2N";
     pd_p_id := area_name;
     pd_a_name := area_name;
     pd_a_desc := "MVIRI Geostationary Projection" |}.

Definition get_area_def (h : FileHandler) (resolution : Z) : result Area :=
  size_name ← (if _is_high_resol resolution then
                 y ← getitem (nc_coords (nc h)) "y";
                 Ok (length y, "geos_mviri_vis")
               else
                 y ← getitem (nc_coords (nc h)) "y_ir_wv";
                 Ok (length y, "geos_mviri_ir_wv"));
  let pdict := area_pdict h (fst size_name) (snd size_name) in
  let extent := get_area_extent pdict in
  Ok (get_area_definition pdict extent).

End Engine.

(** ** Other datasets *)

Definition OTHER_REFLECTANCES : list string :=
  ["u_independent_toa_bidirectional_reflectance";
   "u_structured_toa_bidirectional_reflectance"].

(** [_get_other_dataset] on a floating-point variable, such as an
    uncertainty. *)
Definition _get_other_dataset (prec emax : Z) (h : FileHandler) (name : string)
  : result (DataArray float) :=
  ds ← _read_dataset h (nc_arrays (nc h)) name;
  if existsb (String.eqb name) OTHER_REFLECTANCES then
    Ok (elementwise (fun x => SFmul prec emax x (of_Z prec emax 100)) ds)
  else Ok ds.

(** The variables [_vis_counts_to_radiance] reads, in the order it reads
    them. *)
Definition vis_radiance_variables : list string :=
  ["years_since_launch"; "a0_vis"; "a1_vis"; "a2_vis"; "mean_count_space_vis"].

(** The gain [a_cf] and the space count, as [_vis_counts_to_radiance]
    rounds them. *)
Definition vis_gain (years_since_launch a0 a1 a2 : float) : float :=
  np_float32
    (F64.add (F64.add a0 (F64.mul a1 years_since_launch))
             (F64.mul a2 (F64.mul years_since_launch years_since_launch))).

(** The first of the given variables, in order, that the file lacks. *)
Definition first_missing (h : FileHandler) (keys : list string) : option string :=
  find (fun key => bool_decide (nc_scalars (nc h) !! key = None)) keys.

(** ** The specification's vocabulary *)

(** The three channels of the instrument and their dataset names. *)
Inductive Channel := VIS | WV | IR.

Definition channel_name (ch : Channel) : string :=
  match ch with VIS => "VIS" | WV => "WV" | IR => "IR" end.

(** The legal calibration levels as the specification's data model words
    them: Full supports counts, radiance and reflectance or brightness
    temperature for all channels, Easy the same for WV and IR but only
    reflectance for VIS; reflectance is legal only for VIS and brightness
    temperature only for WV and IR. *)
Definition legal_spec (ch : Channel) (v : Variant) (level : Calibration) : bool :=
  match ch, level with
  | VIS, reflectance => true
  | VIS, brightness_temperature => false
  | VIS, (counts | radiance) => match v with Full => true | Easy => false end
  | (WV | IR), reflectance => false
  | (WV | IR), _ => true
  end.

(** The exceptions by which the code rejects a calibration level: the
    specification's [InvalidCalibrationError]. *)
Definition InvalidCalibrationError (level : Calibration) (e : exn) : Prop :=
  e = ValueError ("Cannot calibrate to " ++ calibration_name level
                  ++ ". Easy FCDR provides reflectance only.")
  ∨ e = KeyError ("Invalid calibration: " ++ calibration_name level).

(** [p] is a prefix of [s]. *)
Fixpoint is_prefix (p s : string) : bool :=
  match p, s with
  | EmptyString, _ => true
  | String a p', String b s' => Ascii.eqb a b && is_prefix p' s'
  | String _ _, EmptyString => false
  end.

(** [sub] occurs in [s]. *)
Fixpoint contains (s sub : string) : bool :=
  is_prefix sub s ||
  match s with
  | EmptyString => false
  | String _ s' => contains s' sub
  end.

(** ** Pixel formulas *)

Section PixelFormulas.
Variables prec emax : Z.
Variable np_log : float -> float.
Variable np_pi : float.
Variable mean : list Z -> Z.

(** Radiance of an infrared or water vapour count. *)
Definition radiance_of (a b c : float) : float :=
  where_ gt_zero nan
    (SFadd prec emax (cast prec emax a) (SFmul prec emax (cast prec emax b) c)).

(** Brightness temperature of an infrared or water vapour radiance. *)
Definition brightness_temperature_of (a b r : float) : float :=
  where_ gt_zero nan
    (SFdiv prec emax (cast prec emax b) (SFsub prec emax (np_log r) (cast prec emax a))).

(** The reflectance of one pixel, from the cosine of its masked zenith angle
    and its radiance. *)
Definition reflectance_of (d e0 cos_sza r : float) : float :=
  SFmul prec emax
    (SFmul prec emax
       (SFdiv prec emax
          (cast prec emax
             (F64.mul np_pi (cast F64.prec F64.emax (np_float32 (F64.mul d d)))))
          (SFmul prec emax (cast prec emax (np_float32 e0)) cos_sza))
       r)
    (of_Z prec emax 100).

(** The series of mean timestamps, one per scanline. *)
Definition reduced (time2d : TimeGrid) : TimeSeries :=
  map (fun line => (fst line, mean (snd line))) time2d.

End PixelFormulas.


(** ** Binary32 values *)




(** ** Concrete primitives, to run the engine on sample data *)

Definition pi64 : float := S754_finite false 7074237752028440 (-51).

Definition deg2rad64 (x : float) : float :=
  F64.mul x (F64.div pi64 (F64.of_Z 180)).

(** Second-order cosine, enough for the samples below. *)
Definition cos_order2 (x : float) : float :=
  F64.sub (F64.of_Z 1) (F64.div (F64.mul x x) (F64.of_Z 2)).

(** Logarithm from the binary exponent alone: [floor (log2 x) * ln 2]. *)
Definition log_of_exponent (x : float) : float :=
  match x with
  | S754_finite false m e =>
      F64.mul (F64.of_Z (Z.pos (digits2_pos m) + e - 1))
              (S754_finite false 6243314768165359 (-53))
  | S754_zero _ => S754_infinity true
  | S754_infinity false => x
  | _ => nan
  end.

(** Linear interpolation on one axis; [nan] outside the tie points. *)
Definition lerp (x0 x1 : Z) (v0 v1 : float) (t : Z) : float :=
  F64.add v0 (F64.mul (F64.sub v1 v0)
                      (F64.div (F64.of_Z (t - x0)) (F64.of_Z (x1 - x0)))).

Fixpoint interp1d (xs : list Z) (vs : list float) (t : Z) : float :=
  match xs, vs with
  | x0 :: xs', v0 :: vs' =>
      match xs', vs' with
      | x1 :: _, v1 :: _ =>
          if ((x0 <=? t) && (t <=? x1))%Z then lerp x0 x1 v0 v1 t
          else interp1d xs' vs' t
      | _, _ => nan
      end
  | _, _ => nan
  end.

(** Separable linear interpolation: along [x] in every row, then along [y]
    in every column. *)
Definition linear_interp (xs ys : list Z) (v : list (list float))
    (target_x target_y : list Z) : list (list float) :=
  let along_x := map (fun row => map (interp1d xs row) target_x) v in
  map (fun ty =>
         imap (fun j _ => interp1d ys (map (fun row => nth j row nan) along_x) ty)
              target_x)
      target_y.

Definition xr_interp : Interp :=
  fun xs ys v target_x target_y => Ok (linear_interp xs ys v target_x target_y).

(** Integer mean of a line of timestamps; [NaT] on an empty line. *)
Definition mean_ns (row : list Z) : Z :=
  match row with
  | [] => NaT
  | _ => (fold_right Z.add 0 row / Z.of_nat (length row))%Z
  end.

(** ** Sample data *)

Definition f32 (z : Z) : float := of_Z 24 128 z.

Definition no_coords {A} (d : Dims) (n : nat) (v : list (list A)) : DataArray A :=
  mkDataArray d n v None None None ∅.

(** An Easy FCDR file with a 2 x 2 infrared image and a 4 x 4 visible
    image. *)
Definition easy_scalars : gmap string float :=
  <["a_ir" := f32 (-10)]> (<["b_ir" := of_dyadic 24 128 1 (-1)]>
  (<["bt_a_ir" := f32 (-2)]> (<["bt_b_ir" := f32 1300]>
  (<["distance_sun_earth" := F64.of_Z 1]>
  (<["sub_satellite_longitude_start" := F64.of_Z 57]>
  (<["sub_satellite_longitude_end" := F64.of_Z 58]>
  (<["sub_satellite_latitude_start" := F64.of_Z 2]>
  (<["sub_satellite_latitude_end" := F64.of_Z 4]> ∅)))))))).

Definition vis_4x4 : list (list float) :=
  [[f32 1; f32 2; f32 3; f32 4]; [f32 5; f32 6; f32 7; f32 8];
   [f32 9; f32 10; f32 11; f32 12]; [f32 13; f32 14; f32 15; f32 16]].

Definition easy_arrays : gmap string (DataArray float) :=
  <["count_ir" := no_coords dims_ir_wv 2 [[f32 100; f32 200]; [f32 10; f32 20]]]>
  (<["toa_bidirectional_reflectance_vis" := no_coords dims_y_x 4 vis_4x4]> ∅).

Definition all_caution : list (list Z) :=
  [[2; 3; 2; 6]; [2; 2; 2; 2]; [10; 2; 2; 2]; [2; 2; 2; 3]]%Z.

Definition easy_masks : gmap string (DataArray Z) :=
  <["quality_pixel_bitmask" := no_coords dims_y_x 4 all_caution]> ∅.

Definition easy_times : gmap string TimeGrid :=
  <["time_ir_wv" := [(0, [1000; 1002]); (1, [2000; 2002])]%Z]> ∅.

Definition square_coords : gmap string (list Z) :=
  <["x" := [0; 1; 2; 3]%Z]> (<["y" := [0; 1; 2; 3]%Z]>
  (<["x_ir_wv" := [0; 1]%Z]> (<["y_ir_wv" := [0; 1]%Z]> ∅))).

Definition easy_file : FileHandler :=
  mkFileHandler Easy false
    (mkDataset easy_scalars easy_arrays easy_masks easy_times square_coords)
    (F64.of_Z 57).

(** A Full FCDR file: 4 x 4 visible counts, 2 x 2 tie-point angles. *)
Definition full_scalars : gmap string float :=
  <["years_since_launch" := F64.of_Z 2]> (<["a0_vis" := F64.of_Z 1]>
  (<["a1_vis" := F64.of_dyadic 1 (-2)]> (<["a2_vis" := F64.of_dyadic 1 (-4)]>
  (<["mean_count_space_vis" := F64.of_Z 5]>
  (<["distance_sun_earth" := F64.of_Z 1]>
  (<["solar_irradiance_vis" := F64.of_Z 690]> ∅)))))).

Definition sza_tie : list (list float) :=
  [[F64.of_Z 90; F64.of_Z 30]; [F64.of_Z 60; F64.of_Z 0]].

Definition full_arrays : gmap string (DataArray float) :=
  <["count_vis" := no_coords dims_y_x 4 vis_4x4]>
  (<["solar_zenith_angle" := no_coords dims_tie 2 sza_tie]> ∅).

Definition some_ok : list (list Z) :=
  [[2; 3; 2; 6]; [2; 0; 2; 2]; [10; 2; 2; 2]; [2; 2; 2; 3]]%Z.

Definition full_masks : gmap string (DataArray Z) :=
  <["quality_pixel_bitmask" := no_coords dims_y_x 4 some_ok]> ∅.

Definition full_file (mask : bool) : FileHandler :=
  mkFileHandler Full mask
    (mkDataset full_scalars full_arrays full_masks easy_times square_coords)
    (F64.of_Z 0).

(** A file whose low resolution grid has three lines of two pixels. *)
Definition tall_times : gmap string TimeGrid :=
  <["time_ir_wv" := [(0, [1000; 1002]); (1, [2000; 2002]); (2, [3000; 3002])]%Z]> ∅.

Definition tall_coords : gmap string (list Z) :=
  <["x_ir_wv" := [0; 1]%Z]> (<["y_ir_wv" := [0; 1; 2]%Z]> ∅).

Definition tall_file : FileHandler :=
  mkFileHandler Easy false
    (mkDataset easy_scalars ∅ ∅ tall_times tall_coords) (F64.of_Z 0).

(** An Easy file whose start-of-scan longitude is NaN. *)
Definition nan_start_file : FileHandler :=
  mkFileHandler Easy false
    (mkDataset (<["sub_satellite_longitude_start" := nan]> easy_scalars)
               easy_arrays easy_masks easy_times square_coords)
    (F64.of_Z 57).




(** An Easy file that also holds an uncertainty of the reflectance. *)
Definition uncertainty_arrays : gmap string (DataArray float) :=
  <["u_independent_toa_bidirectional_reflectance" := no_coords dims_y_x 4 vis_4x4]>
  easy_arrays.

Definition uncertainty_file : FileHandler :=
  mkFileHandler Easy false
    (mkDataset easy_scalars uncertainty_arrays easy_masks easy_times square_coords)
    (F64.of_Z 57).

(** * Properties *)

(** ** Lists and pixels *)

Lemma pixel_map {A B} (f : A -> B) (v : list (list A)) (i j : nat) :
  pixel (map (map f) v) i j = f <$> pixel v i j.
Proof.
  unfold pixel. rewrite list_lookup_fmap.
  destruct (v !! i) as [row|]; simpl; [|reflexivity].
  apply list_lookup_fmap.
Qed.

Lemma pixel_map_map {A B C} (f : A -> B) (g : B -> C) (v : list (list A))
    (i j : nat) :
  pixel (map (map g) (map (map f) v)) i j = (fun x => g (f x)) <$> pixel v i j.
Proof.
  rewrite !pixel_map. destruct (pixel v i j); reflexivity.
Qed.

Lemma pixel_zip_with {A B C} (f : A -> B -> C) (u : list (list A))
    (v : list (list B)) (i j : nat) (a : A) (b : B) :
  pixel u i j = Some a -> pixel v i j = Some b ->
  pixel (zip_with (zip_with f) u v) i j = Some (f a b).
Proof.
  unfold pixel. intros Hu Hv.
  destruct (u !! i) as [ru|] eqn:Eu; simpl in Hu; [|discriminate].
  destruct (v !! i) as [rv|] eqn:Ev; simpl in Hv; [|discriminate].
  rewrite lookup_zip_with, Eu. simpl. rewrite Ev. simpl.
  rewrite lookup_zip_with, Hu. simpl. rewrite Hv. reflexivity.
Qed.

(** ** Calibration levels (C1) *)

Section CalibrationFacts.
Variables prec emax : Z.
Variables np_log np_cos np_deg2rad : float -> float.
Variable np_pi : float.
Variable interp : Interp.

Abbreviation calibrate := (_calibrate prec emax np_log np_cos np_deg2rad np_pi interp).

Lemma calibrate_easy_vis_rejects (h : FileHandler) (ds : DataArray float)
    (level : Calibration) :
  variant h = Easy -> level = counts \/ level = radiance ->
  calibrate h ds "VIS" level =
    Raise (ValueError ("Cannot calibrate to " ++ calibration_name level
                       ++ ". Easy FCDR provides reflectance only.")).
Proof.
  intros Hv Hl. unfold _calibrate, _calibrate_vis. simpl. rewrite Hv.
  destruct Hl as [-> | ->]; reflexivity.
Qed.

Lemma calibrate_illegal (h : FileHandler) (ds : DataArray float)
    (ch : Channel) (level : Calibration) :
  legal_spec ch (variant h) level = false ->
  exists e, calibrate h ds (channel_name ch) level = Raise e
            /\ InvalidCalibrationError level e.
Proof.
  intros Hl. unfold _calibrate, _calibrate_vis, _calibrate_ir_wv, InvalidCalibrationError.
  destruct ch, level; simpl in Hl |- *; try discriminate Hl;
    try (destruct (variant h); try discriminate Hl); eauto.
Qed.

End CalibrationFacts.

(** C1. Whatever the channel, the variant and the input array, a calibration
    level that is not legal for the (channel, variant) pair makes [_calibrate]
    raise the exception that rejects the level; counts and radiance of the
    VIS channel of an Easy file raise the [ValueError] of
    [_calibrate_vis]. *)
Theorem illegal_calibration_fails :
  forall prec emax np_log np_cos np_deg2rad np_pi interp
         (h : FileHandler) (ds : DataArray float),
    (forall (ch : Channel) (level : Calibration),
        legal_spec ch (variant h) level = false ->
        exists e,
          _calibrate prec emax np_log np_cos np_deg2rad np_pi interp
                     h ds (channel_name ch) level = Raise e
          /\ InvalidCalibrationError level e)
    /\ (variant h = Easy ->
        forall level, level = counts \/ level = radiance ->
          legal_spec VIS Easy level = false
          /\ _calibrate prec emax np_log np_cos np_deg2rad np_pi interp
                        h ds "VIS" level =
             Raise (ValueError ("Cannot calibrate to " ++ calibration_name level
                                ++ ". Easy FCDR provides reflectance only."))).
Proof.
  intros. split.
  - intros ch level Hl. apply calibrate_illegal; assumption.
  - intros Hv level Hl. split.
    + destruct Hl as [-> | ->]; reflexivity.
    + apply calibrate_easy_vis_rejects; assumption.
Qed.

Lemma illegal_calibration_fails_witness :
  legal_spec VIS (variant easy_file) counts = false
  /\ exists e,
       _calibrate 24 128 log_of_exponent cos_order2 deg2rad64 pi64 xr_interp
                  easy_file (no_coords dims_y_x 4 vis_4x4) (channel_name VIS) counts
       = Raise e
       /\ InvalidCalibrationError counts e.
Proof.
  split; [reflexivity|].
  apply (proj1 (illegal_calibration_fails 24 128 log_of_exponent cos_order2 deg2rad64
                  pi64 xr_interp easy_file (no_coords dims_y_x 4 vis_4x4))).
  reflexivity.
Defined.

(** ** Infrared and water vapour calibration (C4) *)

Lemma gt_zero_kept (x : float) :
  gt_zero x = true -> where_ gt_zero nan x = x.
Proof. unfold where_. intros ->. reflexivity. Qed.

(** A non-positive value (negative, zero of either sign, or NaN) is
    replaced by NaN. *)
Lemma non_positive_masked (x : float) :
  SFleb x (S754_zero false) = true \/ isnan x = true ->
  where_ gt_zero nan x = nan.
Proof.
  unfold where_, gt_zero, SFltb, SFleb.
  destruct x as [s|s| |s m e]; simpl; try reflexivity;
    destruct s; simpl; intros [H|H]; try discriminate; reflexivity.
Qed.

Lemma get_coefs_ir (h : FileHandler) (a b bt_a bt_b : float) :
  nc_scalars (nc h) !! "a_ir" = Some a ->
  nc_scalars (nc h) !! "b_ir" = Some b ->
  nc_scalars (nc h) !! "bt_a_ir" = Some bt_a ->
  nc_scalars (nc h) !! "bt_b_ir" = Some bt_b ->
  _get_coefs_ir_wv h "IR" "radiance" = Ok (np_float32 a, np_float32 b)
  /\ _get_coefs_ir_wv h "IR" "brightness_temperature"
     = Ok (np_float32 bt_a, np_float32 bt_b).
Proof.
  intros Ha Hb Hta Htb.
  split; unfold _get_coefs_ir_wv, getitem, nc_keys_coefs; simplify_map_eq;
    reflexivity.
Qed.

Section IrWvFacts.
Variables prec emax : Z.
Variable np_log : float -> float.

Abbreviation add := (SFadd prec emax).
Abbreviation sub := (SFsub prec emax).
Abbreviation mul := (SFmul prec emax).
Abbreviation div := (SFdiv prec emax).
Abbreviation scalar := (cast prec emax).

Lemma counts_to_radiance_values (h : FileHandler) (cnts : DataArray float)
    (channel : string) (a b : float) :
  _get_coefs_ir_wv h channel "radiance" = Ok (a, b) ->
  exists rad,
    _ir_wv_counts_to_radiance prec emax h cnts channel = Ok rad
    /\ values rad = map (map (radiance_of prec emax a b)) (values cnts).
Proof.
  intros Hc. unfold _ir_wv_counts_to_radiance. rewrite Hc. simpl.
  eexists. split; [reflexivity|]. simpl.
  rewrite map_map. apply map_ext. intros row. rewrite map_map. reflexivity.
Qed.

Lemma radiance_to_brightness_temperature_values (h : FileHandler)
    (rad : DataArray float) (channel : string) (a b : float) :
  _get_coefs_ir_wv h channel "brightness_temperature" = Ok (a, b) ->
  exists bt,
    _ir_wv_radiance_to_brightness_temperature prec emax np_log h rad channel = Ok bt
    /\ values bt = map (map (brightness_temperature_of prec emax np_log a b)) (values rad).
Proof.
  intros Hc. unfold _ir_wv_radiance_to_brightness_temperature. rewrite Hc. simpl.
  eexists. split; [reflexivity|]. simpl.
  rewrite map_map. apply map_ext. intros row. rewrite map_map. reflexivity.
Qed.

Lemma calibrate_ir_wv_pixels (h : FileHandler) (cnts : DataArray float)
    (channel : string) (a b bt_a bt_b : float) :
  _get_coefs_ir_wv h channel "radiance" = Ok (a, b) ->
  _get_coefs_ir_wv h channel "brightness_temperature" = Ok (bt_a, bt_b) ->
  exists rad bt,
    _calibrate_ir_wv prec emax np_log h cnts channel radiance = Ok rad
    /\ _calibrate_ir_wv prec emax np_log h cnts channel brightness_temperature = Ok bt
    /\ forall i j,
        pixel (values rad) i j = radiance_of prec emax a b <$> pixel (values cnts) i j
        /\ pixel (values bt) i j
           = brightness_temperature_of prec emax np_log bt_a bt_b <$> pixel (values rad) i j.
Proof.
  intros Ha Hb.
  destruct (counts_to_radiance_values h cnts channel a b Ha) as (rad & Hr & Hrv).
  destruct (radiance_to_brightness_temperature_values h rad channel bt_a bt_b Hb)
    as (bt & Ht & Htv).
  exists rad, bt. unfold _calibrate_ir_wv. rewrite Hr. simpl.
  repeat split; try assumption.
  - rewrite Hrv. apply pixel_map.
  - rewrite Htv. apply pixel_map.
Qed.

End IrWvFacts.

(** C4. For every IR/WV counts array, radiance is [a + b * counts] pixel by
    pixel and brightness temperature is [b' / (ln radiance - a')] pixel by
    pixel, a result that is not positive being replaced by NaN in both;
    counts [[100, 200]] with [a = -10], [b = 0.5] give radiance [[40, 90]]
    and, with [bt_a = -2], [bt_b = 1300], brightness temperature
    [1300 / (ln radiance - (-2))]. *)
Theorem ir_wv_radiance_and_brightness_temperature :
  forall np_log : float -> float,
    (forall prec emax (h : FileHandler) (cnts : DataArray float) (channel : string)
            (a b bt_a bt_b : float),
        _get_coefs_ir_wv h channel "radiance" = Ok (a, b) ->
        _get_coefs_ir_wv h channel "brightness_temperature" = Ok (bt_a, bt_b) ->
        exists rad bt,
          _calibrate_ir_wv prec emax np_log h cnts channel radiance = Ok rad
          /\ _calibrate_ir_wv prec emax np_log h cnts channel brightness_temperature
             = Ok bt
          /\ forall i j,
              pixel (values rad) i j
              = (fun c => where_ gt_zero nan
                            (SFadd prec emax (cast prec emax a)
                                   (SFmul prec emax (cast prec emax b) c)))
                  <$> pixel (values cnts) i j
              /\ pixel (values bt) i j
                 = (fun r => where_ gt_zero nan
                               (SFdiv prec emax (cast prec emax bt_b)
                                      (SFsub prec emax (np_log r) (cast prec emax bt_a))))
                     <$> pixel (values rad) i j)
    /\ (forall x, SFleb x (S754_zero false) = true \/ isnan x = true ->
                  where_ gt_zero nan x = nan)
    /\ (forall x, SFltb (S754_zero false) x = true -> where_ gt_zero nan x = x)
    /\ (forall h : FileHandler,
          nc_scalars (nc h) !! "a_ir" = Some (f32 (-10)) ->
          nc_scalars (nc h) !! "b_ir" = Some (of_dyadic 24 128 1 (-1)) ->
          nc_scalars (nc h) !! "bt_a_ir" = Some (f32 (-2)) ->
          nc_scalars (nc h) !! "bt_b_ir" = Some (f32 1300) ->
          exists rad bt,
            _calibrate_ir_wv 24 128 np_log h
              (no_coords dims_y_x 2 [[f32 100; f32 200]]) "IR" radiance = Ok rad
            /\ values rad = [[f32 40; f32 90]]
            /\ _calibrate_ir_wv 24 128 np_log h
                 (no_coords dims_y_x 2 [[f32 100; f32 200]]) "IR"
                 brightness_temperature = Ok bt
            /\ values bt
               = [[where_ gt_zero nan
                     (SFdiv 24 128 (f32 1300)
                            (SFsub 24 128 (np_log (f32 40)) (f32 (-2))));
                   where_ gt_zero nan
                     (SFdiv 24 128 (f32 1300)
                            (SFsub 24 128 (np_log (f32 90)) (f32 (-2))))]]).
Proof.
  intros np_log. split; [|split; [|split]].
  - intros prec emax h cnts channel a b bt_a bt_b Ha Hb.
    exact (calibrate_ir_wv_pixels prec emax np_log h cnts channel a b bt_a bt_b Ha Hb).
  - exact non_positive_masked.
  - exact gt_zero_kept.
  - intros h Ha Hb Hta Htb.
    destruct (get_coefs_ir h _ _ _ _ Ha Hb Hta Htb) as [Hr Ht].
    unfold _calibrate_ir_wv, _ir_wv_counts_to_radiance,
      _ir_wv_radiance_to_brightness_temperature.
    rewrite Hr. simpl. rewrite Ht. simpl.
    do 2 eexists. split; [reflexivity|]. split; [vm_compute; reflexivity|].
    split; [reflexivity|]. vm_compute. reflexivity.
Qed.

Lemma ir_wv_radiance_and_brightness_temperature_witness :
  exists rad bt,
    _calibrate_ir_wv 24 128 log_of_exponent easy_file
      (no_coords dims_y_x 2 [[f32 100; f32 200]]) "IR" radiance = Ok rad
    /\ values rad = [[f32 40; f32 90]]
    /\ _calibrate_ir_wv 24 128 log_of_exponent easy_file
         (no_coords dims_y_x 2 [[f32 100; f32 200]]) "IR"
         brightness_temperature = Ok bt
    /\ values bt
       = [[where_ gt_zero nan
             (SFdiv 24 128 (f32 1300)
                    (SFsub 24 128 (log_of_exponent (f32 40)) (f32 (-2))));
           where_ gt_zero nan
             (SFdiv 24 128 (f32 1300)
                    (SFsub 24 128 (log_of_exponent (f32 90)) (f32 (-2))))]].
Proof.
  apply (proj2 (proj2 (proj2
           (ir_wv_radiance_and_brightness_temperature log_of_exponent))) easy_file);
    reflexivity.
Defined.

(** ** Solar zenith mask of the reflectance (C5) *)

Lemma SFcompare_antisym (a b : float) :
  SFcompare b a = CompOpp <$> SFcompare a b.
Proof.
  destruct a as [s|s| |s m e], b as [s'|s'| |s' m' e']; simpl;
    try reflexivity; try (destruct s; reflexivity);
    try (destruct s'; reflexivity);
    try (destruct s, s'; reflexivity).
  destruct s, s'; simpl; try reflexivity;
    rewrite (Z.compare_antisym e e');
    destruct (e ?= e')%Z; simpl; try reflexivity;
    change (Pos.compare_cont Eq m' m) with (m' ?= m)%positive;
    change (Pos.compare_cont Eq m m') with (m ?= m')%positive;
    rewrite (Pos.compare_antisym m m');
    destruct (m ?= m')%positive; reflexivity.
Qed.

Lemma SFleb_not_SFltb (a b : float) : SFleb a b = true -> SFltb b a = false.
Proof.
  unfold SFleb, SFltb. rewrite (SFcompare_antisym a b).
  destruct (SFcompare a b) as [[ | | ]|]; simpl; congruence.
Qed.

Section ReflectanceFacts.
Variables prec emax : Z.
Variables np_cos np_deg2rad : float -> float.
Variable np_pi : float.
Variable interp : Interp.

(** A zenith angle of absolute value 90 degrees or more is masked. *)
Lemma zenith_masked (z : float) :
  SFleb (of_Z prec emax 90) (SFabs z) = true ->
  where_ (direct_illumination prec emax) nan z = nan.
Proof.
  intros H. unfold where_, direct_illumination.
  rewrite (SFleb_not_SFltb _ _ H). reflexivity.
Qed.

Lemma zenith_kept (z : float) :
  SFltb (SFabs z) (of_Z prec emax 90) = true ->
  where_ (direct_illumination prec emax) nan z = z.
Proof. unfold where_, direct_illumination. intros ->. reflexivity. Qed.

Lemma vis_radiance_to_reflectance_pixels (h : FileHandler)
    (rad sza : DataArray float) (d e0 : float) :
  _get_angles interp h "solar_zenith_angle" HIGH_RESOL = Ok sza ->
  nc_scalars (nc h) !! "distance_sun_earth" = Some d ->
  nc_scalars (nc h) !! "solar_irradiance_vis" = Some e0 ->
  exists refl,
    _vis_radiance_to_reflectance prec emax np_cos np_deg2rad np_pi interp h rad
    = Ok refl
    /\ forall i j z r,
        pixel (values sza) i j = Some z ->
        pixel (values rad) i j = Some r ->
        pixel (values refl) i j
        = Some (reflectance_of prec emax np_pi d e0
                  (np_cos (np_deg2rad (where_ (direct_illumination prec emax) nan z)))
                  r).
Proof.
  intros Hs Hd He. unfold _vis_radiance_to_reflectance, getitem.
  rewrite Hs. simpl. rewrite Hd. simpl. rewrite He. simpl.
  eexists. split; [reflexivity|]. intros i j z r Hz Hr. simpl.
  rewrite pixel_map.
  erewrite pixel_zip_with; [reflexivity| |exact Hr].
  rewrite !pixel_map, Hz. reflexivity.
Qed.

End ReflectanceFacts.

(** C5. In the reflectance of the VIS channel of a Full file every pixel
    whose solar zenith angle has absolute value 90 degrees or more is replaced
    by NaN before the cosine is taken; the comparison is strict: an angle of
    exactly 90 degrees is masked, 89.999 degrees is kept. *)
Theorem zenith_angle_masked_before_cosine :
  forall (np_cos np_deg2rad : float -> float) (np_pi : float)
         (interp : Interp),
    (forall prec emax (h : FileHandler) (rad sza : DataArray float) (d e0 : float),
        _get_angles interp h "solar_zenith_angle" HIGH_RESOL = Ok sza ->
        nc_scalars (nc h) !! "distance_sun_earth" = Some d ->
        nc_scalars (nc h) !! "solar_irradiance_vis" = Some e0 ->
        exists refl,
          _vis_radiance_to_reflectance prec emax np_cos np_deg2rad np_pi interp h rad
          = Ok refl
          /\ forall i j z r,
              pixel (values sza) i j = Some z ->
              pixel (values rad) i j = Some r ->
              pixel (values refl) i j
              = Some (reflectance_of prec emax np_pi d e0
                        (np_cos (np_deg2rad
                                   (where_ (direct_illumination prec emax) nan z)))
                        r)
              /\ (SFleb (of_Z prec emax 90) (SFabs z) = true ->
                  pixel (values refl) i j
                  = Some (reflectance_of prec emax np_pi d e0
                            (np_cos (np_deg2rad nan)) r)))
    /\ (forall prec emax z,
          SFleb (of_Z prec emax 90) (SFabs z) = true ->
          where_ (direct_illumination prec emax) nan z = nan)
    /\ (forall prec emax z,
          SFltb (SFabs z) (of_Z prec emax 90) = true ->
          where_ (direct_illumination prec emax) nan z = z)
    /\ (where_ (direct_illumination 24 128) nan (f32 90) = nan
        /\ where_ (direct_illumination 24 128) nan (f32 (-90)) = nan
        /\ where_ (direct_illumination 24 128) nan (SFdiv 24 128 (f32 89999) (f32 1000))
           = S754_finite false 11796349 (-17))
    /\ (where_ (direct_illumination 53 1024) nan (F64.of_Z 90) = nan
        /\ where_ (direct_illumination 53 1024) nan (F64.of_Z (-90)) = nan
        /\ where_ (direct_illumination 53 1024) nan
                  (F64.div (F64.of_Z 89999) (F64.of_Z 1000))
           = S754_finite false 6333116607245582 (-46)).
Proof.
  intros np_cos np_deg2rad np_pi interp.
  split; [|split; [|split; [|split]]].
  - intros prec emax h rad sza d e0 Hs Hd He.
    destruct (vis_radiance_to_reflectance_pixels prec emax np_cos np_deg2rad np_pi
                interp h rad sza d e0 Hs Hd He) as (refl & Hr & Hp).
    exists refl. split; [exact Hr|]. intros i j z r Hz Hrad.
    split; [exact (Hp i j z r Hz Hrad)|].
    intros Hge. rewrite (Hp i j z r Hz Hrad), (zenith_masked prec emax z Hge).
    reflexivity.
  - exact zenith_masked.
  - exact zenith_kept.
  - repeat split; vm_compute; reflexivity.
  - repeat split; vm_compute; reflexivity.
Qed.

Lemma zenith_angle_masked_before_cosine_witness :
  exists refl,
    _vis_radiance_to_reflectance 53 1024 cos_order2 deg2rad64 pi64 xr_interp
      (full_file false) (no_coords dims_y_x 4 vis_4x4) = Ok refl
    /\ pixel (values refl) 0 0
       = Some (reflectance_of 53 1024 pi64 (F64.of_Z 1) (F64.of_Z 690)
                 (cos_order2 (deg2rad64 nan)) (f32 1)).
Proof.
  destruct (proj1 (zenith_angle_masked_before_cosine cos_order2 deg2rad64 pi64
                     xr_interp)
              53%Z 1024%Z (full_file false) (no_coords dims_y_x 4 vis_4x4)
              (mkDataArray dims_y_x 4
                 (linear_interp [0; 2]%Z [0; 2]%Z sza_tie [0; 1; 2; 3]%Z [0; 1; 2; 3]%Z)
                 (Some [0; 1; 2; 3]%Z) (Some [0; 1; 2; 3]%Z) None ∅)
              (F64.of_Z 1) (F64.of_Z 690)
              eq_refl eq_refl eq_refl) as (refl & Hr & Hp).
  exists refl. split; [exact Hr|].
  apply (Hp 0%nat 0%nat (F64.of_Z 90) (f32 1)); reflexivity.
Defined.

(** ** Quality check of the visible channel (C7) *)

Lemma land_2_testbit (m : Z) : Z.land m 2 = if Z.testbit m 1 then 2%Z else 0%Z.
Proof.
  apply Z.bits_inj'. intros n Hn. rewrite Z.land_spec.
  change 2%Z with (2 ^ 1)%Z at 1. rewrite Z.pow2_bits_eqb by lia.
  destruct (Z.eqb_spec 1 n) as [<-|Hne].
  - rewrite andb_true_r. destruct (Z.testbit m 1); reflexivity.
  - rewrite andb_false_r. destruct (Z.testbit m 1).
    + change 2%Z with (2 ^ 1)%Z. rewrite Z.pow2_bits_eqb by lia.
      symmetry. apply Z.eqb_neq. exact Hne.
    + symmetry. apply Z.bits_0.
Qed.

Lemma use_with_caution_nonzero (m : Z) :
  negb (Z.land m 2 =? 0)%Z = Z.testbit m 1.
Proof. rewrite land_2_testbit. destruct (Z.testbit m 1); reflexivity. Qed.

Lemma forallb_pixels {A} (f : A -> bool) (v : list (list A)) :
  forallb (forallb f) v = true
  <-> forall i j p, pixel v i j = Some p -> f p = true.
Proof.
  rewrite forallb_forall. split.
  - intros H i j p Hp. unfold pixel in Hp.
    destruct (v !! i) as [row|] eqn:Er; simpl in Hp; [|discriminate].
    assert (Hin : In row v).
    { apply list_elem_of_In, list_elem_of_lookup. eauto. }
    specialize (H row Hin). rewrite forallb_forall in H. apply H.
    apply list_elem_of_In, list_elem_of_lookup. eauto.
  - intros H row Hin. rewrite forallb_forall. intros p Hp.
    apply list_elem_of_In, list_elem_of_lookup in Hin as [i Hi].
    apply list_elem_of_In, list_elem_of_lookup in Hp as [j Hj].
    apply (H i j). unfold pixel. rewrite Hi. exact Hj.
Qed.

Lemma check_vis_quality_warns (h : FileHandler) (ds : DataArray float)
    (mask : DataArray Z) :
  _read_dataset h (nc_masks (nc h)) "quality_pixel_bitmask" = Ok mask ->
  _check_vis_quality h ds
  = (if forallb (forallb (fun p => Z.testbit p 1)) (values mask)
     then [caution_warning] else [], Ok tt).
Proof.
  intros Hm.
  assert (E : forallb (forallb (fun v => negb (v =? 0)%Z))
                      (map (map (fun m => Z.land m 2)) (values mask))
              = forallb (forallb (fun p => Z.testbit p 1)) (values mask)).
  { induction (values mask) as [|row v IH]; [reflexivity|].
    cbn [map forallb]. rewrite IH. f_equal.
    induction row as [|p row IHr]; [reflexivity|].
    cbn [map forallb]. rewrite IHr, use_with_caution_nonzero. reflexivity. }
  unfold _check_vis_quality. rewrite Hm.
  unfold da_all, elementwise, with_attrs, with_values. cbn [values].
  rewrite E.
  destruct (forallb (forallb (fun p => Z.testbit p 1)) (values mask)); reflexivity.
Qed.

Section ChannelFacts.
Variables prec emax : Z.
Variables np_log np_cos np_deg2rad : float -> float.
Variable np_pi : float.
Variable interp : Interp.
Variable mean : list Z -> Z.

Abbreviation get_channel :=
  (_get_channel prec emax np_log np_cos np_deg2rad np_pi interp mean).
Abbreviation calibrated h name calibration :=
  (raw ← _read_dataset h (nc_arrays (nc h)) name;
   _calibrate prec emax np_log np_cos np_deg2rad np_pi interp h raw name calibration).

(** The check runs only for VIS with masking disabled: otherwise no warning
    is issued. *)
Lemma get_channel_no_check (h : FileHandler) (name : string) (resolution : Z)
    (calibration : Calibration) :
  mask_bad_quality h = true \/ name <> "VIS" ->
  fst (get_channel h name resolution calibration) = [].
Proof.
  intros H. unfold _get_channel.
  destruct (calibrated h name calibration) as [ds|e]; [|reflexivity].
  destruct (String.eqb_spec name "VIS") as [->|Hne]; simpl.
  - destruct H as [-> | Hn]; [reflexivity | congruence].
  - reflexivity.
Qed.

Lemma get_channel_check (h : FileHandler) (resolution : Z)
    (calibration : Calibration) (ds : DataArray float) :
  mask_bad_quality h = false ->
  calibrated h "VIS" calibration = Ok ds ->
  fst (get_channel h "VIS" resolution calibration) = fst (_check_vis_quality h ds)
  /\ forall r,
      snd (get_channel h "VIS" resolution calibration) = Ok r ->
      values r = values ds /\ ncols r = ncols ds /\ dims r = dims ds
      /\ coord_x r = coord_x ds /\ coord_y r = coord_y ds /\ attrs r = attrs ds.
Proof.
  intros Hm Hc. unfold _get_channel. rewrite Hc, Hm. simpl.
  split; [reflexivity|]. intros r.
  destruct (snd (_check_vis_quality h ds)) as [[]|e]; simpl; [|discriminate].
  destruct (_get_acq_time mean h resolution) as [acq|e]; simpl; [|discriminate].
  unfold set_acq_time. destruct (negb _); [discriminate|].
  intros [= <-]. simpl. repeat split.
Qed.

End ChannelFacts.

(** C7. The quality check of the VIS channel issues its warning, which
    names the datasets quality_pixel_bitmask and data_quality_bitmask, if and
    only if every pixel of the quality bitmask has the bit of value 2 set; it
    raises nothing and leaves the data array as calibrated; it runs only for
    VIS when the masking of bad quality pixels is disabled. *)
Theorem vis_quality_check_warns_iff_all_flagged :
  forall prec emax (np_log np_cos np_deg2rad : float -> float) (np_pi : float)
         (interp : Interp)
         (mean : list Z -> Z),
    (forall (h : FileHandler) (ds : DataArray float) (mask : DataArray Z),
        _read_dataset h (nc_masks (nc h)) "quality_pixel_bitmask" = Ok mask ->
        (fst (_check_vis_quality h ds) = [caution_warning]
         <-> forall i j p, pixel (values mask) i j = Some p -> Z.land p 2 = 2%Z)
        /\ (fst (_check_vis_quality h ds) = [caution_warning]
            \/ fst (_check_vis_quality h ds) = [])
        /\ snd (_check_vis_quality h ds) = Ok tt)
    /\ contains caution_warning "quality_pixel_bitmask" = true
    /\ contains caution_warning "data_quality_bitmask" = true
    /\ (forall (h : FileHandler) (name : string) (resolution : Z)
               (calibration : Calibration),
          mask_bad_quality h = true \/ name <> "VIS" ->
          fst (_get_channel prec emax np_log np_cos np_deg2rad np_pi interp mean
                            h name resolution calibration) = [])
    /\ (forall (h : FileHandler) (resolution : Z) (calibration : Calibration)
               (ds : DataArray float),
          mask_bad_quality h = false ->
          (raw ← _read_dataset h (nc_arrays (nc h)) "VIS";
           _calibrate prec emax np_log np_cos np_deg2rad np_pi interp
                      h raw "VIS" calibration) = Ok ds ->
          fst (_get_channel prec emax np_log np_cos np_deg2rad np_pi interp mean
                            h "VIS" resolution calibration)
          = fst (_check_vis_quality h ds)
          /\ forall r,
              snd (_get_channel prec emax np_log np_cos np_deg2rad np_pi interp mean
                                h "VIS" resolution calibration) = Ok r ->
              values r = values ds /\ ncols r = ncols ds /\ dims r = dims ds
              /\ coord_x r = coord_x ds /\ coord_y r = coord_y ds
              /\ attrs r = attrs ds).
Proof.
  intros prec emax np_log np_cos np_deg2rad np_pi interp mean.
  split; [|split; [|split; [|split]]].
  - intros h ds mask Hm. rewrite (check_vis_quality_warns h ds mask Hm).
    destruct (forallb (forallb (fun p => Z.testbit p 1)) (values mask)) eqn:E;
      cbn [fst snd].
    + split; [|split; [left|]; reflexivity].
      split; [|reflexivity]. intros _ i j p Hp.
      apply forallb_pixels with (i := i) (j := j) (p := p) in E; [|exact Hp].
      rewrite land_2_testbit, E. reflexivity.
    + split; [|split; [right|]; reflexivity].
      split; [discriminate|]. intros H. exfalso.
      assert (E' : forallb (forallb (fun p => Z.testbit p 1)) (values mask) = true).
      { apply forallb_pixels. intros i j p Hp. specialize (H i j p Hp).
        rewrite land_2_testbit in H. destruct (Z.testbit p 1); [reflexivity|discriminate]. }
      congruence.
  - vm_compute. reflexivity.
  - vm_compute. reflexivity.
  - apply get_channel_no_check.
  - apply get_channel_check.
Qed.

Lemma vis_quality_check_warns_iff_all_flagged_witness :
  fst (_get_channel 24 128 log_of_exponent cos_order2 deg2rad64 pi64 xr_interp
                    mean_ns easy_file "VIS" 2250 reflectance)
  = [caution_warning]
  /\ fst (_get_channel 53 1024 log_of_exponent cos_order2 deg2rad64 pi64 xr_interp
                       mean_ns (full_file true) "VIS" 2250 counts)
     = [].
Proof.
  pose proof (vis_quality_check_warns_iff_all_flagged 24 128 log_of_exponent
                cos_order2 deg2rad64 pi64 xr_interp mean_ns) as (Hc & _ & _ & _ & Hg).
  pose proof (vis_quality_check_warns_iff_all_flagged 53 1024 log_of_exponent
                cos_order2 deg2rad64 pi64 xr_interp mean_ns) as (_ & _ & _ & Hn & _).
  split.
  - destruct (Hg easy_file 2250%Z reflectance
                (mkDataArray dims_y_x 4
                   (map (map (SFmul 24 128 (f32 100))) vis_4x4)
                   (Some [0; 1; 2; 3]%Z) (Some [0; 1; 2; 3]%Z) None
                   (<["sun_earth_distance_correction_factor" := AttrFloat (F64.of_Z 1)]>
                      (<["sun_earth_distance_correction_applied" := AttrBool true]> ∅)))
                eq_refl eq_refl) as [-> _].
    apply (Hc easy_file _
             (mkDataArray dims_y_x 4 all_caution
                (Some [0; 1; 2; 3]%Z) (Some [0; 1; 2; 3]%Z) None ∅) eq_refl).
    intros i j p Hp.
    destruct i as [|[|[|[|i]]]]; try discriminate Hp;
      destruct j as [|[|[|[|j]]]]; try discriminate Hp;
      injection Hp as <-; reflexivity.
  - apply (Hn (full_file true)). left. reflexivity.
Defined.

(** ** Acquisition time (C6, C10) *)

Lemma existsb_eqb_In (x : Z) (l : list Z) : existsb (Z.eqb x) l = true <-> In x l.
Proof.
  rewrite existsb_exists. split.
  - intros (y & Hy & E). apply Z.eqb_eq in E. subst. exact Hy.
  - intros H. exists x. split; [exact H | apply Z.eqb_refl].
Qed.

Lemma has_duplicates_NoDup (l : list Z) : has_duplicates l = false <-> List.NoDup l.
Proof.
  induction l as [|x l IH]; simpl.
  - split; [constructor | reflexivity].
  - rewrite orb_false_iff, IH. split.
    + intros [Hx Hl]. constructor; [|exact Hl].
      intros Hin. apply existsb_eqb_In in Hin. congruence.
    + intros H. inversion H as [|? ? Hx Hl]; subst. split; [|exact Hl].
      destruct (existsb (Z.eqb x) l) eqn:E; [|reflexivity].
      apply existsb_eqb_In in E. contradiction.
Qed.

Lemma lookup_label_In (s : TimeSeries) (p : Z * Z) :
  List.NoDup (map fst s) -> In p s -> lookup_label s (fst p) = snd p.
Proof.
  unfold lookup_label. induction s as [|q s IH]; simpl; [contradiction|].
  intros Hnd [-> | Hin].
  - rewrite Z.eqb_refl. reflexivity.
  - inversion Hnd as [|? ? Hq Hs]; subst.
    destruct (Z.eqb_spec (fst q) (fst p)) as [E|_].
    + exfalso. apply Hq. rewrite E. apply in_map. exact Hin.
    + apply IH; assumption.
Qed.

Lemma map_lookup_label (s : TimeSeries) :
  List.NoDup (map fst s) -> map (lookup_label s) (map fst s) = map snd s.
Proof.
  intros Hnd. rewrite map_map. apply map_ext_in.
  intros p Hp. apply lookup_label_In; assumption.
Qed.

Lemma map_np_repeat {A B} (f : A -> B) (l : list A) (reps : nat) :
  map f (np_repeat l reps) = np_repeat (map f l) reps.
Proof.
  unfold np_repeat. induction l as [|x l IH]; simpl; [reflexivity|].
  rewrite map_app, IH. f_equal.
  clear IH. induction reps as [|n IHn]; simpl; [reflexivity|].
  rewrite IHn. reflexivity.
Qed.

Lemma length_np_repeat {A} (l : list A) (reps : nat) :
  length (np_repeat l reps) = length l * reps.
Proof.
  unfold np_repeat. induction l as [|x l IH]; simpl; [reflexivity|].
  rewrite length_app, IH, repeat_length. reflexivity.
Qed.

Lemma fst_zip_same_length {A B} (l : list A) (k : list B) :
  length l = length k -> map fst (zip l k) = l /\ map snd (zip l k) = k.
Proof.
  revert k. induction l as [|x l IH]; intros [|y k] H; simpl in *;
    try discriminate; [split; reflexivity|].
  injection H as H. destruct (IH k H) as [-> ->]. split; reflexivity.
Qed.

Lemma zero_size_nil : zero_size [] = true.
Proof. reflexivity. Qed.

Lemma zero_size_length (time2d : TimeGrid) :
  zero_size time2d = false -> length time2d <> 0.
Proof. destruct time2d; [discriminate | discriminate]. Qed.

Section AcqTimeFacts.
Variable mean : list Z -> Z.

Lemma reduced_labels (time2d : TimeGrid) : map fst (reduced mean time2d) = map fst time2d.
Proof. unfold reduced. rewrite map_map. reflexivity. Qed.

Lemma length_reduced (time2d : TimeGrid) : length (reduced mean time2d) = length time2d.
Proof. unfold reduced. apply length_map. Qed.

Lemma interp_acq_time_zero_size (time2d : TimeGrid) (target_y : list Z) :
  zero_size time2d = true ->
  exists msg, _interp_acq_time mean time2d target_y = Raise (ValueError msg).
Proof. intros H. unfold _interp_acq_time. rewrite H. eexists. reflexivity. Qed.

Lemma interp_acq_time_unfold (time2d : TimeGrid) (target_y : list Z) :
  zero_size time2d = false ->
  _interp_acq_time mean time2d target_y
  = if (length time2d <? length target_y)%nat then
      reps ← floordiv (length target_y) (length time2d);
      time_hires ← reindex (reduced mean time2d) (np_repeat (map fst time2d) reps);
      assign_coords_y time_hires target_y
    else Ok (reduced mean time2d).
Proof.
  intros Hz. unfold _interp_acq_time. rewrite Hz. cbn [mbind result_bind].
  fold (reduced mean time2d).
  rewrite reduced_labels, length_map. reflexivity.
Qed.

Lemma interp_acq_time_nonzero (time2d : TimeGrid) (target_y : list Z)
    (r : TimeSeries) :
  _interp_acq_time mean time2d target_y = Ok r -> zero_size time2d = false.
Proof.
  destruct (zero_size time2d) eqn:Hz; [|reflexivity].
  destruct (interp_acq_time_zero_size time2d target_y Hz) as [msg ->]. discriminate.
Qed.

Lemma interp_acq_time_same (time2d : TimeGrid) (target_y : list Z) :
  zero_size time2d = false ->
  length target_y <= length time2d ->
  _interp_acq_time mean time2d target_y = Ok (reduced mean time2d).
Proof.
  intros Hz H. rewrite interp_acq_time_unfold by exact Hz.
  destruct (Nat.ltb_spec (length time2d) (length target_y)); [lia|reflexivity].
Qed.

(** The outcome when the target is longer than the series. *)
Lemma interp_acq_time_repeat_outcome (time2d : TimeGrid) (target_y : list Z) :
  zero_size time2d = false ->
  length time2d < length target_y ->
  _interp_acq_time mean time2d target_y
  = if has_duplicates (map fst time2d) then
      Raise (ValueError "cannot reindex or align along dimension 'y' because the index has duplicate values")
    else if negb (length target_y
                  =? length time2d * (length target_y / length time2d))%nat then
      Raise (ValueError "conflicting sizes for dimension 'y'")
    else
      Ok (zip target_y (np_repeat (map snd (reduced mean time2d))
                                  (length target_y / length time2d))).
Proof.
  intros Hz Hlt. rewrite interp_acq_time_unfold by exact Hz.
  destruct (Nat.ltb_spec (length time2d) (length target_y)); [|lia].
  pose proof (zero_size_length time2d Hz) as Hn.
  assert (Hf : floordiv (length target_y) (length time2d)
               = Ok (length target_y / length time2d)).
  { unfold floordiv. destruct (length time2d); [congruence|reflexivity]. }
  rewrite Hf. cbn [mbind result_bind].
  unfold reindex. rewrite reduced_labels.
  destruct (has_duplicates (map fst time2d)) eqn:Ed; [reflexivity|].
  cbn [mbind result_bind]. unfold assign_coords_y.
  rewrite !length_map, length_np_repeat, length_map.
  destruct (negb _); [reflexivity|].
  do 2 f_equal. rewrite map_map. cbn [snd].
  rewrite <- (reduced_labels time2d), map_np_repeat.
  rewrite map_lookup_label; [reflexivity|].
  rewrite reduced_labels. apply has_duplicates_NoDup. exact Ed.
Qed.

Lemma interp_acq_time_upsample (time2d : TimeGrid) (target_y : list Z) :
  zero_size time2d = false ->
  List.NoDup (map fst time2d) ->
  length time2d < length target_y ->
  Nat.divide (length time2d) (length target_y) ->
  _interp_acq_time mean time2d target_y
  = Ok (zip target_y
            (np_repeat (map snd (reduced mean time2d))
                       (length target_y / length time2d))).
Proof.
  intros Hz Hnd Hlt [k Hk].
  rewrite (interp_acq_time_repeat_outcome time2d target_y Hz Hlt).
  rewrite (proj2 (has_duplicates_NoDup _) Hnd).
  pose proof (zero_size_length time2d Hz) as Hn.
  assert (Hq : length target_y / length time2d = k).
  { rewrite Hk. apply Nat.div_mul. exact Hn. }
  rewrite Hq.
  replace (length target_y =? length time2d * k)%nat with true
    by (symmetry; apply Nat.eqb_eq; lia).
  reflexivity.
Qed.

Lemma interp_acq_time_duplicates (time2d : TimeGrid) (target_y : list Z) :
  zero_size time2d = false ->
  length time2d < length target_y ->
  ~ List.NoDup (map fst time2d) ->
  exists msg, _interp_acq_time mean time2d target_y = Raise (ValueError msg).
Proof.
  intros Hz Hlt Hdup.
  rewrite (interp_acq_time_repeat_outcome time2d target_y Hz Hlt).
  destruct (has_duplicates (map fst time2d)) eqn:Ed; [eauto|].
  exfalso. apply Hdup, has_duplicates_NoDup. exact Ed.
Qed.

(** Whenever a series is returned its length is the larger of the two
    sizes. *)
Lemma interp_acq_time_length (time2d : TimeGrid) (target_y : list Z)
    (r : TimeSeries) :
  _interp_acq_time mean time2d target_y = Ok r ->
  length r = Nat.max (length time2d) (length target_y).
Proof.
  intros H. pose proof (interp_acq_time_nonzero _ _ _ H) as Hz. revert H.
  rewrite interp_acq_time_unfold by exact Hz.
  destruct (Nat.ltb_spec (length time2d) (length target_y)) as [Hlt|Hge].
  - destruct (floordiv _ _) as [reps|e]; cbn [mbind result_bind]; [|discriminate].
    destruct (reindex _ _) as [hires|e]; cbn [mbind result_bind]; [|discriminate].
    unfold assign_coords_y.
    destruct (Nat.eqb_spec (length target_y) (length hires)) as [E|_]; cbn [negb];
      [|discriminate].
    intros [= <-]. rewrite length_zip, length_map. lia.
  - intros [= <-]. rewrite length_reduced. lia.
Qed.

End AcqTimeFacts.

(** C6, as the code has it. For every grid of scanline timestamps that has
    an element and whose number of lines divides the size of the target: when
    the target is larger and the scanline labels are distinct, every
    timestamp is repeated [target_y.size // series.size] times and the result
    carries the target coordinates, and when a label is repeated the
    upsampling raises [ValueError]; a series [t0, t1] with two distinct labels
    and a target of size 4 give [t0, t0, t1, t1]; when the sizes match the
    reduced series is returned unchanged, whatever its labels. A grid without
    an element raises [ValueError] for every target. *)
Theorem acq_time_upsampling :
  forall mean : list Z -> Z,
    (forall (time2d : TimeGrid) (target_y : list Z),
        zero_size time2d = false ->
        Nat.divide (length time2d) (length target_y) ->
        (length time2d < length target_y ->
         List.NoDup (map fst time2d) ->
         exists r,
           _interp_acq_time mean time2d target_y = Ok r
           /\ map fst r = target_y
           /\ map snd r = np_repeat (map snd (reduced mean time2d))
                                    (length target_y / length time2d))
        /\ (length time2d < length target_y ->
            ~ List.NoDup (map fst time2d) ->
            exists msg,
              _interp_acq_time mean time2d target_y = Raise (ValueError msg))
        /\ (length time2d = length target_y ->
            _interp_acq_time mean time2d target_y = Ok (reduced mean time2d)))
    /\ (forall (y0 y1 : Z) (row0 row1 : list Z) (c0 c1 c2 c3 : Z),
          row0 <> [] -> row1 <> [] ->
          y0 <> y1 ->
          _interp_acq_time mean [(y0, row0); (y1, row1)] [c0; c1; c2; c3]
          = Ok [(c0, mean row0); (c1, mean row0); (c2, mean row1); (c3, mean row1)])
    /\ (forall (time2d : TimeGrid) (target_y : list Z),
          zero_size time2d = true ->
          exists msg,
            _interp_acq_time mean time2d target_y = Raise (ValueError msg)).
Proof.
  intros mean. split; [|split].
  - intros time2d target_y Hz Hdiv. split; [|split].
    + intros Hlt Hnd.
      rewrite (interp_acq_time_upsample mean time2d target_y Hz Hnd Hlt Hdiv).
      eexists. split; [reflexivity|].
      apply fst_zip_same_length.
      rewrite length_np_repeat, length_map, length_reduced.
      pose proof (zero_size_length time2d Hz) as Hn.
      destruct Hdiv as [k Hk]. rewrite Hk at 2.
      rewrite Nat.div_mul by exact Hn. lia.
    + intros Hlt Hdup. exact (interp_acq_time_duplicates mean time2d target_y Hz Hlt Hdup).
    + intros Heq. apply interp_acq_time_same; [exact Hz | lia].
  - intros y0 y1 row0 row1 c0 c1 c2 c3 H0 H1 Hne.
    rewrite interp_acq_time_upsample.
    + reflexivity.
    + destruct row0; [congruence | reflexivity].
    + simpl. constructor; [|constructor; [|constructor]]; simpl; intuition congruence.
    + simpl. lia.
    + exists 2. reflexivity.
  - intros time2d target_y Hz. exact (interp_acq_time_zero_size mean time2d target_y Hz).
Qed.

Lemma acq_time_upsampling_witness :
  exists r,
    _interp_acq_time mean_ns [(0, [1000; 1002]); (1, [2000; 2002])]%Z [0; 1; 2; 3]%Z
    = Ok r
    /\ map fst r = [0; 1; 2; 3]%Z
    /\ map snd r = [1001; 1001; 2001; 2001]%Z.
Proof.
  apply (proj1 (proj1 (acq_time_upsampling mean_ns)
                  [(0, [1000; 1002]); (1, [2000; 2002])]%Z [0; 1; 2; 3]%Z
                  eq_refl ltac:(exists 2; reflexivity))).
  - simpl. lia.
  - repeat constructor; simpl; intuition lia.
Defined.

(** Two scanlines that carry the same label, and a target of size 4: the
    series has length 2, which divides 4, and the upsampling raises
    [ValueError] instead of giving [t0, t0, t1, t1]. A grid without a line
    and a target without an element have equal sizes, and [ValueError] is
    raised instead of the empty series. *)
Lemma acq_time_repeated_label_refused :
  length [(0, [1000; 1002]); (0, [2000; 2002])]%Z = 2
  /\ Nat.divide 2 (length [0; 1; 2; 3]%Z)
  /\ (exists msg,
        _interp_acq_time mean_ns [(0, [1000; 1002]); (0, [2000; 2002])]%Z [0; 1; 2; 3]%Z
        = Raise (ValueError msg))
  /\ _interp_acq_time mean_ns [(0, [1000; 1002]); (0, [2000; 2002])]%Z [0; 1; 2; 3]%Z
     <> Ok [(0, 1001); (1, 1001); (2, 2001); (3, 2001)]%Z
  /\ (exists msg, _interp_acq_time mean_ns [] [] = Raise (ValueError msg))
  /\ _interp_acq_time mean_ns [] [] <> Ok (reduced mean_ns []).
Proof.
  split; [reflexivity|]. split; [exists 2; reflexivity|].
  split; [eexists; reflexivity|]. split; [discriminate|].
  split; [eexists; reflexivity | discriminate].
Qed.

Lemma get_acq_time_source (mean : list Z -> Z) (h : FileHandler) (resolution : Z)
    (r : TimeSeries) :
  _get_acq_time mean h resolution = Ok r ->
  exists time2d target,
    (nc_times (nc h) !! "time_ir_wv" = Some time2d
     \/ nc_times (nc h) !! "time_ir_wv" = None
        /\ nc_times (nc h) !! "time" = Some time2d)
    /\ nc_coords (nc h) !! (if _is_high_resol resolution then "x" else "x_ir_wv")
       = Some target
    /\ _interp_acq_time mean time2d target = Ok r.
Proof.
  unfold _get_acq_time, getitem.
  destruct (nc_times (nc h) !! "time_ir_wv") as [t|] eqn:Et.
  - cbn [mbind result_bind].
    destruct (_is_high_resol resolution);
      destruct (nc_coords (nc h) !! _) as [target|] eqn:Ec;
      cbn [mbind result_bind]; try discriminate;
      intros H; exists t, target; auto.
  - destruct (nc_times (nc h) !! "time") as [t|] eqn:Et'; cbn [mbind result_bind];
      [|discriminate].
    destruct (_is_high_resol resolution);
      destruct (nc_coords (nc h) !! _) as [target|] eqn:Ec;
      cbn [mbind result_bind]; try discriminate;
      intros H; exists t, target; auto.
Qed.

(** C10, as the code has it. The acquisition time of a resolution takes its
    upsampling target from the x coordinate vector of that resolution, not
    from the y one; a series that is returned has the length of that vector
    when the low resolution grid has no more lines than the vector has
    elements, and the number of low resolution lines otherwise. *)
Theorem acq_time_target_is_x_axis :
  forall (mean : list Z -> Z) (h : FileHandler) (resolution : Z) (r : TimeSeries),
    _get_acq_time mean h resolution = Ok r ->
    exists time2d target_x,
      (nc_times (nc h) !! "time_ir_wv" = Some time2d
       \/ nc_times (nc h) !! "time_ir_wv" = None
          /\ nc_times (nc h) !! "time" = Some time2d)
      /\ nc_coords (nc h) !! (if _is_high_resol resolution then "x" else "x_ir_wv")
         = Some target_x
      /\ _interp_acq_time mean time2d target_x = Ok r
      /\ length r = Nat.max (length time2d) (length target_x)
      /\ (length time2d <= length target_x -> length r = length target_x)
      /\ (length target_x < length time2d -> length r = length time2d).
Proof.
  intros mean h resolution r H.
  destruct (get_acq_time_source mean h resolution r H) as (t & target & Ht & Hc & Hi).
  exists t, target. pose proof (interp_acq_time_length mean t target r Hi) as Hl.
  repeat split; try assumption; lia.
Qed.

Lemma acq_time_target_is_x_axis_witness :
  exists time2d target_x,
    (nc_times (nc easy_file) !! "time_ir_wv" = Some time2d
     \/ nc_times (nc easy_file) !! "time_ir_wv" = None
        /\ nc_times (nc easy_file) !! "time" = Some time2d)
    /\ nc_coords (nc easy_file) !! "x" = Some target_x
    /\ _interp_acq_time mean_ns time2d target_x
       = Ok [(0, 1001); (1, 1001); (2, 2001); (3, 2001)]%Z
    /\ 4 = Nat.max (length time2d) (length target_x)
    /\ (length time2d <= length target_x -> 4 = length target_x)
    /\ (length target_x < length time2d -> 4 = length time2d).
Proof.
  exact (acq_time_target_is_x_axis mean_ns easy_file 2250%Z
           [(0, 1001); (1, 1001); (2, 2001); (3, 2001)]%Z eq_refl).
Defined.

(** On a low resolution grid of three lines and two columns the series
    returned for the low resolution has three timestamps, one per line: its
    length is not the size of the x dimension, and the image is not
    square. *)
Lemma acq_time_length_not_x_size :
  nc_coords (nc tall_file) !! "x_ir_wv" = Some [0; 1]%Z
  /\ nc_coords (nc tall_file) !! "y_ir_wv" = Some [0; 1; 2]%Z
  /\ _is_high_resol 4500 = false
  /\ _get_acq_time mean_ns tall_file 4500
     = Ok [(0, 1001); (1, 2001); (2, 3001)]%Z
  /\ length [(0, 1001); (1, 2001); (2, 3001)]%Z <> length [0; 1]%Z
  /\ length [(0, 1001); (1, 2001); (2, 3001)]%Z = length [0; 1; 2]%Z.
Proof.
  repeat split; try reflexivity. simpl. lia.
Qed.

(** ** Tie-point interpolation (C2) *)

Lemma length_every {A} (step : nat) (l : list A) :
  0 < step ->
  forall k, k < step -> length (every step k l) = (length l + step - 1 - k) / step.
Proof.
  intros Hs. induction l as [|x l IH]; intros k Hk.
  - simpl. symmetry. apply Nat.div_small. lia.
  - destruct k as [|k]; cbn [every length].
    + rewrite IH by lia.
      replace (S (length l) + step - 1 - 0) with (length l + 1 * step) by lia.
      rewrite Nat.div_add by lia.
      replace (length l + step - 1 - (step - 1)) with (length l) by lia. lia.
    + rewrite IH by lia. f_equal. lia.
Qed.

Lemma length_slice_step {A} (l : list A) (step : nat) (r : list A) :
  slice_step l step = Ok r -> 0 < step /\ length r = (length l + step - 1) / step.
Proof.
  unfold slice_step. destruct step as [|s]; [discriminate|].
  intros [= <-]. split; [lia|].
  rewrite length_every by lia. f_equal. lia.
Qed.

(** The number of elements of [l[::step]] when the length of [l] is not a
    multiple of the number [n] of tie points and [step = length l // n]. *)
Lemma strided_size_not_multiple (t n : nat) :
  n <> 0 -> t / n <> 0 -> ~ Nat.divide n t ->
  (t + t / n - 1) / (t / n) <> n.
Proof.
  intros Hn Hs Hnd.
  assert (Hr : t mod n <> 0).
  { intros E. apply Hnd. apply Nat.Lcm0.mod_divide. exact E. }
  pose proof (Nat.div_mod_eq t n) as Ht.
  assert (Hle : S n <= (t + t / n - 1) / (t / n)).
  { apply Nat.div_le_lower_bound; [exact Hs|]. nia. }
  lia.
Qed.

Section TiepointFacts.
Variable interp : Interp.

(** Without an error before it, the outcome is that of the interpolation
    primitive on the tie points taken at the stride. *)
Lemma interp_tiepoints_outcome (ds : DataArray float) (target_x target_y : list Z) :
  _interp_tiepoints interp ds target_x target_y
  = if (ncols ds =? 0)%nat then
      Raise (ZeroDivisionError "integer division or modulo by zero")
    else if (length target_x / ncols ds =? 0)%nat then
      Raise (ValueError "slice step cannot be zero")
    else if negb ((length target_x + length target_x / ncols ds - 1)
                  / (length target_x / ncols ds) =? ncols ds)%nat then
      Raise (ValueError "conflicting sizes for dimension 'x'")
    else if negb ((length target_y + length target_x / ncols ds - 1)
                  / (length target_x / ncols ds) =? nrows ds)%nat then
      Raise (ValueError "conflicting sizes for dimension 'y'")
    else
      v ← interp (every (length target_x / ncols ds) 0 target_x)
                 (every (length target_x / ncols ds) 0 target_y)
                 (values ds) target_x target_y;
      Ok (mkDataArray (dims ds) (length target_x) v
                      (Some target_x) (Some target_y) None (attrs ds)).
Proof.
  unfold _interp_tiepoints, floordiv.
  destruct (ncols ds) as [|n] eqn:En; cbn [mbind result_bind Nat.eqb];
    [reflexivity|].
  destruct (length target_x / S n) as [|s'] eqn:Es;
    cbn [slice_step mbind result_bind Nat.eqb]; [reflexivity|].
  unfold assign_coords. rewrite En.
  rewrite !length_every by lia.
  replace (length target_x + S s' - 1 - 0) with (length target_x + S s' - 1) by lia.
  replace (length target_y + S s' - 1 - 0) with (length target_y + S s' - 1) by lia.
  destruct (negb (_ =? S n)%nat); cbn [mbind result_bind]; [reflexivity|].
  destruct (negb _); reflexivity.
Qed.

Lemma interp_tiepoints_ok (ds : DataArray float) (target_x target_y : list Z)
    (r : DataArray float) :
  _interp_tiepoints interp ds target_x target_y = Ok r ->
  ncols ds <> 0
  /\ length target_x / ncols ds <> 0
  /\ (length target_x + length target_x / ncols ds - 1)
     / (length target_x / ncols ds) = ncols ds
  /\ (length target_y + length target_x / ncols ds - 1)
     / (length target_x / ncols ds) = nrows ds.
Proof.
  rewrite interp_tiepoints_outcome.
  destruct (Nat.eqb_spec (ncols ds) 0) as [|Hn]; [discriminate|].
  destruct (Nat.eqb_spec (length target_x / ncols ds) 0) as [|Hs]; [discriminate|].
  destruct (Nat.eqb_spec ((length target_x + length target_x / ncols ds - 1)
                          / (length target_x / ncols ds)) (ncols ds)) as [Ex|];
    [|discriminate].
  destruct (Nat.eqb_spec ((length target_y + length target_x / ncols ds - 1)
                          / (length target_x / ncols ds)) (nrows ds)) as [Ey|];
    [|discriminate].
  intros _. repeat (split; [assumption|]). assumption.
Qed.

Lemma interp_tiepoints_x_not_multiple (ds : DataArray float)
    (target_x target_y : list Z) :
  ~ Nat.divide (ncols ds) (length target_x) ->
  exists e, _interp_tiepoints interp ds target_x target_y = Raise e.
Proof.
  intros Hnd.
  destruct (_interp_tiepoints interp ds target_x target_y) as [r|e] eqn:E;
    [|eauto].
  exfalso. apply interp_tiepoints_ok in E as (Hn & Hs & Hx & _).
  exact (strided_size_not_multiple _ _ Hn Hs Hnd Hx).
Qed.

Lemma interp_tiepoints_empty_axis (ds : DataArray float)
    (target_x target_y : list Z) :
  ncols ds = 0 ->
  exists msg,
    _interp_tiepoints interp ds target_x target_y = Raise (ZeroDivisionError msg).
Proof.
  intros Hn. rewrite interp_tiepoints_outcome, Hn. eexists. reflexivity.
Qed.

Lemma interp_tiepoints_value_error (ds : DataArray float)
    (target_x target_y : list Z) :
  ncols ds <> 0 ->
  length target_x / ncols ds = 0
  \/ (length target_x + length target_x / ncols ds - 1)
     / (length target_x / ncols ds) <> ncols ds
  \/ (length target_y + length target_x / ncols ds - 1)
     / (length target_x / ncols ds) <> nrows ds ->
  exists msg,
    _interp_tiepoints interp ds target_x target_y = Raise (ValueError msg).
Proof.
  intros Hn H. rewrite interp_tiepoints_outcome.
  destruct (Nat.eqb_spec (ncols ds) 0) as [|_]; [contradiction|].
  destruct (Nat.eqb_spec (length target_x / ncols ds) 0) as [|Hs]; [eauto|].
  destruct (Nat.eqb_spec ((length target_x + length target_x / ncols ds - 1)
                          / (length target_x / ncols ds)) (ncols ds)) as [Ex|];
    cbn [negb]; [|eauto].
  destruct (Nat.eqb_spec ((length target_y + length target_x / ncols ds - 1)
                          / (length target_x / ncols ds)) (nrows ds)) as [Ey|];
    cbn [negb]; [|eauto].
  exfalso. destruct H as [H|[H|H]]; contradiction.
Qed.

End TiepointFacts.

(** C2, as the code has it. The sampling stride is
    [target_x.size // coarse_x.size], computed from the x axis alone, and no
    check of the ratio is made: the interpolation raises [ZeroDivisionError]
    when the coarse x axis is empty, and [ValueError] when the stride is zero
    or when a target vector taken at that stride does not have the size of
    its coarse axis; otherwise its outcome is that of the interpolation
    primitive. It therefore raises one of these two errors whenever
    [target_x.size] is not a multiple of the coarse x size; a [target_y.size]
    that is not a multiple of the coarse y size is not always refused. *)
Theorem tiepoint_interpolation_failures :
  forall (interp : Interp) (ds : DataArray float) (target_x target_y : list Z),
    (ncols ds = 0 ->
     exists msg,
       _interp_tiepoints interp ds target_x target_y = Raise (ZeroDivisionError msg))
    /\ (ncols ds <> 0 ->
        length target_x / ncols ds = 0
        \/ (length target_x + length target_x / ncols ds - 1)
           / (length target_x / ncols ds) <> ncols ds
        \/ (length target_y + length target_x / ncols ds - 1)
           / (length target_x / ncols ds) <> nrows ds ->
        exists msg,
          _interp_tiepoints interp ds target_x target_y = Raise (ValueError msg))
    /\ (ncols ds <> 0 ->
        length target_x / ncols ds <> 0 ->
        (length target_x + length target_x / ncols ds - 1)
        / (length target_x / ncols ds) = ncols ds ->
        (length target_y + length target_x / ncols ds - 1)
        / (length target_x / ncols ds) = nrows ds ->
        _interp_tiepoints interp ds target_x target_y
        = (v ← interp (every (length target_x / ncols ds) 0 target_x)
                      (every (length target_x / ncols ds) 0 target_y)
                      (values ds) target_x target_y;
           Ok (mkDataArray (dims ds) (length target_x) v
                           (Some target_x) (Some target_y) None (attrs ds))))
    /\ (~ Nat.divide (ncols ds) (length target_x) ->
        (ncols ds = 0
         /\ exists msg,
              _interp_tiepoints interp ds target_x target_y
              = Raise (ZeroDivisionError msg))
        \/ (ncols ds <> 0
            /\ exists msg,
                 _interp_tiepoints interp ds target_x target_y
                 = Raise (ValueError msg))).
Proof.
  intros interp ds target_x target_y. split; [|split; [|split]].
  - apply interp_tiepoints_empty_axis.
  - apply interp_tiepoints_value_error.
  - intros Hn Hs Hx Hy. rewrite interp_tiepoints_outcome.
    destruct (Nat.eqb_spec (ncols ds) 0) as [|_]; [contradiction|].
    destruct (Nat.eqb_spec (length target_x / ncols ds) 0) as [|_]; [contradiction|].
    rewrite Hx, Hy, !Nat.eqb_refl. reflexivity.
  - intros Hnd. destruct (Nat.eq_dec (ncols ds) 0) as [H0|Hn].
    + left. split; [exact H0|]. apply interp_tiepoints_empty_axis. exact H0.
    + right. split; [exact Hn|].
      apply interp_tiepoints_value_error; [exact Hn|].
      destruct (Nat.eq_dec (length target_x / ncols ds) 0) as [Hs|Hs]; [left; exact Hs|].
      right. left. exact (strided_size_not_multiple _ _ Hn Hs Hnd).
Qed.

Lemma tiepoint_interpolation_failures_witness :
  ncols (no_coords dims_y_x 2 sza_tie) <> 0
  /\ exists msg,
       _interp_tiepoints xr_interp (no_coords dims_y_x 2 sza_tie)
                         [0; 1; 2; 3; 4]%Z [0; 1; 2; 3]%Z = Raise (ValueError msg).
Proof.
  destruct (proj2 (proj2 (proj2 (tiepoint_interpolation_failures xr_interp
                     (no_coords dims_y_x 2 sza_tie) [0; 1; 2; 3; 4]%Z [0; 1; 2; 3]%Z)))
              ltac:(intros [k Hk]; simpl in Hk; lia)) as [[H0 _]|H].
  - discriminate H0.
  - exact H.
Defined.

(** A 2 x 2 coarse grid, four target columns and three target rows: 3 is not
    a multiple of 2, and the interpolation returns a 3 x 4 array. *)
Lemma tiepoints_y_not_multiple_accepted :
  nrows (no_coords dims_y_x 2 sza_tie) = 2
  /\ length [0; 1; 2]%Z = 3
  /\ 3 mod 2 = 1
  /\ exists r,
       _interp_tiepoints xr_interp (no_coords dims_y_x 2 sza_tie)
                         [0; 1; 2; 3]%Z [0; 1; 2]%Z = Ok r
       /\ nrows r = 3 /\ ncols r = 4
       /\ pixel (values r) 2 2 = Some (F64.of_Z 0).
Proof.
  repeat split. eexists. split; [vm_compute; reflexivity|].
  repeat split.
Qed.

(** ** Rounding never produces NaN *)

Section RoundingFacts.
Variables prec emax : Z.

Lemma iter_pos_invariant {A} (P : A -> Prop) (f : A -> A) :
  (forall x, P x -> P (f x)) -> forall n x, P x -> P (SpecFloat.iter_pos f n x).
Proof.
  intros Hf. induction n as [n IH|n IH|]; intros x Hx; simpl; auto.
Qed.

Lemma shr_1_nonneg (mrs : shr_record) : (0 <= shr_m mrs)%Z -> (0 <= shr_m (shr_1 mrs))%Z.
Proof.
  destruct mrs as [m r s]. simpl.
  destruct m as [|p|p]; simpl; [lia| |lia].
  destruct p; simpl; lia.
Qed.

Lemma shr_fexp_nonneg (m e : Z) (l : location) :
  (0 <= m)%Z -> (0 <= shr_m (fst (shr_fexp prec emax m e l)))%Z.
Proof.
  intros Hm. unfold shr_fexp, shr.
  assert (H0 : (0 <= shr_m (shr_record_of_loc m l))%Z).
  { destruct l as [|[ | | ]]; exact Hm. }
  destruct (fexp prec emax (Zdigits2 m + e) - e)%Z; simpl; try exact H0.
  apply (iter_pos_invariant (fun mrs => (0 <= shr_m mrs)%Z)); [|exact H0].
  exact shr_1_nonneg.
Qed.

Lemma round_nearest_even_nonneg (m : Z) (l : location) :
  (0 <= m)%Z -> (0 <= round_nearest_even m l)%Z.
Proof.
  intros Hm. unfold round_nearest_even.
  destruct l as [|[ | | ]]; try lia. destruct (Z.even m); lia.
Qed.

Lemma binary_round_aux_not_nan (s : bool) (m e : Z) (l : location) :
  (0 <= m)%Z -> isnan (binary_round_aux prec emax s m e l) = false.
Proof.
  intros Hm. unfold binary_round_aux.
  pose proof (shr_fexp_nonneg m e l Hm) as H1.
  destruct (shr_fexp prec emax m e l) as [mrs' e']. simpl in H1.
  pose proof (shr_fexp_nonneg _ e' loc_Exact
                (round_nearest_even_nonneg _ (loc_of_shr_record mrs') H1)) as H2.
  destruct (shr_fexp prec emax _ e' loc_Exact) as [mrs'' e'']. simpl in H2.
  destruct (shr_m mrs'') as [|p|p]; [reflexivity| |lia].
  destruct (e'' <=? emax - prec)%Z; reflexivity.
Qed.

Lemma binary_normalize_not_nan (m e : Z) (szero : bool) :
  isnan (binary_normalize prec emax m e szero) = false.
Proof.
  unfold binary_normalize, binary_round.
  destruct m as [|p|p]; [reflexivity| |];
    destruct (shl_align _ _ _) as [mz ez]; apply binary_round_aux_not_nan; lia.
Qed.

(** The sum of two finite numbers is a number (possibly infinite). *)
Lemma SFadd_finite_not_nan (x y : float) :
  is_finite x = true -> is_finite y = true -> isnan (SFadd prec emax x y) = false.
Proof.
  destruct x as [sx|sx| |sx mx ex], y as [sy|sy| |sy my ey]; try discriminate;
    intros _ _; simpl; try reflexivity.
  - destruct sx, sy; reflexivity.
  - apply binary_normalize_not_nan.
Qed.

(** A number divided by a finite number that is not zero is a number. *)
Lemma SFdiv_not_nan (x : float) (sy : bool) (my : BinNums.positive) (ey : Z) :
  isnan x = false -> isnan (SFdiv prec emax x (S754_finite sy my ey)) = false.
Proof.
  destruct x as [sx|sx| |sx mx ex]; try discriminate; intros _; simpl;
    try reflexivity.
  unfold SFdiv_core_binary.
  set (m' := match (ex - ey - _)%Z with
             | 0%Z => Z.pos mx
             | Z.pos _ => Z.shiftl (Z.pos mx) _
             | Z.neg _ => 0%Z
             end).
  assert (Hm' : (0 <= m')%Z).
  { subst m'. destruct (ex - ey - _)%Z; try lia. apply Z.shiftl_nonneg. lia. }
  pose proof (Z.div_eucl_eq m' (Z.pos my) ltac:(lia)) as Hq.
  pose proof (Z.mod_pos_bound m' (Z.pos my) ltac:(lia)) as Hr.
  unfold Z.modulo in Hr.
  destruct (Z.div_eucl m' (Z.pos my)) as [q r].
  apply binary_round_aux_not_nan. nia.
Qed.

End RoundingFacts.

(** ** Orbital parameters (C3) *)

Lemma nanmean_two (s e : float) :
  isnan s = false -> isnan e = false ->
  np_nanmean [s; e] = F64.div (F64.add s e) (F64.of_Z 2).
Proof.
  intros Hs He. unfold np_nanmean, nansum, nancount.
  cbn [map List.filter]. rewrite Hs, He. reflexivity.
Qed.

Lemma nanmean_start_nan (e : float) :
  isnan e = false ->
  np_nanmean [nan; e] = F64.div (F64.add (S754_zero false) e) (F64.of_Z 1).
Proof.
  intros He. unfold np_nanmean, nansum, nancount.
  cbn [map List.filter isnan nan]. rewrite He. reflexivity.
Qed.

Lemma nanmean_end_nan (s : float) :
  isnan s = false ->
  np_nanmean [s; nan] = F64.div (F64.add s (S754_zero false)) (F64.of_Z 1).
Proof.
  intros Hs. unfold np_nanmean, nansum, nancount.
  cbn [map List.filter isnan nan]. rewrite Hs. reflexivity.
Qed.

Lemma is_finite_not_nan (x : float) : is_finite x = true -> isnan x = false.
Proof. destruct x; simpl; congruence. Qed.

Lemma nanmean_finite (s e : float) :
  is_finite s = true -> is_finite e = true -> isnan (np_nanmean [s; e]) = false.
Proof.
  intros Hs He.
  rewrite nanmean_two by (apply is_finite_not_nan; assumption).
  apply (SFdiv_not_nan F64.prec F64.emax (F64.add s e) false 4503599627370496 (-51)).
  apply SFadd_finite_not_nan; assumption.
Qed.

Lemma orbital_parameters_projection (h : FileHandler) :
  _get_orbital_parameters h !! "projection_longitude" = Some (projection_longitude h)
  /\ _get_orbital_parameters h !! "projection_latitude" = Some (S754_zero false)
  /\ _get_orbital_parameters h !! "projection_altitude" = Some ALTITUDE.
Proof.
  unfold _get_orbital_parameters.
  destruct (negb _ && negb _); repeat split; simplify_map_eq; reflexivity.
Qed.

Lemma orbital_parameters_actual (h : FileHandler) :
  (isnan (_get_ssp h "longitude") = false /\ isnan (_get_ssp h "latitude") = false ->
   _get_orbital_parameters h !! "satellite_actual_longitude"
   = Some (_get_ssp h "longitude")
   /\ _get_orbital_parameters h !! "satellite_actual_latitude"
      = Some (_get_ssp h "latitude"))
  /\ (isnan (_get_ssp h "longitude") = true \/ isnan (_get_ssp h "latitude") = true ->
      _get_orbital_parameters h !! "satellite_actual_longitude" = None
      /\ _get_orbital_parameters h !! "satellite_actual_latitude" = None).
Proof.
  unfold _get_orbital_parameters, _get_ssp_lonlat. cbn [fst snd].
  split.
  - intros [-> ->]. cbn [negb andb]. split; simplify_map_eq; reflexivity.
  - intros H.
    assert (E : negb (isnan (_get_ssp h "longitude"))
                && negb (isnan (_get_ssp h "latitude")) = false).
    { destruct H as [-> | ->]; [reflexivity | apply andb_false_r]. }
    rewrite E. split; simplify_map_eq; reflexivity.
Qed.

(** C3, as the code has it. The record always holds projection_longitude,
    projection_latitude = 0 and projection_altitude. It holds
    satellite_actual_longitude and satellite_actual_latitude if and only if,
    for both coordinates, the start and the end variable exist and their
    NaN-ignoring mean ([np.nanmean]) is not NaN; the fields are then these
    means, otherwise both are absent. The NaN-ignoring mean of two samples
    that are not NaN is their mean, and is not NaN when both are finite; a
    NaN sample is left out of the mean. *)
Theorem orbital_parameters_fields :
  forall h : FileHandler,
    (_get_orbital_parameters h !! "projection_longitude"
     = Some (projection_longitude h)
     /\ _get_orbital_parameters h !! "projection_latitude" = Some (S754_zero false)
     /\ _get_orbital_parameters h !! "projection_altitude" = Some ALTITUDE)
    /\ (isnan (_get_ssp h "longitude") = false
        /\ isnan (_get_ssp h "latitude") = false ->
        _get_orbital_parameters h !! "satellite_actual_longitude"
        = Some (_get_ssp h "longitude")
        /\ _get_orbital_parameters h !! "satellite_actual_latitude"
           = Some (_get_ssp h "latitude"))
    /\ (isnan (_get_ssp h "longitude") = true
        \/ isnan (_get_ssp h "latitude") = true ->
        _get_orbital_parameters h !! "satellite_actual_longitude" = None
        /\ _get_orbital_parameters h !! "satellite_actual_latitude" = None)
    /\ (forall coord,
          _get_ssp h coord
          = match nc_scalars (nc h) !! ("sub_satellite_" ++ coord ++ "_start"),
                  nc_scalars (nc h) !! ("sub_satellite_" ++ coord ++ "_end") with
            | Some start, Some end_ => np_nanmean [start; end_]
            | _, _ => nan
            end)
    /\ (forall s e, isnan s = false -> isnan e = false ->
                    np_nanmean [s; e] = F64.div (F64.add s e) (F64.of_Z 2))
    /\ (forall s e, is_finite s = true -> is_finite e = true ->
                    isnan (np_nanmean [s; e]) = false)
    /\ (forall e, isnan e = false ->
                  np_nanmean [nan; e]
                  = F64.div (F64.add (S754_zero false) e) (F64.of_Z 1))
    /\ (forall s, isnan s = false ->
                  np_nanmean [s; nan]
                  = F64.div (F64.add s (S754_zero false)) (F64.of_Z 1))
    /\ np_nanmean [nan; nan] = nan.
Proof.
  intros h.
  split; [apply orbital_parameters_projection|].
  split; [apply (orbital_parameters_actual h)|].
  split; [apply (orbital_parameters_actual h)|].
  split; [intros coord; reflexivity|].
  split; [exact nanmean_two|].
  split; [exact nanmean_finite|].
  split; [exact nanmean_start_nan|].
  split; [exact nanmean_end_nan|].
  vm_compute. reflexivity.
Qed.

Lemma orbital_parameters_fields_witness :
  _get_orbital_parameters easy_file !! "satellite_actual_longitude"
  = Some (F64.of_dyadic 115 (-1))
  /\ _get_orbital_parameters easy_file !! "satellite_actual_latitude"
     = Some (F64.of_Z 3).
Proof.
  exact (proj1 (proj2 (orbital_parameters_fields easy_file))
           (conj eq_refl eq_refl)).
Defined.

(** The start-of-scan longitude is NaN, the other three samples are finite:
    both fields are present, and the longitude is the end-of-scan sample,
    58 degrees. *)
Lemma actual_fields_present_with_nan_start :
  nc_scalars (nc nan_start_file) !! "sub_satellite_longitude_start" = Some nan
  /\ nc_scalars (nc nan_start_file) !! "sub_satellite_longitude_end"
     = Some (F64.of_Z 58)
  /\ _get_orbital_parameters nan_start_file !! "satellite_actual_longitude"
     = Some (F64.of_Z 58)
  /\ _get_orbital_parameters nan_start_file !! "satellite_actual_latitude"
     = Some (F64.of_Z 3).
Proof.
  repeat split; vm_compute; reflexivity.
Qed.

(** ** Area definition (C9) *)

(** C9. For every image size the line and column offsets are
    [im_size / 2 + 0.5]; the projection parameters get the line offset as
    [offset - im_size] and the column offset as computed, both scale factors
    negated, derived from the field of view of 18.0 degrees divided by the
    image size, the radii 6378140.0 m and 6356755.0 m, the altitude
    [42164000.0 - 6378140.0] m and the scan direction S2N. *)
Theorem area_projection_parameters :
  forall (np_deg2rad : float -> float) (Extent Area : Type)
         (sampling_to_lfac_cfac : float -> float)
         (get_area_extent : ProjDict -> Extent)
         (get_area_definition : ProjDict -> Extent -> Area)
         (h : FileHandler),
    (forall resolution,
        get_area_def np_deg2rad Extent Area sampling_to_lfac_cfac get_area_extent
                     get_area_definition h resolution
        = (y ← getitem (nc_coords (nc h))
                 (if _is_high_resol resolution then "y" else "y_ir_wv");
           Ok (get_area_definition
                 (area_pdict np_deg2rad sampling_to_lfac_cfac h (length y)
                    (if _is_high_resol resolution then "geos_mviri_vis"
                     else "geos_mviri_ir_wv"))
                 (get_area_extent
                    (area_pdict np_deg2rad sampling_to_lfac_cfac h (length y)
                       (if _is_high_resol resolution then "geos_mviri_vis"
                        else "geos_mviri_ir_wv"))))))
    /\ (forall (im_size : nat) (area_name : string),
          pd_loff (area_pdict np_deg2rad sampling_to_lfac_cfac h im_size area_name)
          = F64.sub (F64.add (F64.div (F64.of_Z (Z.of_nat im_size)) (F64.of_Z 2))
                             (F64.of_dyadic 1 (-1)))
                    (F64.of_Z (Z.of_nat im_size))
          /\ pd_coff (area_pdict np_deg2rad sampling_to_lfac_cfac h im_size area_name)
             = F64.add (F64.div (F64.of_Z (Z.of_nat im_size)) (F64.of_Z 2))
                       (F64.of_dyadic 1 (-1))
          /\ pd_lfac (area_pdict np_deg2rad sampling_to_lfac_cfac h im_size area_name)
             = SFopp (sampling_to_lfac_cfac
                        (F64.div (np_deg2rad (F64.of_Z 18))
                                 (F64.of_Z (Z.of_nat im_size))))
          /\ pd_cfac (area_pdict np_deg2rad sampling_to_lfac_cfac h im_size area_name)
             = SFopp (sampling_to_lfac_cfac
                        (F64.div (np_deg2rad (F64.of_Z 18))
                                 (F64.of_Z (Z.of_nat im_size))))
          /\ pd_a (area_pdict np_deg2rad sampling_to_lfac_cfac h im_size area_name)
             = F64.of_Z 6378140
          /\ pd_b (area_pdict np_deg2rad sampling_to_lfac_cfac h im_size area_name)
             = F64.of_Z 6356755
          /\ pd_h (area_pdict np_deg2rad sampling_to_lfac_cfac h im_size area_name)
             = F64.sub (F64.of_Z 42164000) (F64.of_Z 6378140)
          /\ pd_scandir (area_pdict np_deg2rad sampling_to_lfac_cfac h im_size area_name)
             = "S2N"
          /\ pd_nlines (area_pdict np_deg2rad sampling_to_lfac_cfac h im_size area_name)
             = im_size
          /\ pd_ncols (area_pdict np_deg2rad sampling_to_lfac_cfac h im_size area_name)
             = im_size
          /\ pd_ssp_lon (area_pdict np_deg2rad sampling_to_lfac_cfac h im_size area_name)
             = projection_longitude h)
    /\ F64.sub (F64.of_Z 42164000) (F64.of_Z 6378140) = F64.of_Z 35785860
    /\ pd_loff (area_pdict np_deg2rad sampling_to_lfac_cfac h 5000 "geos_mviri_vis")
       = F64.of_dyadic (-4999) (-1)
    /\ pd_coff (area_pdict np_deg2rad sampling_to_lfac_cfac h 5000 "geos_mviri_vis")
       = F64.of_dyadic 5001 (-1).
Proof.
  intros. split; [|split; [|split; [|split]]].
  - intros resolution. unfold get_area_def.
    destruct (_is_high_resol resolution);
      destruct (getitem (nc_coords (nc h)) _); reflexivity.
  - intros im_size area_name. repeat split.
  - vm_compute. reflexivity.
  - vm_compute. reflexivity.
  - vm_compute. reflexivity.
Qed.

(** ** Round trip of the visible radiance (C8) *)































(** * Further properties of the reader *)

(** ** Reading a variable *)

Lemma get_nc_key_other (h : FileHandler) (name : string) :
  name <> "VIS" -> name <> "WV" -> name <> "IR" -> _get_nc_key h name = name.
Proof.
  intros H1 H2 H3. unfold _get_nc_key, nc_keys.
  rewrite !lookup_insert_ne by congruence. rewrite lookup_empty. reflexivity.
Qed.

(** A variable that is read has the dimensions [('y', 'x')] and the values
    and width stored in the file under its key, which is the name itself
    unless the name is a channel; a high resolution variable stored without
    a [y] coordinate gets the coordinates of the file, which then have the
    sizes of its axes; a variable that is absent raises [KeyError] with the
    key. *)
Theorem read_dataset_normalises :
  forall (A : Type) (h : FileHandler) (vars : gmap string (DataArray A))
         (name : string),
    (forall r,
        _read_dataset h vars name = Ok r ->
        exists v,
          vars !! _get_nc_key h name = Some v
          /\ dims r = dims_y_x
          /\ values r = values v /\ ncols r = ncols v /\ attrs r = attrs v
          /\ (dims v = dims_y_x -> coord_y v = None ->
              exists x y,
                nc_coords (nc h) !! "x" = Some x /\ nc_coords (nc h) !! "y" = Some y
                /\ coord_x r = Some x /\ coord_y r = Some y
                /\ length x = ncols v /\ length y = nrows v)
          /\ (dims v <> dims_y_x \/ coord_y v <> None ->
              coord_x r = coord_x v /\ coord_y r = coord_y v))
    /\ (vars !! _get_nc_key h name = None ->
        _read_dataset h vars name = Raise (KeyError (_get_nc_key h name)))
    /\ (name <> "VIS" -> name <> "WV" -> name <> "IR" -> _get_nc_key h name = name)
    /\ _get_nc_key h "VIS"
       = match variant h with
         | Easy => "toa_bidirectional_reflectance_vis"
         | Full => "count_vis"
         end
    /\ _get_nc_key h "WV" = "count_wv" /\ _get_nc_key h "IR" = "count_ir".
Proof.
  intros A h vars name. split; [|split; [|split; [|split; [|split]]]].
  - intros r. unfold _read_dataset, getitem.
    destruct (vars !! _get_nc_key h name) as [v|] eqn:Ev; [|discriminate].
    cbn [mbind result_bind]. intros H. exists v. split; [reflexivity|].
    destruct (dims v) eqn:Ed.
    + destruct (coord_y v) as [cy|] eqn:Ey.
      * injection H as <-.
        refine (conj Ed (conj eq_refl (conj eq_refl (conj eq_refl (conj _ _))))).
        -- intros _ Hc. congruence.
        -- intros _. split; congruence.
      * destruct (nc_coords (nc h) !! "y") as [y|] eqn:Hy; [|discriminate].
        cbn [mbind result_bind] in H.
        destruct (nc_coords (nc h) !! "x") as [x|] eqn:Hx; [|discriminate].
        cbn [mbind result_bind] in H. unfold assign_coords in H.
        destruct (Nat.eqb_spec (length x) (ncols v)) as [Lx|]; [|discriminate].
        destruct (Nat.eqb_spec (length y) (nrows v)) as [Ly|]; [|discriminate].
        cbn [negb] in H. injection H as <-. cbn [dims values ncols attrs coord_x coord_y].
        refine (conj Ed (conj eq_refl (conj eq_refl (conj eq_refl (conj _ _))))).
        -- intros _ _. exists x, y. repeat (split; [first [assumption|reflexivity]|]).
           assumption.
        -- intros [Hd|Hc]; congruence.
    + injection H as <-.
      refine (conj eq_refl (conj eq_refl (conj eq_refl (conj eq_refl (conj _ _))))).
      * intros Hd. discriminate Hd.
      * intros _. split; reflexivity.
    + injection H as <-.
      refine (conj eq_refl (conj eq_refl (conj eq_refl (conj eq_refl (conj _ _))))).
      * intros Hd. discriminate Hd.
      * intros _. split; reflexivity.
  - intros Hn. unfold _read_dataset, getitem. rewrite Hn. reflexivity.
  - apply get_nc_key_other.
  - unfold _get_nc_key, nc_keys. rewrite lookup_insert_eq.
    destruct (variant h); reflexivity.
  - reflexivity.
  - reflexivity.
Qed.

Lemma read_dataset_normalises_witness :
  exists r v,
    _read_dataset easy_file (nc_arrays (nc easy_file)) "IR" = Ok r
    /\ nc_arrays (nc easy_file) !! "count_ir" = Some v
    /\ dims v = dims_ir_wv /\ dims r = dims_y_x /\ values r = values v.
Proof.
  destruct (proj1 (read_dataset_normalises float easy_file
                     (nc_arrays (nc easy_file)) "IR")
              (rename_y_x (no_coords dims_ir_wv 2
                             [[f32 100; f32 200]; [f32 10; f32 20]]))
              eq_refl) as (v & Hv & Hd & Hval & _).
  exists (rename_y_x (no_coords dims_ir_wv 2 [[f32 100; f32 200]; [f32 10; f32 20]])), v.
  split; [reflexivity|]. split; [exact Hv|].
  split; [|split; assumption].
  vm_compute in Hv. injection Hv as <-. reflexivity.
Defined.

(** ** Masking of bad quality pixels *)

Lemma zip_with_idempotent {A B} (f : A -> B -> A) (a : list A) (m : list B) :
  (forall x y, f (f x y) y = f x y) ->
  zip_with f (zip_with f a m) m = zip_with f a m.
Proof.
  intros Hf. revert m. induction a as [|x a IH]; intros [|y m]; simpl;
    try reflexivity. rewrite Hf, IH. reflexivity.
Qed.

Lemma same_shape_length {A B} (a : list (list A)) (b : list (list B)) :
  same_shape a b = true -> length a = length b.
Proof.
  revert b. induction a as [|r a IH]; intros [|s b]; simpl; try discriminate;
    [reflexivity|].
  intros H. apply andb_true_iff in H as [_ H]. rewrite (IH b H). reflexivity.
Qed.

Lemma same_shape_sym {A B} (a : list (list A)) (b : list (list B)) :
  same_shape a b = true -> same_shape b a = true.
Proof.
  revert b. induction a as [|r a IH]; intros [|s b]; simpl; try discriminate;
    [reflexivity|].
  intros H. apply andb_true_iff in H as [Hl H]. apply Nat.eqb_eq in Hl.
  rewrite (IH b H), Hl, Nat.eqb_refl. reflexivity.
Qed.

Lemma same_shape_pixel {A B} (a : list (list A)) (b : list (list B))
    (i j : nat) (x : A) :
  same_shape a b = true -> pixel a i j = Some x -> exists y, pixel b i j = Some y.
Proof.
  revert b i. induction a as [|r a IH]; intros [|s b] i; simpl; try discriminate.
  intros H. apply andb_true_iff in H as [Hl H]. apply Nat.eqb_eq in Hl.
  destruct i as [|i].
  - unfold pixel. simpl. intros Hx.
    apply lookup_lt_is_Some_2. rewrite <- Hl. apply (lookup_lt_Some _ _ _ Hx).
  - intros Hx. exact (IH b i H Hx).
Qed.

Lemma same_grid_shape {A B} (a : DataArray A) (b : DataArray B) :
  same_grid a b = true -> same_shape (values a) (values b) = true.
Proof.
  unfold same_grid. intros H.
  apply andb_true_iff in H as [H _]. apply andb_true_iff in H as [H _]. exact H.
Qed.

Lemma aligned_exact_true {A B} (a : DataArray A) (b : DataArray B) :
  aligned_exact a b = true
  <-> same_shape (values a) (values b) = true
      /\ coord_x a = coord_x b /\ coord_y a = coord_y b.
Proof.
  unfold aligned_exact. rewrite !andb_true_iff, !bool_decide_eq_true. tauto.
Qed.

Lemma aligned_exact_same_grid {A B} (a : DataArray A) (b : DataArray B) :
  aligned_exact a b = true -> same_grid a b = true.
Proof.
  intros H. apply aligned_exact_true in H as (Hs & Hx & Hy).
  unfold same_grid, coords_agree. rewrite Hs, Hx, Hy.
  destruct (coord_x b), (coord_y b); cbn [andb];
    rewrite ?bool_decide_eq_true_2 by reflexivity; reflexivity.
Qed.

Lemma mask_vis_aligned (h : FileHandler) (ds : DataArray float) (mask : DataArray Z) :
  _read_dataset h (nc_masks (nc h)) "quality_pixel_bitmask" = Ok mask ->
  aligned_exact ds mask = true ->
  _mask_vis h ds
  = Ok (with_values ds
          (zip_with (zip_with (fun d m => if (m =? 0)%Z then d else nan))
                    (values ds) (values mask))).
Proof. intros Hm Ha. unfold _mask_vis. rewrite Hm. cbn [mbind result_bind]. rewrite Ha. reflexivity. Qed.

Lemma mask_vis_ok (h : FileHandler) (ds r : DataArray float) (mask : DataArray Z) :
  _read_dataset h (nc_masks (nc h)) "quality_pixel_bitmask" = Ok mask ->
  _mask_vis h ds = Ok r ->
  aligned_exact ds mask = true
  /\ r = with_values ds
           (zip_with (zip_with (fun d m => if (m =? 0)%Z then d else nan))
                     (values ds) (values mask)).
Proof.
  intros Hm. unfold _mask_vis. rewrite Hm. cbn [mbind result_bind].
  destruct (aligned_exact ds mask); cbn [negb]; [|discriminate].
  intros [= <-]. split; reflexivity.
Qed.

Lemma same_shape_zip_with {A B} (f : A -> B -> A) (a : list (list A))
    (b : list (list B)) :
  same_shape a b = true -> same_shape (zip_with (zip_with f) a b) b = true.
Proof.
  revert b. induction a as [|r a IH]; intros [|s b]; simpl; try discriminate;
    [reflexivity|].
  intros H. apply andb_true_iff in H as [Hl H]. apply Nat.eqb_eq in Hl.
  rewrite (IH b H), length_zip_with_r_eq by (symmetry; exact Hl).
  rewrite Nat.eqb_refl. reflexivity.
Qed.

(** For an array on the dimensions [('y', 'x')]: when it has the shape of
    the quality bitmask and the same coordinates (or, like it, none), masking
    keeps each pixel whose bitmask is zero and replaces every other pixel by
    NaN, keeps the shape, the coordinates and the attributes, and masking
    the masked array again changes nothing; otherwise the exact alignment
    fails and masking raises [ValueError]. *)
Theorem mask_vis_pixels :
  forall (h : FileHandler) (ds : DataArray float) (mask : DataArray Z),
    dims ds = dims_y_x ->
    _read_dataset h (nc_masks (nc h)) "quality_pixel_bitmask" = Ok mask ->
    (same_shape (values ds) (values mask) = true ->
     coord_x ds = coord_x mask -> coord_y ds = coord_y mask ->
     exists r,
       _mask_vis h ds = Ok r
       /\ nrows r = nrows ds
       /\ (forall i j d,
             pixel (values ds) i j = Some d ->
             exists m,
               pixel (values mask) i j = Some m
               /\ pixel (values r) i j = Some (if (m =? 0)%Z then d else nan))
       /\ dims r = dims_y_x
       /\ coord_x r = coord_x ds /\ coord_y r = coord_y ds /\ attrs r = attrs ds
       /\ _mask_vis h r = Ok r)
    /\ (same_shape (values ds) (values mask) = false
        \/ coord_x ds <> coord_x mask \/ coord_y ds <> coord_y mask ->
        exists msg, _mask_vis h ds = Raise (ValueError msg)).
Proof.
  intros h ds mask Hdims Hm. split.
  - intros Hg Hx Hy.
    assert (Ha : aligned_exact ds mask = true).
    { apply aligned_exact_true. auto. }
    rewrite (mask_vis_aligned h ds mask Hm Ha).
    eexists. split; [reflexivity|].
    split; [|split; [|split; [exact Hdims
                      |split; [reflexivity|split; [reflexivity|split; [reflexivity|]]]]]].
    + unfold nrows. cbn [values with_values].
      apply length_zip_with_l_eq, same_shape_length, Hg.
    + intros i j d Hd. destruct (same_shape_pixel _ _ i j d Hg Hd) as [m Hk].
      exists m. split; [exact Hk|]. cbn [values with_values].
      exact (pixel_zip_with (fun (d : float) (m : Z) => if (m =? 0)%Z then d else nan)
               (values ds) (values mask) i j d m Hd Hk).
    + rewrite mask_vis_aligned with (mask := mask); [|exact Hm|].
      * unfold with_values. cbn [values dims ncols coord_x coord_y acq_time attrs].
        do 2 f_equal. apply zip_with_idempotent. intros row mrow.
        apply zip_with_idempotent. intros d m. destruct (m =? 0)%Z; reflexivity.
      * apply aligned_exact_true. cbn [values with_values coord_x coord_y].
        split; [apply same_shape_zip_with; exact Hg | auto].
  - intros H. unfold _mask_vis. rewrite Hm. cbn [mbind result_bind].
    destruct (aligned_exact ds mask) eqn:Ha; cbn [negb]; [|eauto].
    apply aligned_exact_true in Ha as (Hs & Hx & Hy).
    destruct H as [H|[H|H]]; congruence.
Qed.

Lemma mask_vis_pixels_witness :
  exists r,
    _mask_vis (full_file true)
      (mkDataArray dims_y_x 4 vis_4x4
         (Some [0; 1; 2; 3]%Z) (Some [0; 1; 2; 3]%Z) None ∅) = Ok r
    /\ pixel (values r) 1 1 = Some (f32 6)
    /\ pixel (values r) 0 0 = Some nan.
Proof.
  destruct (proj1 (mask_vis_pixels (full_file true)
              (mkDataArray dims_y_x 4 vis_4x4
                 (Some [0; 1; 2; 3]%Z) (Some [0; 1; 2; 3]%Z) None ∅)
              (mkDataArray dims_y_x 4 some_ok
                 (Some [0; 1; 2; 3]%Z) (Some [0; 1; 2; 3]%Z) None ∅) eq_refl eq_refl)
              eq_refl eq_refl eq_refl)
    as (r & Hr & _ & Hp & _).
  exists r. split; [exact Hr|]. split.
  - destruct (Hp 1 1 (f32 6) eq_refl) as (m & Hm & Hv).
    injection Hm as <-. exact Hv.
  - destruct (Hp 0 0 (f32 1) eq_refl) as (m & Hm & Hv).
    injection Hm as <-. exact Hv.
Defined.

(** ** Radiance and brightness temperature are positive or NaN *)

Lemma where_gt_zero_range (x : float) :
  isnan (where_ gt_zero nan x) = true
  \/ SFltb (S754_zero false) (where_ gt_zero nan x) = true.
Proof.
  unfold where_. destruct (gt_zero x) eqn:E; [right; exact E | left; reflexivity].
Qed.

Lemma pixel_where_range (v : list (list float)) (i j : nat) (x : float) :
  pixel (map (map (where_ gt_zero nan)) v) i j = Some x ->
  isnan x = true \/ SFltb (S754_zero false) x = true.
Proof.
  rewrite pixel_map. destruct (pixel v i j) as [y|]; [|discriminate].
  intros [= <-]. apply where_gt_zero_range.
Qed.

(** Whatever the counts and the coefficients, a pixel of an infrared or
    water vapour radiance or brightness temperature is either NaN or strictly
    positive, never zero or negative; the image keeps its number of
    lines. *)
Theorem ir_wv_positive_or_nan :
  forall prec emax (np_log : float -> float) (h : FileHandler)
         (cnts r : DataArray float) (channel : string) (level : Calibration),
    level = radiance \/ level = brightness_temperature ->
    _calibrate_ir_wv prec emax np_log h cnts channel level = Ok r ->
    nrows r = nrows cnts
    /\ forall i j x,
        pixel (values r) i j = Some x ->
        isnan x = true \/ SFltb (S754_zero false) x = true.
Proof.
  intros prec emax np_log h cnts r channel level Hl.
  unfold _calibrate_ir_wv, _ir_wv_counts_to_radiance,
    _ir_wv_radiance_to_brightness_temperature.
  destruct (_get_coefs_ir_wv h channel "radiance") as [ab|e];
    [|destruct Hl as [-> | ->]; discriminate].
  cbn [mbind result_bind].
  destruct Hl as [-> | ->].
  - intros [= <-]. split.
    + unfold nrows, da_where, elementwise, ufunc, with_values, with_attrs.
      cbn [values].
      rewrite !length_map. reflexivity.
    + intros i j x. apply pixel_where_range.
  - destruct (_get_coefs_ir_wv h channel "brightness_temperature") as [ab'|e];
      [|discriminate].
    cbn [mbind result_bind]. intros [= <-]. split.
    + unfold nrows, da_where, elementwise, ufunc, with_values, with_attrs.
      cbn [values].
      rewrite !length_map. reflexivity.
    + intros i j x. apply pixel_where_range.
Qed.

Lemma ir_wv_positive_or_nan_witness :
  nrows (no_coords dims_y_x 2 [[S754_finite false 15587434 (-16);
                                 S754_finite false 13833158 (-16)];
                                [nan; nan]]) = 2
  /\ forall i j x,
      pixel [[S754_finite false 15587434 (-16); S754_finite false 13833158 (-16)];
             [nan; nan]] i j = Some x ->
      isnan x = true \/ SFltb (S754_zero false) x = true.
Proof.
  exact (ir_wv_positive_or_nan 24 128 log_of_exponent easy_file
           (no_coords dims_y_x 2 [[f32 100; f32 200]; [f32 10; f32 20]])
           (no_coords dims_y_x 2 [[S754_finite false 15587434 (-16);
                                    S754_finite false 13833158 (-16)];
                                   [nan; nan]])
           "IR" brightness_temperature (or_intror eq_refl) eq_refl).
Defined.

(** ** Radiance of the visible channel *)

(** When the five variables of the gain and space count are in the file,
    the radiance of the visible channel is computed for every counts array:
    each pixel is [(counts - mean_count_space_vis) * a_cf], with the gain
    [a_cf = a0 + a1 * t + a2 * t^2] rounded to binary32, replaced by NaN
    unless strictly positive; coordinates are kept. *)
Theorem vis_counts_to_radiance_pixels :
  forall prec emax (h : FileHandler) (cnts : DataArray float)
         (t a0 a1 a2 m : float),
    nc_scalars (nc h) !! "years_since_launch" = Some t ->
    nc_scalars (nc h) !! "a0_vis" = Some a0 ->
    nc_scalars (nc h) !! "a1_vis" = Some a1 ->
    nc_scalars (nc h) !! "a2_vis" = Some a2 ->
    nc_scalars (nc h) !! "mean_count_space_vis" = Some m ->
    exists rad,
      _vis_counts_to_radiance prec emax h cnts = Ok rad
      /\ (forall i j,
            pixel (values rad) i j
            = (fun c => where_ gt_zero nan
                          (SFmul prec emax
                             (SFsub prec emax c (cast prec emax (np_float32 m)))
                             (cast prec emax (vis_gain t a0 a1 a2))))
                <$> pixel (values cnts) i j)
      /\ (forall i j x,
            pixel (values rad) i j = Some x ->
            isnan x = true \/ SFltb (S754_zero false) x = true)
      /\ coord_x rad = coord_x cnts /\ coord_y rad = coord_y cnts
      /\ ncols rad = ncols cnts /\ nrows rad = nrows cnts.
Proof.
  intros prec emax h cnts t a0 a1 a2 m Ht H0 H1 H2 Hm.
  unfold _vis_counts_to_radiance, getitem.
  rewrite Ht, H0, H1, H2, Hm. cbn [mbind result_bind].
  eexists. split; [reflexivity|].
  unfold da_where, elementwise, with_values, with_attrs, nrows.
  cbn [values coord_x coord_y ncols].
  split; [|split; [|repeat split; rewrite ?length_map; reflexivity]].
  - intros i j.
    exact (pixel_map_map
             (fun c => SFmul prec emax
                         (SFsub prec emax c (cast prec emax (np_float32 m)))
                         (cast prec emax (vis_gain t a0 a1 a2)))
             (where_ gt_zero nan) (values cnts) i j).
  - intros i j x. apply pixel_where_range.
Qed.

Lemma vis_counts_to_radiance_pixels_witness :
  exists rad,
    _vis_counts_to_radiance 24 128 (full_file false) (no_coords dims_y_x 4 vis_4x4)
    = Ok rad
    /\ pixel (values rad) 0 0 = Some nan
    /\ pixel (values rad) 1 1 = Some (of_dyadic 24 128 7 (-2)).
Proof.
  destruct (vis_counts_to_radiance_pixels 24 128 (full_file false)
              (no_coords dims_y_x 4 vis_4x4)
              (F64.of_Z 2) (F64.of_Z 1) (F64.of_dyadic 1 (-2)) (F64.of_dyadic 1 (-4))
              (F64.of_Z 5) eq_refl eq_refl eq_refl eq_refl eq_refl)
    as (rad & Hr & Hp & _).
  exists rad. split; [exact Hr|]. split.
  - rewrite (Hp 0 0). vm_compute. reflexivity.
  - rewrite (Hp 1 1). vm_compute. reflexivity.
Defined.

(** [_vis_counts_to_radiance] raises [KeyError] with the first variable, in
    its reading order, that the file lacks, and returns a radiance when none
    is lacking. *)
Theorem vis_counts_to_radiance_first_missing :
  forall prec emax (h : FileHandler) (cnts : DataArray float),
    match find (fun key => bool_decide (nc_scalars (nc h) !! key = None))
               vis_radiance_variables with
    | Some key => _vis_counts_to_radiance prec emax h cnts = Raise (KeyError key)
    | None => exists rad, _vis_counts_to_radiance prec emax h cnts = Ok rad
    end.
Proof.
  intros prec emax h cnts.
  unfold _vis_counts_to_radiance, getitem, vis_radiance_variables. cbn [find].
  destruct (nc_scalars (nc h) !! "years_since_launch") as [t|];
    [rewrite bool_decide_eq_false_2 by discriminate
    |rewrite bool_decide_eq_true_2 by reflexivity; reflexivity].
  destruct (nc_scalars (nc h) !! "a0_vis") as [a0|];
    [rewrite bool_decide_eq_false_2 by discriminate
    |rewrite bool_decide_eq_true_2 by reflexivity; reflexivity].
  destruct (nc_scalars (nc h) !! "a1_vis") as [a1|];
    [rewrite bool_decide_eq_false_2 by discriminate
    |rewrite bool_decide_eq_true_2 by reflexivity; reflexivity].
  destruct (nc_scalars (nc h) !! "a2_vis") as [a2|];
    [rewrite bool_decide_eq_false_2 by discriminate
    |rewrite bool_decide_eq_true_2 by reflexivity; reflexivity].
  destruct (nc_scalars (nc h) !! "mean_count_space_vis") as [m|];
    [rewrite bool_decide_eq_false_2 by discriminate
    |rewrite bool_decide_eq_true_2 by reflexivity; reflexivity].
  cbn [mbind result_bind]. eexists. reflexivity.
Qed.

(** ** Dispatch of [_calibrate] *)

(** Counts are handed back as they are for WV and IR and, in a Full file,
    for VIS: values, coordinates and attributes are untouched but for the
    attribute ancillary_variables, which is removed. *)
Theorem calibrate_counts_passthrough :
  forall prec emax (np_log np_cos np_deg2rad : float -> float) (np_pi : float)
         (interp : Interp) (h : FileHandler) (ds : DataArray float)
         (channel : string),
    channel = "WV" \/ channel = "IR" \/ (channel = "VIS" /\ variant h = Full) ->
    _calibrate prec emax np_log np_cos np_deg2rad np_pi interp h ds channel counts
    = Ok (with_attrs ds (delete "ancillary_variables" (attrs ds))).
Proof.
  intros prec emax np_log np_cos np_deg2rad np_pi interp h ds channel H.
  unfold _calibrate, _calibrate_vis, _calibrate_ir_wv.
  destruct H as [-> | [-> | [-> Hv]]]; cbn [String.eqb Ascii.eqb Bool.eqb orb];
    try reflexivity.
  rewrite Hv. reflexivity.
Qed.

Lemma calibrate_counts_passthrough_witness :
  _calibrate 24 128 log_of_exponent cos_order2 deg2rad64 pi64 xr_interp
             (full_file false) (no_coords dims_y_x 4 vis_4x4) "VIS" counts
  = Ok (with_attrs (no_coords dims_y_x 4 vis_4x4)
          (delete "ancillary_variables" (attrs (no_coords dims_y_x 4 vis_4x4)))).
Proof.
  apply (calibrate_counts_passthrough 24 128 log_of_exponent cos_order2 deg2rad64
           pi64 xr_interp (full_file false) (no_coords dims_y_x 4 vis_4x4) "VIS").
  right. right. split; reflexivity.
Defined.

(** A channel name other than VIS, WV and IR is refused with a [KeyError]
    that names it, whatever the calibration level. *)
Theorem calibrate_unknown_channel :
  forall prec emax (np_log np_cos np_deg2rad : float -> float) (np_pi : float)
         (interp : Interp) (h : FileHandler) (ds : DataArray float)
         (channel : string) (level : Calibration),
    channel <> "VIS" -> channel <> "WV" -> channel <> "IR" ->
    _calibrate prec emax np_log np_cos np_deg2rad np_pi interp h ds channel level
    = Raise (KeyError ("Don't know how to calibrate channel " ++ channel)).
Proof.
  intros prec emax np_log np_cos np_deg2rad np_pi interp h ds channel level H1 H2 H3.
  unfold _calibrate.
  rewrite (proj2 (String.eqb_neq channel "VIS") H1).
  rewrite (proj2 (String.eqb_neq channel "WV") H2).
  rewrite (proj2 (String.eqb_neq channel "IR") H3).
  reflexivity.
Qed.

Lemma calibrate_unknown_channel_witness :
  _calibrate 24 128 log_of_exponent cos_order2 deg2rad64 pi64 xr_interp
             easy_file (no_coords dims_y_x 4 vis_4x4) "HRV" radiance
  = Raise (KeyError "Don't know how to calibrate channel HRV").
Proof.
  apply (calibrate_unknown_channel 24 128 log_of_exponent cos_order2 deg2rad64
           pi64 xr_interp easy_file (no_coords dims_y_x 4 vis_4x4) "HRV" radiance);
    discriminate.
Defined.

Section AttributeFacts.
Variables prec emax : Z.
Variables np_log np_cos np_deg2rad : float -> float.
Variable np_pi : float.
Variable interp : Interp.

Lemma update_refl_attrs_lookup (h : FileHandler) (refl r : DataArray float) :
  _update_refl_attrs h refl = Ok r ->
  attrs refl !! "ancillary_variables" = None ->
  attrs r !! "ancillary_variables" = None.
Proof.
  unfold _update_refl_attrs.
  destruct (getitem _ _) as [d|e]; cbn [mbind result_bind]; [|discriminate].
  intros [= <-] H. cbn [attrs with_attrs].
  rewrite !lookup_insert_ne by discriminate. exact H.
Qed.

Lemma ir_wv_radiance_attrs (h : FileHandler) (ds r : DataArray float) (ch : string) :
  _ir_wv_counts_to_radiance prec emax h ds ch = Ok r -> attrs r = attrs ds.
Proof.
  unfold _ir_wv_counts_to_radiance.
  destruct (_get_coefs_ir_wv _ _ _); cbn [mbind result_bind]; [|discriminate].
  intros [= <-]. reflexivity.
Qed.

Lemma ir_wv_bt_attrs (h : FileHandler) (ds r : DataArray float) (ch : string) :
  _ir_wv_radiance_to_brightness_temperature prec emax np_log h ds ch = Ok r ->
  attrs r = ∅.
Proof.
  unfold _ir_wv_radiance_to_brightness_temperature.
  destruct (_get_coefs_ir_wv _ _ _); cbn [mbind result_bind]; [|discriminate].
  intros [= <-]. reflexivity.
Qed.

Lemma vis_radiance_attrs (h : FileHandler) (ds r : DataArray float) :
  _vis_counts_to_radiance prec emax h ds = Ok r -> attrs r = ∅.
Proof.
  unfold _vis_counts_to_radiance, getitem.
  destruct (nc_scalars (nc h) !! "years_since_launch"); [|discriminate].
  destruct (nc_scalars (nc h) !! "a0_vis"); [|discriminate].
  destruct (nc_scalars (nc h) !! "a1_vis"); [|discriminate].
  destruct (nc_scalars (nc h) !! "a2_vis"); [|discriminate].
  destruct (nc_scalars (nc h) !! "mean_count_space_vis"); [|discriminate].
  intros [= <-]. reflexivity.
Qed.

Lemma vis_reflectance_attrs (h : FileHandler) (ds r : DataArray float) :
  _vis_radiance_to_reflectance prec emax np_cos np_deg2rad np_pi interp h ds = Ok r ->
  attrs r = ∅.
Proof.
  unfold _vis_radiance_to_reflectance.
  destruct (_get_angles _ _ _ _); cbn [mbind result_bind]; [|discriminate].
  unfold getitem.
  destruct (nc_scalars (nc h) !! "distance_sun_earth"); [|discriminate].
  destruct (nc_scalars (nc h) !! "solar_irradiance_vis"); [|discriminate].
  intros [= <-]. reflexivity.
Qed.

Lemma calibrate_drops_ancillary (h : FileHandler) (ds r : DataArray float)
    (channel : string) (level : Calibration) :
  _calibrate prec emax np_log np_cos np_deg2rad np_pi interp h ds channel level = Ok r ->
  attrs r !! "ancillary_variables" = None.
Proof.
  unfold _calibrate.
  destruct (String.eqb channel "VIS").
  - unfold _calibrate_vis. destruct (variant h), level; try discriminate.
    + intros H. apply (update_refl_attrs_lookup _ _ _ H). reflexivity.
    + intros [= <-]. apply lookup_delete_eq.
    + intros H. rewrite (vis_radiance_attrs _ _ _ H). reflexivity.
    + destruct (_vis_counts_to_radiance _ _ _ _) as [rad|]; cbn [mbind result_bind];
        [|discriminate].
      destruct (_vis_radiance_to_reflectance _ _ _ _ _ _ _ _) as [refl|] eqn:E;
        cbn [mbind result_bind]; [|discriminate].
      intros H. apply (update_refl_attrs_lookup _ _ _ H).
      rewrite (vis_reflectance_attrs _ _ _ E). reflexivity.
  - destruct (String.eqb channel "WV" || String.eqb channel "IR"); [|discriminate].
    unfold _calibrate_ir_wv. destruct level; try discriminate.
    + intros [= <-]. apply lookup_delete_eq.
    + intros H. rewrite (ir_wv_radiance_attrs _ _ _ _ H). apply lookup_delete_eq.
    + destruct (_ir_wv_counts_to_radiance _ _ _ _ _) as [rad|];
        cbn [mbind result_bind]; [|discriminate].
      intros H. rewrite (ir_wv_bt_attrs _ _ _ _ H). reflexivity.
Qed.

End AttributeFacts.

(** Whatever the channel and the level, a calibrated dataset carries no
    attribute ancillary_variables. *)
Theorem calibrated_has_no_ancillary_variables :
  forall prec emax (np_log np_cos np_deg2rad : float -> float) (np_pi : float)
         (interp : Interp) (h : FileHandler) (ds r : DataArray float)
         (channel : string) (level : Calibration),
    _calibrate prec emax np_log np_cos np_deg2rad np_pi interp h ds channel level
    = Ok r ->
    attrs r !! "ancillary_variables" = None.
Proof. exact calibrate_drops_ancillary. Qed.

Lemma calibrated_has_no_ancillary_variables_witness :
  attrs (with_attrs
           (with_attrs (no_coords dims_y_x 2 [[f32 100; f32 200]])
              (<["ancillary_variables" := AttrStr "u_ir"]> ∅))
           (delete "ancillary_variables"
              (attrs (with_attrs (no_coords dims_y_x 2 [[f32 100; f32 200]])
                        (<["ancillary_variables" := AttrStr "u_ir"]> ∅)))))
    !! "ancillary_variables" = None.
Proof.
  exact (calibrated_has_no_ancillary_variables 24 128 log_of_exponent cos_order2
           deg2rad64 pi64 xr_interp easy_file
           (with_attrs (no_coords dims_y_x 2 [[f32 100; f32 200]])
              (<["ancillary_variables" := AttrStr "u_ir"]> ∅))
           (with_attrs
              (with_attrs (no_coords dims_y_x 2 [[f32 100; f32 200]])
                 (<["ancillary_variables" := AttrStr "u_ir"]> ∅))
              (delete "ancillary_variables"
                 (attrs (with_attrs (no_coords dims_y_x 2 [[f32 100; f32 200]])
                           (<["ancillary_variables" := AttrStr "u_ir"]> ∅)))))
           "IR" counts eq_refl).
Defined.

(** ** Reflectance of an Easy file *)

(** In an Easy file the reflectance of VIS is the stored reflectance times
    100, pixel by pixel, with the coordinates kept and the two attributes of
    the sun-earth distance correction set; without the variable
    distance_sun_earth it raises [KeyError]. *)
Theorem easy_reflectance_is_percent :
  forall prec emax (np_log np_cos np_deg2rad : float -> float) (np_pi : float)
         (interp : Interp) (h : FileHandler) (ds : DataArray float),
    variant h = Easy ->
    (forall d,
        nc_scalars (nc h) !! "distance_sun_earth" = Some d ->
        exists r,
          _calibrate prec emax np_log np_cos np_deg2rad np_pi interp
                     h ds "VIS" reflectance = Ok r
          /\ (forall i j,
                pixel (values r) i j
                = SFmul prec emax (of_Z prec emax 100) <$> pixel (values ds) i j)
          /\ coord_x r = coord_x ds /\ coord_y r = coord_y ds
          /\ attrs r !! "sun_earth_distance_correction_applied" = Some (AttrBool true)
          /\ attrs r !! "sun_earth_distance_correction_factor" = Some (AttrFloat d))
    /\ (nc_scalars (nc h) !! "distance_sun_earth" = None ->
        _calibrate prec emax np_log np_cos np_deg2rad np_pi interp
                   h ds "VIS" reflectance
        = Raise (KeyError "distance_sun_earth")).
Proof.
  intros prec emax np_log np_cos np_deg2rad np_pi interp h ds Hv.
  unfold _calibrate, _calibrate_vis, _update_refl_attrs, getitem.
  cbn [String.eqb Ascii.eqb Bool.eqb]. rewrite Hv. split.
  - intros d Hd. rewrite Hd. cbn [mbind result_bind].
    eexists. split; [reflexivity|].
    unfold elementwise, with_attrs, with_values.
    cbn [values coord_x coord_y attrs].
    split; [intros i j; apply pixel_map|].
    split; [reflexivity|]. split; [reflexivity|].
    split; simplify_map_eq; reflexivity.
  - intros Hd. rewrite Hd. reflexivity.
Qed.

Lemma easy_reflectance_is_percent_witness :
  exists r,
    _calibrate 24 128 log_of_exponent cos_order2 deg2rad64 pi64 xr_interp
               easy_file (no_coords dims_y_x 4 vis_4x4) "VIS" reflectance = Ok r
    /\ pixel (values r) 1 2 = Some (f32 700).
Proof.
  destruct (proj1 (easy_reflectance_is_percent 24 128 log_of_exponent cos_order2
                     deg2rad64 pi64 xr_interp easy_file
                     (no_coords dims_y_x 4 vis_4x4) eq_refl)
              (F64.of_Z 1) eq_refl) as (r & Hr & Hp & _).
  exists r. split; [exact Hr|]. rewrite (Hp 1 2). vm_compute. reflexivity.
Defined.

(** ** Invalid pixels stay invalid *)

Lemma SFmul_nan_r (prec emax : Z) (x : float) : SFmul prec emax x S754_nan = S754_nan.
Proof. destruct x; reflexivity. Qed.

Lemma SFdiv_nan_r (prec emax : Z) (x : float) : SFdiv prec emax x S754_nan = S754_nan.
Proof. destruct x; reflexivity. Qed.

Lemma isnan_true (x : float) : isnan x = true -> x = nan.
Proof. destruct x; simpl; intros H; try discriminate H; reflexivity. Qed.

(** With a logarithm that maps NaN to NaN, as [np.log] does, a pixel whose
    radiance [a + b * counts] is not strictly positive has the brightness
    temperature NaN. *)
Theorem brightness_temperature_of_invalid_radiance :
  forall prec emax (np_log : float -> float) (h : FileHandler)
         (cnts : DataArray float) (channel : string) (a b bt_a bt_b : float),
    np_log nan = nan ->
    _get_coefs_ir_wv h channel "radiance" = Ok (a, b) ->
    _get_coefs_ir_wv h channel "brightness_temperature" = Ok (bt_a, bt_b) ->
    exists bt,
      _calibrate_ir_wv prec emax np_log h cnts channel brightness_temperature = Ok bt
      /\ forall i j c,
          pixel (values cnts) i j = Some c ->
          gt_zero (SFadd prec emax (cast prec emax a)
                         (SFmul prec emax (cast prec emax b) c)) = false ->
          pixel (values bt) i j = Some nan.
Proof.
  intros prec emax np_log h cnts channel a b bt_a bt_b Hlog Ha Hb.
  destruct (calibrate_ir_wv_pixels prec emax np_log h cnts channel a b bt_a bt_b Ha Hb)
    as (rad & bt & _ & Hbt & Hp).
  exists bt. split; [exact Hbt|]. intros i j c Hc Hneg.
  destruct (Hp i j) as [Hr Ht]. rewrite Ht, Hr, Hc. cbn [fmap option_fmap option_map].
  unfold radiance_of, brightness_temperature_of.
  replace (where_ gt_zero nan
             (SFadd prec emax (cast prec emax a) (SFmul prec emax (cast prec emax b) c)))
    with nan by (unfold where_; rewrite Hneg; reflexivity).
  rewrite Hlog. unfold nan. cbn [SFsub].
  rewrite SFdiv_nan_r. reflexivity.
Qed.

Lemma brightness_temperature_of_invalid_radiance_witness :
  exists bt,
    _calibrate_ir_wv 24 128 log_of_exponent easy_file
      (no_coords dims_y_x 2 [[f32 100; f32 200]; [f32 10; f32 20]]) "IR"
      brightness_temperature = Ok bt
    /\ pixel (values bt) 1 0 = Some nan.
Proof.
  destruct (brightness_temperature_of_invalid_radiance 24 128 log_of_exponent
              easy_file (no_coords dims_y_x 2 [[f32 100; f32 200]; [f32 10; f32 20]])
              "IR" (np_float32 (f32 (-10))) (np_float32 (of_dyadic 24 128 1 (-1)))
              (np_float32 (f32 (-2))) (np_float32 (f32 1300))
              eq_refl eq_refl eq_refl) as (bt & Hbt & Hp).
  exists bt. split; [exact Hbt|].
  apply (Hp 1 0 (f32 10)); reflexivity.
Defined.

(** With a cosine and a degree conversion that map NaN to NaN, as NumPy's
    do, and a radiance on the grid of the interpolated solar zenith angle,
    the reflectance is NaN at every pixel whose solar zenith angle is NaN or
    at least 90 degrees in absolute value, and at every pixel whose radiance
    is NaN. *)
Theorem reflectance_of_invalid_pixel :
  forall prec emax (np_cos np_deg2rad : float -> float) (np_pi : float)
         (interp : Interp) (h : FileHandler) (rad sza : DataArray float)
         (d e0 : float),
    np_cos (np_deg2rad nan) = nan ->
    _get_angles interp h "solar_zenith_angle" HIGH_RESOL = Ok sza ->
    same_grid sza rad = true ->
    nc_scalars (nc h) !! "distance_sun_earth" = Some d ->
    nc_scalars (nc h) !! "solar_irradiance_vis" = Some e0 ->
    exists refl,
      _vis_radiance_to_reflectance prec emax np_cos np_deg2rad np_pi interp h rad
      = Ok refl
      /\ (forall i j z,
            pixel (values sza) i j = Some z ->
            SFleb (of_Z prec emax 90) (SFabs z) = true \/ isnan z = true ->
            pixel (values refl) i j = Some nan)
      /\ (forall i j r,
            pixel (values rad) i j = Some r ->
            isnan r = true ->
            pixel (values refl) i j = Some nan).
Proof.
  intros prec emax np_cos np_deg2rad np_pi interp h rad sza d e0 Hcos Hs Hg Hd He.
  apply same_grid_shape in Hg.
  destruct (vis_radiance_to_reflectance_pixels prec emax np_cos np_deg2rad np_pi
              interp h rad sza d e0 Hs Hd He) as (refl & Hr & Hp).
  exists refl. split; [exact Hr|]. split.
  - intros i j z Hz H.
    destruct (same_shape_pixel _ _ i j z Hg Hz) as [r Hrad].
    rewrite (Hp i j z r Hz Hrad). f_equal. unfold reflectance_of.
    destruct H as [H|H].
    + rewrite (zenith_masked prec emax z H), Hcos. unfold nan.
      rewrite SFmul_nan_r, SFdiv_nan_r. reflexivity.
    + apply isnan_true in H. subst z.
      replace (where_ (direct_illumination prec emax) nan nan) with nan by reflexivity.
      rewrite Hcos. unfold nan. rewrite SFmul_nan_r, SFdiv_nan_r. reflexivity.
  - intros i j r Hrad H.
    destruct (same_shape_pixel _ _ i j r (same_shape_sym _ _ Hg) Hrad) as [z Hz].
    rewrite (Hp i j z r Hz Hrad). f_equal. unfold reflectance_of.
    apply isnan_true in H. subst r. unfold nan. rewrite SFmul_nan_r. reflexivity.
Qed.

Lemma reflectance_of_invalid_pixel_witness :
  exists refl,
    _vis_radiance_to_reflectance 53 1024 cos_order2 deg2rad64 pi64 xr_interp
      (full_file false) (no_coords dims_y_x 4 vis_4x4) = Ok refl
    /\ pixel (values refl) 0 0 = Some nan
    /\ pixel (values refl) 0 3 = Some nan.
Proof.
  destruct (reflectance_of_invalid_pixel 53 1024 cos_order2 deg2rad64 pi64
              xr_interp (full_file false) (no_coords dims_y_x 4 vis_4x4)
              (mkDataArray dims_y_x 4
                 (linear_interp [0; 2]%Z [0; 2]%Z sza_tie [0; 1; 2; 3]%Z [0; 1; 2; 3]%Z)
                 (Some [0; 1; 2; 3]%Z) (Some [0; 1; 2; 3]%Z) None ∅)
              (F64.of_Z 1) (F64.of_Z 690)
              eq_refl eq_refl eq_refl eq_refl eq_refl) as (refl & Hr & Hp & _).
  exists refl. split; [exact Hr|]. split.
  - apply (Hp 0 0 (F64.of_Z 90)); [reflexivity|]. left. reflexivity.
  - apply (Hp 0 3 nan); [reflexivity|]. right. reflexivity.
Defined.

(** ** What [_get_channel] returns *)

Section GetChannelFacts.
Variables prec emax : Z.
Variables np_log np_cos np_deg2rad : float -> float.
Variable np_pi : float.
Variable interp : Interp.
Variable mean : list Z -> Z.

Abbreviation get_channel :=
  (_get_channel prec emax np_log np_cos np_deg2rad np_pi interp mean).
Abbreviation calibrated h name calibration :=
  (raw ← _read_dataset h (nc_arrays (nc h)) name;
   _calibrate prec emax np_log np_cos np_deg2rad np_pi interp h raw name calibration).

Lemma set_acq_time_ok {A} (ds r : DataArray A) (acq : TimeSeries) :
  set_acq_time ds acq = Ok r ->
  acq_time r = Some (map snd acq) /\ length acq = nrows ds
  /\ values r = values ds /\ coord_x r = coord_x ds /\ coord_y r = coord_y ds
  /\ attrs r = attrs ds.
Proof.
  unfold set_acq_time.
  destruct (Nat.eqb_spec (length acq) (nrows ds)) as [E|]; [|discriminate].
  intros [= <-]. repeat split. exact E.
Qed.

Lemma get_channel_acq_time (h : FileHandler) (name : string) (resolution : Z)
    (calibration : Calibration) (r : DataArray float) :
  snd (get_channel h name resolution calibration) = Ok r ->
  exists acq,
    _get_acq_time mean h resolution = Ok acq
    /\ acq_time r = Some (map snd acq)
    /\ length acq = nrows r.
Proof.
  unfold _get_channel.
  destruct (calibrated h name calibration) as [ds|e]; [|discriminate].
  cbn [snd].
  match goal with |- context [snd ?q] => destruct (snd q) as [ds'|e] end;
    cbn [mbind result_bind]; [|discriminate].
  destruct (_get_acq_time mean h resolution) as [acq|e]; cbn [mbind result_bind];
    [|discriminate].
  intros H. apply set_acq_time_ok in H as (Ha & Hl & Hv & _).
  exists acq. split; [reflexivity|]. split; [exact Ha|].
  unfold nrows in *. rewrite Hv. exact Hl.
Qed.

Lemma get_channel_unmasked (h : FileHandler) (name : string) (resolution : Z)
    (calibration : Calibration) (ds r : DataArray float) :
  name <> "VIS" \/ mask_bad_quality h = false ->
  calibrated h name calibration = Ok ds ->
  snd (get_channel h name resolution calibration) = Ok r ->
  values r = values ds /\ coord_x r = coord_x ds /\ coord_y r = coord_y ds
  /\ attrs r = attrs ds.
Proof.
  intros H Hc. unfold _get_channel. rewrite Hc. cbn [snd].
  assert (Hq : snd (if String.eqb name "VIS"
                    then if mask_bad_quality h then ([], _mask_vis h ds)
                         else (fst (_check_vis_quality h ds),
                               _ ← snd (_check_vis_quality h ds); Ok ds)
                    else ([], Ok ds)) = Ok ds
               \/ exists e, snd (if String.eqb name "VIS"
                    then if mask_bad_quality h then ([], _mask_vis h ds)
                         else (fst (_check_vis_quality h ds),
                               _ ← snd (_check_vis_quality h ds); Ok ds)
                    else ([], Ok ds)) = Raise e).
  { destruct (String.eqb_spec name "VIS") as [->|Hne].
    - destruct H as [H|H]; [congruence|]. rewrite H. cbn [snd].
      destruct (snd (_check_vis_quality h ds)) as [[]|e]; cbn [mbind result_bind];
        eauto.
    - left. reflexivity. }
  destruct Hq as [-> | [e ->]]; cbn [mbind result_bind]; [|discriminate].
  destruct (_get_acq_time mean h resolution) as [acq|e]; cbn [mbind result_bind];
    [|discriminate].
  intros Hr. apply set_acq_time_ok in Hr as (_ & _ & Hv & Hx & Hy & Hat).
  repeat split; assumption.
Qed.

Lemma get_channel_masked (h : FileHandler) (resolution : Z)
    (calibration : Calibration) (ds r : DataArray float) (mask : DataArray Z) :
  mask_bad_quality h = true ->
  calibrated h "VIS" calibration = Ok ds ->
  _read_dataset h (nc_masks (nc h)) "quality_pixel_bitmask" = Ok mask ->
  same_grid ds mask = true ->
  snd (get_channel h "VIS" resolution calibration) = Ok r ->
  forall i j d,
    pixel (values ds) i j = Some d ->
    exists m,
      pixel (values mask) i j = Some m
      /\ pixel (values r) i j = Some (if (m =? 0)%Z then d else nan).
Proof.
  intros Hm Hc Hk Hg. apply same_grid_shape in Hg.
  unfold _get_channel. rewrite Hc, Hm.
  cbn [String.eqb Ascii.eqb Bool.eqb snd fst].
  destruct (_mask_vis h ds) as [masked|e] eqn:Ek; cbn [mbind result_bind];
    [|discriminate].
  destruct (mask_vis_ok h ds masked mask Hk Ek) as [_ ->].
  destruct (_get_acq_time mean h resolution) as [acq|e]; cbn [mbind result_bind];
    [|discriminate].
  intros Hr i j d Hd.
  destruct (same_shape_pixel _ _ i j d Hg Hd) as [m Hmk].
  exists m. split; [exact Hmk|].
  apply set_acq_time_ok in Hr as (_ & _ & Hv & _).
  rewrite Hv. cbn [values with_values].
  exact (pixel_zip_with (fun (d : float) (m : Z) => if (m =? 0)%Z then d else nan)
           (values ds) (values mask) i j d m Hd Hmk).
Qed.

End GetChannelFacts.

(** A channel that [_get_channel] returns carries the acquisition times of
    its resolution as the coordinate acq_time, one per image line; unless it
    is VIS with masking enabled, its values, coordinates and attributes are
    those of the calibrated dataset. *)
Theorem get_channel_attaches_acq_time :
  forall prec emax (np_log np_cos np_deg2rad : float -> float) (np_pi : float)
         (interp : Interp) (mean : list Z -> Z)
         (h : FileHandler) (name : string) (resolution : Z)
         (calibration : Calibration) (r : DataArray float),
    snd (_get_channel prec emax np_log np_cos np_deg2rad np_pi interp mean
                      h name resolution calibration) = Ok r ->
    (exists acq,
        _get_acq_time mean h resolution = Ok acq
        /\ acq_time r = Some (map snd acq)
        /\ length acq = nrows r)
    /\ (name <> "VIS" \/ mask_bad_quality h = false ->
        forall ds,
          (raw ← _read_dataset h (nc_arrays (nc h)) name;
           _calibrate prec emax np_log np_cos np_deg2rad np_pi interp
                      h raw name calibration) = Ok ds ->
          values r = values ds /\ coord_x r = coord_x ds /\ coord_y r = coord_y ds
          /\ attrs r = attrs ds).
Proof.
  intros prec emax np_log np_cos np_deg2rad np_pi interp mean h name resolution
         calibration r Hr.
  split.
  - exact (get_channel_acq_time prec emax np_log np_cos np_deg2rad np_pi interp mean
             h name resolution calibration r Hr).
  - intros H ds Hc.
    exact (get_channel_unmasked prec emax np_log np_cos np_deg2rad np_pi interp mean
             h name resolution calibration ds r H Hc Hr).
Qed.

Lemma get_channel_attaches_acq_time_witness :
  exists acq,
    _get_acq_time mean_ns easy_file 4500 = Ok acq
    /\ Some [1001; 2001]%Z = Some (map snd acq)
    /\ length acq = 2.
Proof.
  exact (proj1 (get_channel_attaches_acq_time 24 128 log_of_exponent cos_order2
                  deg2rad64 pi64 xr_interp mean_ns easy_file "IR" 4500%Z radiance
                  (mkDataArray dims_y_x 2
                     [[f32 40; f32 90]; [nan; nan]] None None
                     (Some [1001; 2001]%Z) ∅)
                  eq_refl)).
Defined.

(** With the masking of bad quality pixels enabled and the calibrated VIS
    channel on the grid of the quality bitmask, every pixel whose bitmask is
    not zero is NaN in what [_get_channel] returns, and every other pixel has
    its calibrated value. *)
Theorem get_channel_masks_flagged_pixels :
  forall prec emax (np_log np_cos np_deg2rad : float -> float) (np_pi : float)
         (interp : Interp) (mean : list Z -> Z)
         (h : FileHandler) (resolution : Z) (calibration : Calibration)
         (ds r : DataArray float) (mask : DataArray Z),
    mask_bad_quality h = true ->
    (raw ← _read_dataset h (nc_arrays (nc h)) "VIS";
     _calibrate prec emax np_log np_cos np_deg2rad np_pi interp
                h raw "VIS" calibration) = Ok ds ->
    _read_dataset h (nc_masks (nc h)) "quality_pixel_bitmask" = Ok mask ->
    same_grid ds mask = true ->
    snd (_get_channel prec emax np_log np_cos np_deg2rad np_pi interp mean
                      h "VIS" resolution calibration) = Ok r ->
    forall i j d,
      pixel (values ds) i j = Some d ->
      exists m,
        pixel (values mask) i j = Some m
        /\ pixel (values r) i j = Some (if (m =? 0)%Z then d else nan).
Proof. exact get_channel_masked. Qed.

Lemma get_channel_masks_flagged_pixels_witness :
  (exists m,
      pixel some_ok 1 1 = Some m
      /\ pixel [[nan; nan; nan; nan]; [nan; f32 6; nan; nan];
                [nan; nan; nan; nan]; [nan; nan; nan; nan]] 1 1
         = Some (if (m =? 0)%Z then f32 6 else nan))
  /\ (exists m,
        pixel some_ok 1 2 = Some m
        /\ pixel [[nan; nan; nan; nan]; [nan; f32 6; nan; nan];
                  [nan; nan; nan; nan]; [nan; nan; nan; nan]] 1 2
           = Some (if (m =? 0)%Z then f32 7 else nan)).
Proof.
  pose proof (get_channel_masks_flagged_pixels 53 1024 log_of_exponent cos_order2
                deg2rad64 pi64 xr_interp mean_ns (full_file true) 2250%Z counts
                (mkDataArray dims_y_x 4 vis_4x4
                   (Some [0; 1; 2; 3]%Z) (Some [0; 1; 2; 3]%Z) None ∅)
                (mkDataArray dims_y_x 4
                   [[nan; nan; nan; nan]; [nan; f32 6; nan; nan];
                    [nan; nan; nan; nan]; [nan; nan; nan; nan]]
                   (Some [0; 1; 2; 3]%Z) (Some [0; 1; 2; 3]%Z)
                   (Some [1001; 1001; 2001; 2001]%Z) ∅)
                (mkDataArray dims_y_x 4 some_ok
                   (Some [0; 1; 2; 3]%Z) (Some [0; 1; 2; 3]%Z) None ∅)
                eq_refl eq_refl eq_refl eq_refl eq_refl) as Hp.
  split.
  - exact (Hp 1 1 (f32 6) eq_refl).
  - exact (Hp 1 2 (f32 7) eq_refl).
Defined.

(** ** Errors of the acquisition time *)

(** When the target is longer than the series of scanline times, the
    upsampling succeeds if and only if the grid has an element, its scanline
    labels are distinct and its number of lines divides the size of the
    target; every failure is a [ValueError]: of the mean for a grid without
    an element, of the reindexing for a repeated label, of the relabeling for
    a length that does not divide the target. The division by the number of
    lines never fails. *)
Theorem acq_time_repeat_errors :
  forall (mean : list Z -> Z) (time2d : TimeGrid) (target_y : list Z),
    length time2d < length target_y ->
    ((exists r, _interp_acq_time mean time2d target_y = Ok r)
     <-> zero_size time2d = false
         /\ List.NoDup (map fst time2d)
         /\ Nat.divide (length time2d) (length target_y))
    /\ (forall e,
          _interp_acq_time mean time2d target_y = Raise e ->
          exists msg, e = ValueError msg)
    /\ (length time2d = 0 ->
        exists msg, _interp_acq_time mean time2d target_y = Raise (ValueError msg)).
Proof.
  intros mean time2d target_y Hlt.
  assert (Hdiv : length target_y = length time2d * (length target_y / length time2d)
                 -> Nat.divide (length time2d) (length target_y)).
  { intros E. exists (length target_y / length time2d). lia. }
  assert (Hdiv' : length time2d <> 0 ->
                  Nat.divide (length time2d) (length target_y) ->
                  length target_y
                  = length time2d * (length target_y / length time2d)).
  { intros Hn [k Hk]. rewrite Hk at 2. rewrite Nat.div_mul by exact Hn. lia. }
  destruct (zero_size time2d) eqn:Hz.
  - destruct (interp_acq_time_zero_size mean time2d target_y Hz) as [msg Hm].
    rewrite Hm. split; [|split].
    + split; [intros [r Hr]; discriminate | intros [H _]; discriminate].
    + intros e [= <-]. eauto.
    + intros _. eauto.
  - pose proof (zero_size_length time2d Hz) as Hn.
    rewrite (interp_acq_time_repeat_outcome mean time2d target_y Hz Hlt).
    split; [|split].
    + split.
      * intros [r Hr]. split; [reflexivity|].
        destruct (has_duplicates (map fst time2d)) eqn:Ed; [discriminate|].
        split; [apply has_duplicates_NoDup; exact Ed|].
        destruct (Nat.eqb_spec (length target_y)
                    (length time2d * (length target_y / length time2d))) as [E|];
          [|discriminate].
        apply Hdiv. exact E.
      * intros (_ & Hnd & Hd).
        rewrite (proj2 (has_duplicates_NoDup _) Hnd).
        destruct (Nat.eqb_spec (length target_y)
                    (length time2d * (length target_y / length time2d))) as [|Hne].
        -- eexists. reflexivity.
        -- exfalso. apply Hne, Hdiv'; assumption.
    + intros e.
      destruct (has_duplicates (map fst time2d)); [intros [= <-]; eauto|].
      destruct (negb _); [intros [= <-]; eauto | discriminate].
    + intros H0. contradiction.
Qed.

Lemma acq_time_repeat_errors_witness :
  exists msg,
    _interp_acq_time mean_ns [(0, [1000; 1002]); (1, [2000; 2002])]%Z [0; 1; 2]%Z
    = Raise (ValueError msg).
Proof.
  destruct (acq_time_repeat_errors mean_ns
              [(0, [1000; 1002]); (1, [2000; 2002])]%Z [0; 1; 2]%Z
              ltac:(simpl; lia)) as (_ & He & _).
  destruct (He (ValueError "conflicting sizes for dimension 'y'") eq_refl)
    as [msg E].
  exists msg. rewrite <- E. reflexivity.
Defined.

(** The acquisition times are read from time_ir_wv when the file has it,
    whatever else it has, and from time otherwise; a file with neither
    raises [KeyError] for time, and a file without the x coordinate of the
    resolution raises [KeyError] for that coordinate. *)
Theorem acq_time_source_variable :
  forall (mean : list Z -> Z) (h : FileHandler) (resolution : Z),
    (forall t,
        nc_times (nc h) !! "time_ir_wv" = Some t ->
        _get_acq_time mean h resolution
        = (target ← getitem (nc_coords (nc h))
                       (if _is_high_resol resolution then "x" else "x_ir_wv");
           _interp_acq_time mean t target))
    /\ (forall t,
          nc_times (nc h) !! "time_ir_wv" = None ->
          nc_times (nc h) !! "time" = Some t ->
          _get_acq_time mean h resolution
          = (target ← getitem (nc_coords (nc h))
                         (if _is_high_resol resolution then "x" else "x_ir_wv");
             _interp_acq_time mean t target))
    /\ (nc_times (nc h) !! "time_ir_wv" = None ->
        nc_times (nc h) !! "time" = None ->
        _get_acq_time mean h resolution = Raise (KeyError "time"))
    /\ (forall t,
          nc_times (nc h) !! "time_ir_wv" = Some t ->
          nc_coords (nc h) !! (if _is_high_resol resolution then "x" else "x_ir_wv")
          = None ->
          _get_acq_time mean h resolution
          = Raise (KeyError (if _is_high_resol resolution then "x" else "x_ir_wv"))).
Proof.
  intros mean h resolution. unfold _get_acq_time, getitem.
  split; [|split; [|split]].
  - intros t ->. cbn [mbind result_bind].
    destruct (_is_high_resol resolution); reflexivity.
  - intros t -> ->. cbn [mbind result_bind].
    destruct (_is_high_resol resolution); reflexivity.
  - intros -> ->. reflexivity.
  - intros t ->. cbn [mbind result_bind].
    destruct (_is_high_resol resolution); intros ->; reflexivity.
Qed.

Lemma acq_time_source_variable_witness :
  _get_acq_time mean_ns tall_file 2250 = Raise (KeyError "x").
Proof.
  exact (proj2 (proj2 (proj2 (acq_time_source_variable mean_ns tall_file 2250%Z)))
           [(0, [1000; 1002]); (1, [2000; 2002]); (2, [3000; 3002])]%Z
           eq_refl eq_refl).
Defined.

(** ** Angles *)

Lemma read_dataset_dims {A} (h : FileHandler) (vars : gmap string (DataArray A))
    (name : string) (r : DataArray A) :
  _read_dataset h vars name = Ok r -> dims r = dims_y_x.
Proof.
  unfold _read_dataset.
  destruct (getitem vars _) as [v|]; cbn [mbind result_bind]; [|discriminate].
  destruct (dims v) eqn:Ed; try (intros [= <-]; reflexivity).
  destruct (coord_y v); [intros [= <-]; exact Ed|].
  destruct (getitem _ "y"); cbn [mbind result_bind]; [|discriminate].
  destruct (getitem _ "x"); cbn [mbind result_bind]; [|discriminate].
  unfold assign_coords. destruct (negb _); [discriminate|].
  destruct (negb _); [discriminate|]. intros [= <-]. exact Ed.
Qed.

Lemma interp_tiepoints_ok_result (interp : Interp) (ds r : DataArray float)
    (target_x target_y : list Z) :
  _interp_tiepoints interp ds target_x target_y = Ok r ->
  coord_x r = Some target_x /\ coord_y r = Some target_y
  /\ ncols r = length target_x /\ dims r = dims ds /\ attrs r = attrs ds
  /\ acq_time r = None.
Proof.
  unfold _interp_tiepoints.
  destruct (floordiv _ _) as [s|]; cbn [mbind result_bind]; [|discriminate].
  destruct (slice_step target_x s) as [xs|]; cbn [mbind result_bind]; [|discriminate].
  destruct (slice_step target_y s) as [ys|]; cbn [mbind result_bind]; [|discriminate].
  unfold assign_coords. destruct (negb _); [discriminate|].
  destruct (negb _); [discriminate|]. cbn [mbind result_bind values dims attrs].
  destruct (interp _ _ _ _ _) as [v|]; cbn [mbind result_bind]; [|discriminate].
  intros [= <-]. repeat split.
Qed.

Lemma get_angles_unfold (interp : Interp) (h : FileHandler) (name : string)
    (resolution : Z) :
  _get_angles interp h name resolution
  = (angles ← _read_dataset h (nc_arrays (nc h)) name;
     target_x ← getitem (nc_coords (nc h))
                  (if _is_high_resol resolution then "x" else "x_ir_wv");
     target_y ← getitem (nc_coords (nc h))
                  (if _is_high_resol resolution then "y" else "y_ir_wv");
     _interp_tiepoints interp angles target_x target_y).
Proof.
  unfold _get_angles.
  destruct (_read_dataset h (nc_arrays (nc h)) name); [|reflexivity].
  cbn [mbind result_bind].
  destruct (_is_high_resol resolution).
  - destruct (getitem (nc_coords (nc h)) "x"); [|reflexivity].
    cbn [mbind result_bind].
    destruct (getitem (nc_coords (nc h)) "y"); reflexivity.
  - destruct (getitem (nc_coords (nc h)) "x_ir_wv"); [|reflexivity].
    cbn [mbind result_bind].
    destruct (getitem (nc_coords (nc h)) "y_ir_wv"); reflexivity.
Qed.

(** An angle dataset that [_get_angles] returns is on the grid of the
    requested resolution: its coordinates are the x and y coordinates of that
    resolution in the file, its dimensions are [('y', 'x')], and the size of
    the x coordinate is a multiple of the width of the tie-point grid. *)
Theorem get_angles_on_target_grid :
  forall (interp : Interp) (h : FileHandler) (name : string) (resolution : Z)
         (r : DataArray float),
    _get_angles interp h name resolution = Ok r ->
    exists angles target_x target_y,
      _read_dataset h (nc_arrays (nc h)) name = Ok angles
      /\ nc_coords (nc h) !! (if _is_high_resol resolution then "x" else "x_ir_wv")
         = Some target_x
      /\ nc_coords (nc h) !! (if _is_high_resol resolution then "y" else "y_ir_wv")
         = Some target_y
      /\ coord_x r = Some target_x /\ coord_y r = Some target_y
      /\ ncols r = length target_x /\ dims r = dims_y_x
      /\ Nat.divide (ncols angles) (length target_x).
Proof.
  intros interp h name resolution r. rewrite get_angles_unfold. unfold getitem.
  destruct (_read_dataset h (nc_arrays (nc h)) name) as [angles|] eqn:Ea;
    cbn [mbind result_bind]; [|discriminate].
  destruct (nc_coords (nc h) !! (if _is_high_resol resolution then "x" else "x_ir_wv"))
    as [tx|] eqn:Ex; cbn [mbind result_bind]; [|discriminate].
  destruct (nc_coords (nc h) !! (if _is_high_resol resolution then "y" else "y_ir_wv"))
    as [ty|] eqn:Ey; cbn [mbind result_bind]; [|discriminate].
  intros Hr. exists angles, tx, ty.
  pose proof (interp_tiepoints_ok_result _ _ _ _ _ Hr) as (Hx & Hy & Hn & Hd & _).
  split; [reflexivity|]. split; [reflexivity|]. split; [reflexivity|].
  split; [exact Hx|]. split; [exact Hy|]. split; [exact Hn|].
  split; [rewrite Hd; exact (read_dataset_dims _ _ _ _ Ea)|].
  destruct (decide (Nat.divide (ncols angles) (length tx))) as [Hdiv|Hnd];
    [exact Hdiv|].
  destruct (interp_tiepoints_x_not_multiple interp angles tx ty Hnd) as [e He].
  congruence.
Qed.

Lemma get_angles_on_target_grid_witness :
  exists angles target_x target_y,
    _read_dataset (full_file false) (nc_arrays (nc (full_file false)))
                  "solar_zenith_angle" = Ok angles
    /\ nc_coords (nc (full_file false)) !! "x" = Some target_x
    /\ nc_coords (nc (full_file false)) !! "y" = Some target_y
    /\ Some [0; 1; 2; 3]%Z = Some target_x /\ Some [0; 1; 2; 3]%Z = Some target_y
    /\ 4 = length target_x /\ dims_y_x = dims_y_x
    /\ Nat.divide (ncols angles) (length target_x).
Proof.
  exact (get_angles_on_target_grid xr_interp (full_file false)
           "solar_zenith_angle" 2250%Z
           (mkDataArray dims_y_x 4
              (linear_interp [0; 2]%Z [0; 2]%Z sza_tie [0; 1; 2; 3]%Z [0; 1; 2; 3]%Z)
              (Some [0; 1; 2; 3]%Z) (Some [0; 1; 2; 3]%Z) None ∅)
           eq_refl).
Defined.

(** ** Other datasets *)

Lemma read_dataset_values {A} (h : FileHandler) (vars : gmap string (DataArray A))
    (name : string) (r : DataArray A) :
  (_read_dataset h vars name = Ok r ->
   exists v, vars !! _get_nc_key h name = Some v /\ values r = values v)
  /\ (vars !! _get_nc_key h name = None ->
      _read_dataset h vars name = Raise (KeyError (_get_nc_key h name))).
Proof.
  unfold _read_dataset, getitem. split.
  - destruct (vars !! _get_nc_key h name) as [v|]; cbn [mbind result_bind];
      [|discriminate].
    intros H. exists v. split; [reflexivity|].
    destruct (dims v); try (injection H as <-; reflexivity).
    destruct (coord_y v); [injection H as <-; reflexivity|].
    destruct (nc_coords (nc h) !! "y"); cbn [mbind result_bind] in H; [|discriminate].
    destruct (nc_coords (nc h) !! "x"); cbn [mbind result_bind] in H; [|discriminate].
    unfold assign_coords in H. destruct (negb _); [discriminate|].
    destruct (negb _); [discriminate|]. injection H as <-. reflexivity.
  - intros ->. reflexivity.
Qed.

Lemma existsb_eqb_string_In (name : string) (l : list string) :
  existsb (String.eqb name) l = true <-> In name l.
Proof.
  rewrite existsb_exists. split.
  - intros (x & Hx & E). apply String.eqb_eq in E. subst x. exact Hx.
  - intros H. exists name. split; [exact H | apply String.eqb_refl].
Qed.

(** A floating-point dataset that is neither a channel nor an angle is the
    variable of that name as [_read_dataset] returns it, except that the two
    reflectance uncertainties are multiplied by 100, pixel by pixel, which
    drops their attributes; coordinates are kept in both cases, and a name the
    file lacks raises [KeyError] with that name. *)
Theorem other_dataset_percent :
  forall prec emax (h : FileHandler) (name : string),
    name <> "VIS" -> name <> "WV" -> name <> "IR" ->
    (nc_arrays (nc h) !! name = None ->
     _get_other_dataset prec emax h name = Raise (KeyError name))
    /\ (forall r,
          _get_other_dataset prec emax h name = Ok r ->
          exists v ds,
            nc_arrays (nc h) !! name = Some v
            /\ _read_dataset h (nc_arrays (nc h)) name = Ok ds
            /\ dims r = dims_y_x
            /\ coord_x r = coord_x ds /\ coord_y r = coord_y ds
            /\ (In name OTHER_REFLECTANCES ->
                (forall i j,
                    pixel (values r) i j
                    = (fun x => SFmul prec emax x (of_Z prec emax 100))
                        <$> pixel (values v) i j)
                /\ attrs r = ∅)
            /\ (~ In name OTHER_REFLECTANCES -> r = ds /\ values r = values v)).
Proof.
  intros prec emax h name H1 H2 H3.
  pose proof (get_nc_key_other h name H1 H2 H3) as Hk.
  unfold _get_other_dataset. split.
  - intros Hn. unfold _read_dataset, getitem. rewrite Hk, Hn. reflexivity.
  - intros r.
    destruct (_read_dataset h (nc_arrays (nc h)) name) as [ds|e] eqn:Er;
      cbn [mbind result_bind]; [|discriminate].
    destruct (proj1 (read_dataset_values h (nc_arrays (nc h)) name ds) Er)
      as (v & Hv & Hval).
    rewrite Hk in Hv.
    pose proof (read_dataset_dims _ _ _ _ Er) as Hd.
    destruct (existsb (String.eqb name) OTHER_REFLECTANCES) eqn:Eo.
    + intros [= <-]. exists v, ds.
      split; [exact Hv|]. split; [reflexivity|]. split; [exact Hd|].
      split; [reflexivity|]. split; [reflexivity|]. split.
      * intros _. split; [|reflexivity]. intros i j.
        unfold elementwise, with_attrs, with_values. cbn [values].
        rewrite <- Hval. apply pixel_map.
      * intros Hn. exfalso. apply Hn, existsb_eqb_string_In. exact Eo.
    + intros [= <-]. exists v, ds.
      split; [exact Hv|]. split; [reflexivity|]. split; [exact Hd|].
      split; [reflexivity|]. split; [reflexivity|]. split.
      * intros Hin. apply existsb_eqb_string_In in Hin. congruence.
      * intros _. split; [reflexivity | exact Hval].
Qed.

Lemma other_dataset_percent_witness :
  exists r,
    _get_other_dataset 24 128 uncertainty_file
      "u_independent_toa_bidirectional_reflectance" = Ok r
    /\ pixel (values r) 1 2 = Some (f32 700)
    /\ attrs r = ∅.
Proof.
  destruct (proj2 (other_dataset_percent 24 128 uncertainty_file
                     "u_independent_toa_bidirectional_reflectance"
                     ltac:(discriminate) ltac:(discriminate) ltac:(discriminate))
              (elementwise (fun x => SFmul 24 128 x (of_Z 24 128 100))
                 (mkDataArray dims_y_x 4 vis_4x4
                    (Some [0; 1; 2; 3]%Z) (Some [0; 1; 2; 3]%Z) None ∅))
              eq_refl) as (v & ds & Hv & _ & _ & _ & _ & Hin & _).
  exists (elementwise (fun x => SFmul 24 128 x (of_Z 24 128 100))
            (mkDataArray dims_y_x 4 vis_4x4
               (Some [0; 1; 2; 3]%Z) (Some [0; 1; 2; 3]%Z) None ∅)).
  split; [reflexivity|].
  destruct (Hin ltac:(left; reflexivity)) as [Hp Ha].
  split; [|exact Ha]. refine (eq_trans (Hp 1 2) _).
  vm_compute in Hv. injection Hv as <-. vm_compute. reflexivity.
Defined.

(** ** Coefficients of the infrared and water vapour channels *)

Lemma get_coefs_first_missing (h : FileHandler) (channel calibration : string)
    (by_calibration : gmap string (string * string)) (ka kb : string) :
  nc_keys_coefs !! channel = Some by_calibration ->
  by_calibration !! calibration = Some (ka, kb) ->
  match first_missing h [ka; kb] with
  | Some key => _get_coefs_ir_wv h channel calibration = Raise (KeyError key)
  | None => exists ab, _get_coefs_ir_wv h channel calibration = Ok ab
  end.
Proof.
  intros Hc Hk. unfold _get_coefs_ir_wv, getitem, first_missing.
  rewrite Hc. cbn [mbind result_bind]. rewrite Hk. cbn [mbind result_bind fst snd find].
  destruct (nc_scalars (nc h) !! ka) as [a|];
    [rewrite bool_decide_eq_false_2 by discriminate
    |rewrite bool_decide_eq_true_2 by reflexivity; reflexivity].
  destruct (nc_scalars (nc h) !! kb) as [b|];
    [rewrite bool_decide_eq_false_2 by discriminate
    |rewrite bool_decide_eq_true_2 by reflexivity; reflexivity].
  cbn [mbind result_bind]. eexists. reflexivity.
Qed.

Lemma first_missing_app (h : FileHandler) (l k : list string) :
  first_missing h (l ++ k)
  = match first_missing h l with
    | Some key => Some key
    | None => first_missing h k
    end.
Proof.
  unfold first_missing. induction l as [|x l IH]; [reflexivity|].
  cbn [app find]. destruct (bool_decide _); [reflexivity | exact IH].
Qed.

(** For a channel of the coefficient table, the radiance is computed exactly
    when the file has the offset and the slope of the radiance, and the
    brightness temperature exactly when it also has those of the brightness
    temperature; otherwise [KeyError] names the first variable that is
    lacking, the radiance coefficients being read before those of the
    brightness temperature and an offset before its slope. *)
Theorem ir_wv_missing_coefficient :
  forall prec emax (np_log : float -> float) (h : FileHandler)
         (cnts : DataArray float) (channel : string)
         (by_calibration : gmap string (string * string))
         (ka kb kta ktb : string),
    nc_keys_coefs !! channel = Some by_calibration ->
    by_calibration !! "radiance" = Some (ka, kb) ->
    by_calibration !! "brightness_temperature" = Some (kta, ktb) ->
    match first_missing h [ka; kb] with
    | Some key =>
        _calibrate_ir_wv prec emax np_log h cnts channel radiance
        = Raise (KeyError key)
    | None =>
        exists r, _calibrate_ir_wv prec emax np_log h cnts channel radiance = Ok r
    end
    /\ match first_missing h [ka; kb; kta; ktb] with
       | Some key =>
           _calibrate_ir_wv prec emax np_log h cnts channel brightness_temperature
           = Raise (KeyError key)
       | None =>
           exists r,
             _calibrate_ir_wv prec emax np_log h cnts channel brightness_temperature
             = Ok r
       end.
Proof.
  intros prec emax np_log h cnts channel by_calibration ka kb kta ktb Hc Hr Ht.
  pose proof (get_coefs_first_missing h channel "radiance" by_calibration ka kb Hc Hr)
    as Hrad.
  pose proof (get_coefs_first_missing h channel "brightness_temperature"
                by_calibration kta ktb Hc Ht) as Hbt.
  change [ka; kb; kta; ktb] with (app [ka; kb] [kta; ktb]).
  rewrite first_missing_app.
  unfold _calibrate_ir_wv, _ir_wv_counts_to_radiance,
    _ir_wv_radiance_to_brightness_temperature.
  destruct (first_missing h [ka; kb]) as [key|].
  - rewrite Hrad. split; reflexivity.
  - destruct Hrad as [ab ->]. cbn [mbind result_bind].
    split; [eexists; reflexivity|].
    destruct (first_missing h [kta; ktb]) as [key|].
    + rewrite Hbt. reflexivity.
    + destruct Hbt as [ab' ->]. cbn [mbind result_bind]. eexists. reflexivity.
Qed.

Lemma ir_wv_missing_coefficient_witness :
  _calibrate_ir_wv 24 128 log_of_exponent easy_file
    (no_coords dims_y_x 2 [[f32 100; f32 200]]) "WV" radiance
  = Raise (KeyError "a_wv")
  /\ exists r,
      _calibrate_ir_wv 24 128 log_of_exponent easy_file
        (no_coords dims_y_x 2 [[f32 100; f32 200]]) "IR" brightness_temperature
      = Ok r.
Proof.
  split.
  - exact (proj1 (ir_wv_missing_coefficient 24 128 log_of_exponent easy_file
                    (no_coords dims_y_x 2 [[f32 100; f32 200]]) "WV"
                    (<["radiance" := ("a_wv", "b_wv")]>
                       (<["brightness_temperature" := ("bt_a_wv", "bt_b_wv")]> ∅))
                    "a_wv" "b_wv" "bt_a_wv" "bt_b_wv" eq_refl eq_refl eq_refl)).
  - exact (proj2 (ir_wv_missing_coefficient 24 128 log_of_exponent easy_file
                    (no_coords dims_y_x 2 [[f32 100; f32 200]]) "IR"
                    (<["radiance" := ("a_ir", "b_ir")]>
                       (<["brightness_temperature" := ("bt_a_ir", "bt_b_ir")]> ∅))
                    "a_ir" "b_ir" "bt_a_ir" "bt_b_ir" eq_refl eq_refl eq_refl)).
Defined.

(** ** Failures of [_get_channel] *)

(** [_get_channel] hands on the error of reading or calibrating the channel
    without a warning; the VIS channel needs the variable
    quality_pixel_bitmask whether bad pixels are masked or only checked, and
    raises [KeyError] with that name when the file lacks it; a channel that is
    not VIS needs no bitmask and fails after calibration only with the error
    of the acquisition time or of its attachment. *)
Theorem get_channel_failures :
  forall prec emax (np_log np_cos np_deg2rad : float -> float) (np_pi : float)
         (interp : Interp) (mean : list Z -> Z)
         (h : FileHandler) (name : string) (resolution : Z)
         (calibration : Calibration),
    (forall e,
        (raw ← _read_dataset h (nc_arrays (nc h)) name;
         _calibrate prec emax np_log np_cos np_deg2rad np_pi interp
                    h raw name calibration) = Raise e ->
        _get_channel prec emax np_log np_cos np_deg2rad np_pi interp mean
                     h name resolution calibration = ([], Raise e))
    /\ (forall ds,
          (raw ← _read_dataset h (nc_arrays (nc h)) name;
           _calibrate prec emax np_log np_cos np_deg2rad np_pi interp
                      h raw name calibration) = Ok ds ->
          name = "VIS" ->
          nc_masks (nc h) !! "quality_pixel_bitmask" = None ->
          _get_channel prec emax np_log np_cos np_deg2rad np_pi interp mean
                       h name resolution calibration
          = ([], Raise (KeyError "quality_pixel_bitmask")))
    /\ (forall ds,
          (raw ← _read_dataset h (nc_arrays (nc h)) name;
           _calibrate prec emax np_log np_cos np_deg2rad np_pi interp
                      h raw name calibration) = Ok ds ->
          name <> "VIS" ->
          _get_channel prec emax np_log np_cos np_deg2rad np_pi interp mean
                       h name resolution calibration
          = ([], acq ← _get_acq_time mean h resolution; set_acq_time ds acq)).
Proof.
  intros prec emax np_log np_cos np_deg2rad np_pi interp mean h name resolution
         calibration.
  split; [|split].
  - intros e He. unfold _get_channel. rewrite He. reflexivity.
  - intros ds Hc -> Hm. unfold _get_channel. rewrite Hc.
    cbn [String.eqb Ascii.eqb Bool.eqb].
    assert (Hk : _read_dataset h (nc_masks (nc h)) "quality_pixel_bitmask"
                 = Raise (KeyError "quality_pixel_bitmask")).
    { unfold _read_dataset, getitem.
      rewrite (get_nc_key_other h "quality_pixel_bitmask") by discriminate.
      rewrite Hm. reflexivity. }
    unfold _mask_vis, _check_vis_quality. rewrite Hk.
    destruct (mask_bad_quality h); reflexivity.
  - intros ds Hc Hn. unfold _get_channel. rewrite Hc.
    rewrite (proj2 (String.eqb_neq name "VIS") Hn). reflexivity.
Qed.

Lemma get_channel_failures_witness :
  _get_channel 24 128 log_of_exponent cos_order2 deg2rad64 pi64 xr_interp mean_ns
               tall_file "IR" 4500 counts
  = ([], Raise (KeyError "count_ir")).
Proof.
  exact (proj1 (get_channel_failures 24 128 log_of_exponent cos_order2 deg2rad64
                  pi64 xr_interp mean_ns tall_file "IR" 4500%Z counts)
           (KeyError "count_ir") eq_refl).
Defined.
